(** * FutureMedia: request handlers over the relational store

    A shallow embedding of the tRPC routers of the application
    (notification, post, user, story and message routers) together with
    the part of the Prisma schema they touch.

    - Rows are records whose fields follow [prisma/schema.prisma]; a
      nullable column is an [option].
    - A table is the list of its rows in storage order; the store is the
      record of the tables.
    - A handler is a computation in the monad [M]: it reads and writes
      the store and either returns a value or throws.  A throw keeps the
      writes made before it (the handlers open no transaction).
    - A [create] is refused by the client when its [data] does not fit
      the schema (a [type] outside the enum [NotificationType], a
      missing required field), and by the database when it breaks a
      unique index (P2002) or a foreign key (P2003).  The foreign keys
      are checked where a handler passes on an identifier that it has
      not looked up: the references of a new notification, the two ends
      of a new follow edge, the members of a new group.  Elsewhere the
      handler has found the row before it writes, or the identifier is
      that of the session user.
    - Timestamps ([DateTime]) are integers (milliseconds); the values
      the store generates for a new row ([cuid()], [now()]) are read
      from a [Defaults] record handed to the handler. *)

From Stdlib Require Import String List ZArith Bool Arith Lia.
From Stdlib Require Import Permutation Sorted.
Import ListNotations.

Local Open Scope string_scope.
Local Open Scope list_scope.

(** ** JavaScript values used by the handlers *)

(** Truthiness of a string: only the empty string is falsy. *)
Definition truthy (s : string) : bool := negb (String.eqb s "").

(** Equality filter on a nullable column: [{ col: v }] never matches NULL. *)
Definition column_is (v : string) (col : option string) : bool :=
  match col with
  | Some x => String.eqb x v
  | None => false
  end.

(** [String.prototype.length] counts UTF-16 code units.  A string of
    the model is the UTF-8 encoding of the JavaScript string: a
    continuation byte adds nothing, the lead byte of a sequence of up to
    three bytes stands for one code unit, the lead byte of a four-byte
    sequence for a surrogate pair. *)
Definition codeUnits (c : Ascii.ascii) : nat :=
  let n := Ascii.nat_of_ascii c in
  if (n <? 128)%nat then 1
  else if (n <? 192)%nat then 0
  else if (n <? 240)%nat then 1
  else 2.

Fixpoint js_length (s : string) : nat :=
  match s with
  | EmptyString => 0
  | String c s' => codeUnits c + js_length s'
  end.

(** Filter [{ col: null }]. *)
Definition column_null {A : Type} (col : option A) : bool :=
  match col with
  | Some _ => false
  | None => true
  end.

(** Does the reference [ref] point at a row of the table [t]?  A NULL
    reference points nowhere and is fine. *)
Definition refers {A : Type} (key : A -> string) (t : list A)
           (ref : option string) : bool :=
  match ref with
  | Some k => existsb (fun x => String.eqb (key x) k) t
  | None => true
  end.

(** [Array.prototype.pop]: removes and returns the last element. *)
Fixpoint pop {A : Type} (l : list A) : option A * list A :=
  match l with
  | [] => (None, [])
  | x :: l' =>
      match l' with
      | [] => (Some x, [])
      | _ :: _ => let (last, rest) := pop l' in (last, x :: rest)
      end
  end.

(** ** Rows of the schema *)

Module User.
(** [emailVerified] and [reputationScore] are read by no handler below
    and are left out. *)
Record t := mk {
  id : string;
  name : option string;
  email : option string;
  image : option string;
  coverImage : option string;
  bio : option string;
  username : option string;
  hashedPassword : option string;
  createdAt : Z;
  updatedAt : Z
}.
End User.

Module Post.
Record t := mk {
  id : string;
  caption : option string;
  contentUrl : option string;
  contentType : string;
  ipfsHash : option string;
  integrityHash : option string;
  createdAt : Z;
  updatedAt : Z;
  userId : string;
  visibility : string
}.
End Post.

Module Like.
Record t := mk {
  id : string;
  createdAt : Z;
  userId : string;
  postId : option string;
  commentId : option string
}.
End Like.

Module Story.
Record t := mk {
  id : string;
  mediaUrl : string;
  mediaType : string;
  duration : option Z;
  createdAt : Z;
  expiresAt : Z;
  userId : string
}.
End Story.

Module StoryView.
Record t := mk {
  id : string;
  storyId : string;
  viewerId : string;
  viewedAt : Z
}.
End StoryView.

Module Notification.
(** The column [type] is of the enum [NotificationType] in the schema
    (TEXT in the migration); the handlers pass string literals, which
    the client checks against the enum when a row is created. *)
Record t := mk {
  id : string;
  type : string;
  content : string;
  isRead : bool;
  createdAt : Z;
  receiverId : string;
  senderId : option string;
  postId : option string;
  commentId : option string;
  storyId : option string;
  reelId : option string;
  messageId : option string
}.

Definition set_isRead (b : bool) (n : t) : t :=
  mk (id n) (type n) (content n) b (createdAt n) (receiverId n)
     (senderId n) (postId n) (commentId n) (storyId n) (reelId n)
     (messageId n).
End Notification.

Module Message.
Record t := mk {
  id : string;
  content : string;
  encryptedContent : option string;
  encryptionKey : option string;
  contentType : string;
  createdAt : Z;
  senderId : string;
  receiverId : string;
  readAt : option Z;
  groupId : option string
}.

Definition set_readAt (d : option Z) (m : t) : t :=
  mk (id m) (content m) (encryptedContent m) (encryptionKey m)
     (contentType m) (createdAt m) (senderId m) (receiverId m) d
     (groupId m).
End Message.

Module GroupMember.
Record t := mk {
  id : string;
  userId : string;
  groupId : string;
  role : string;
  joinedAt : Z
}.
End GroupMember.

Module Follow.
Record t := mk {
  id : string;
  followerId : string;
  followingId : string;
  createdAt : Z
}.
End Follow.

Module Comment.
Record t := mk {
  id : string;
  content : string;
  createdAt : Z;
  updatedAt : Z;
  postId : string;
  userId : string
}.
End Comment.

Module Reaction.
Record t := mk {
  id : string;
  type : string;
  createdAt : Z;
  userId : string;
  postId : option string;
  commentId : option string;
  messageId : option string;
  storyId : option string;
  reelId : option string
}.

Definition set_type (ty : string) (r : t) : t :=
  mk (id r) ty (createdAt r) (userId r) (postId r) (commentId r)
     (messageId r) (storyId r) (reelId r).
End Reaction.

Module Reel.
Record t := mk {
  id : string;
  videoUrl : string;
  caption : option string;
  soundName : option string;
  createdAt : Z;
  userId : string
}.
End Reel.

Module Group.
Record t := mk {
  id : string;
  name : string;
  description : option string;
  imageUrl : option string;
  createdAt : Z;
  updatedAt : Z
}.
End Group.

(** The values of the enum [NotificationType] of the schema. *)
Definition NotificationType : list string :=
  ["LIKE"; "COMMENT"; "FOLLOW"; "MENTION"; "STORY_VIEW"; "REEL_VIEW";
   "NEW_POST"; "NEW_STORY"; "NEW_REEL"; "SYSTEM"].

(** ** The store *)

Record Store := mkStore {
  users : list User.t;
  posts : list Post.t;
  likes : list Like.t;
  stories : list Story.t;
  storyViews : list StoryView.t;
  notifications : list Notification.t;
  messages : list Message.t;
  groupMembers : list GroupMember.t
}.

Definition emptyStore : Store := mkStore [] [] [] [] [] [] [] [].

Definition set_users (v : list User.t) (s : Store) : Store :=
  mkStore v (posts s) (likes s) (stories s) (storyViews s)
          (notifications s) (messages s) (groupMembers s).
Definition set_likes (v : list Like.t) (s : Store) : Store :=
  mkStore (users s) (posts s) v (stories s) (storyViews s)
          (notifications s) (messages s) (groupMembers s).
Definition set_storyViews (v : list StoryView.t) (s : Store) : Store :=
  mkStore (users s) (posts s) (likes s) (stories s) v
          (notifications s) (messages s) (groupMembers s).
Definition set_notifications (v : list Notification.t) (s : Store) : Store :=
  mkStore (users s) (posts s) (likes s) (stories s) (storyViews s)
          v (messages s) (groupMembers s).
Definition set_messages (v : list Message.t) (s : Store) : Store :=
  mkStore (users s) (posts s) (likes s) (stories s) (storyViews s)
          (notifications s) v (groupMembers s).

(** The store together with the tables of the social graph, the
    comments, the reactions, the reels and the groups. *)
Record Database := mkDatabase {
  core : Store;
  follows : list Follow.t;
  comments : list Comment.t;
  reactions : list Reaction.t;
  reels : list Reel.t;
  groups : list Group.t
}.

Definition emptyDatabase : Database :=
  mkDatabase emptyStore [] [] [] [] [].

Definition set_core (v : Store) (d : Database) : Database :=
  mkDatabase v (follows d) (comments d) (reactions d) (reels d) (groups d).
Definition set_follows (v : list Follow.t) (d : Database) : Database :=
  mkDatabase (core d) v (comments d) (reactions d) (reels d) (groups d).
Definition set_comments (v : list Comment.t) (d : Database) : Database :=
  mkDatabase (core d) (follows d) v (reactions d) (reels d) (groups d).
Definition set_reactions (v : list Reaction.t) (d : Database) : Database :=
  mkDatabase (core d) (follows d) (comments d) v (reels d) (groups d).
Definition set_reels (v : list Reel.t) (d : Database) : Database :=
  mkDatabase (core d) (follows d) (comments d) (reactions d) v (groups d).
Definition set_groups (v : list Group.t) (d : Database) : Database :=
  mkDatabase (core d) (follows d) (comments d) (reactions d) (reels d) v.

Definition set_posts (v : list Post.t) (s : Store) : Store :=
  mkStore (users s) v (likes s) (stories s) (storyViews s)
          (notifications s) (messages s) (groupMembers s).
Definition set_stories (v : list Story.t) (s : Store) : Store :=
  mkStore (users s) (posts s) (likes s) v (storyViews s)
          (notifications s) (messages s) (groupMembers s).
Definition set_groupMembers (v : list GroupMember.t) (s : Store) : Store :=
  mkStore (users s) (posts s) (likes s) (stories s) (storyViews s)
          (notifications s) (messages s) v.

(** What the store generates for the rows a request creates: the [n]-th
    [cuid()] of the request and the value of [now()] / [new Date()]. *)
Record Defaults := mkDefaults {
  cuid : nat -> string;
  now : Z
}.

(** ** Errors and the handler monad *)

Inductive ErrorCode :=
  | UNAUTHORIZED
  | FORBIDDEN
  | NOT_FOUND
  | BAD_REQUEST.

Inductive Exception :=
  | TRPCError (code : ErrorCode) (message : string)
  | Error (message : string)
  | PrismaClientKnownRequestError (code : string)
  | PrismaClientValidationError.

Inductive Result (A : Type) :=
  | Ok (a : A)
  | Err (e : Exception).
Arguments Ok {A} a.
Arguments Err {A} e.

Definition M (A : Type) : Type := Store -> Result A * Store.

Definition ret {A : Type} (a : A) : M A := fun s => (Ok a, s).

Definition throw {A : Type} (e : Exception) : M A := fun s => (Err e, s).

Definition bind {A B : Type} (m : M A) (k : A -> M B) : M B :=
  fun s =>
    match m s with
    | (Ok a, s') => k a s'
    | (Err e, s') => (Err e, s')
    end.

Definition gets {A : Type} (f : Store -> A) : M A := fun s => (Ok (f s), s).

Definition modify (f : Store -> Store) : M unit := fun s => (Ok tt, f s).

Declare Scope handler_scope.
Delimit Scope handler_scope with handler.
Notation "x <- m ;; k" := (bind m (fun x => k))
  (at level 100, m at next level, right associativity) : handler_scope.
Notation "m ;;; k" := (bind m (fun _ => k))
  (at level 100, right associativity) : handler_scope.
Local Open Scope handler_scope.

(** Handlers that also use the tables of [Database] run in [Tx]; [lift]
    runs a computation on the store inside the database. *)
Definition Tx (A : Type) : Type := Database -> Result A * Database.

Definition retT {A : Type} (a : A) : Tx A := fun d => (Ok a, d).

Definition throwT {A : Type} (e : Exception) : Tx A := fun d => (Err e, d).

Definition bindT {A B : Type} (m : Tx A) (k : A -> Tx B) : Tx B :=
  fun d =>
    match m d with
    | (Ok a, d') => k a d'
    | (Err e, d') => (Err e, d')
    end.

Definition getsT {A : Type} (f : Database -> A) : Tx A :=
  fun d => (Ok (f d), d).

Definition lift {A : Type} (m : M A) : Tx A :=
  fun d => let (r, s') := m (core d) in (r, set_core s' d).

Declare Scope tx_scope.
Delimit Scope tx_scope with tx.
Notation "x <- m ;; k" := (bindT m (fun x => k))
  (at level 100, m at next level, right associativity) : tx_scope.
Notation "m ;;; k" := (bindT m (fun _ => k))
  (at level 100, right associativity) : tx_scope.

(** ** Queries on one table *)

Module Table.
Section Queries.
Context {Row : Type}.
Variable key : Row -> string.
Variable createdAt : Row -> Z.

(** [newerFirst a b]: [a] may precede [b] in a listing by creation
    time, newest first. *)
Definition newerFirst (a b : Row) : Prop :=
  (createdAt a >= createdAt b)%Z.

(** Insert keeping the list in descending [createdAt] order; rows with
    the same timestamp keep their storage order. *)
Fixpoint insertDesc (r : Row) (l : list Row) : list Row :=
  match l with
  | [] => [r]
  | x :: l' =>
    if (createdAt x >? createdAt r)%Z then x :: insertDesc r l'
    else r :: x :: l'
  end.

(** [orderBy: { createdAt: "desc" }]. *)
Definition orderByDesc (l : list Row) : list Row :=
  fold_right insertDesc [] l.

(** [cursor: { id }]: the result starts at the row with that
    identifier, the row itself included; there is no [skip].  An
    identifier that is not in the result gives no rows. *)
Fixpoint seek (k : string) (l : list Row) : list Row :=
  match l with
  | [] => []
  | r :: l' => if String.eqb (key r) k then r :: l' else seek k l'
  end.

Definition findMany (where_ : Row -> bool) (take : Z)
         (cursor : option string) (t : list Row) : list Row :=
  let ordered := orderByDesc (filter where_ t) in
  let from :=
  match cursor with
  | Some k => seek k ordered
  | None => ordered
  end in
  firstn (Z.to_nat take) from.

Definition findFirst (where_ : Row -> bool) (t : list Row) : option Row :=
  find where_ t.

Definition findUnique (k : string) (t : list Row) : option Row :=
  find (fun r => String.eqb (key r) k) t.

Definition count (where_ : Row -> bool) (t : list Row) : nat :=
  length (filter where_ t).

Definition update (k : string) (data : Row -> Row) (t : list Row)
  : list Row :=
  map (fun r => if String.eqb (key r) k then data r else r) t.

Definition updateMany (where_ : Row -> bool) (data : Row -> Row)
         (t : list Row) : list Row :=
  map (fun r => if where_ r then data r else r) t.

Definition deleteMany (where_ : Row -> bool) (t : list Row) : list Row :=
  filter (fun r => negb (where_ r)) t.

Definition create (r : Row) (t : list Row) : list Row := t ++ [r].
End Queries.
End Table.

(** ** [ctx.db]: the delegates of the Prisma client

    The [include] and [select] arguments of the queries only choose
    which columns and joined rows are sent back; they are not modelled,
    a query returns the rows of its own table. *)

Module db.

Module notification.
(** The [data] argument of [create], but for the references to a
    comment and to a reel, which point into tables of [Database]; the
    store fills in [id], [isRead] (default false) and [createdAt]. *)
Record Data := mkData {
  type : string;
  content : string;
  receiverId : string;
  senderId : option string;
  postId : option string;
  storyId : option string;
  messageId : option string
}.

Definition row (g : Defaults) (i : nat) (d : Data)
           (commentId reelId : option string) : Notification.t :=
  Notification.mk (cuid g i) (type d) (content d) false (now g)
    (receiverId d) (senderId d) (postId d) commentId (storyId d)
    reelId (messageId d).

(** The client refuses a [type] that is not a value of the enum
    [NotificationType], before anything is sent to the database. *)
Definition type_ok (d : Data) : bool :=
  existsb (String.eqb (type d)) NotificationType.

(** The foreign keys of [Notification] into the tables of [Store]:
    receiver, sender, post, story and message. *)
Definition references_ok (s : Store) (d : Data) : bool :=
  refers User.id (users s) (Some (receiverId d))
  && refers User.id (users s) (senderId d)
  && refers Post.id (posts s) (postId d)
  && refers Story.id (stories s) (storyId d)
  && refers Message.id (messages s) (messageId d).

(** [findMany] with [orderBy: { createdAt: "desc" }]. *)
Definition findMany (where_ : Notification.t -> bool) (take : Z)
           (cursor : option string) : M (list Notification.t) :=
  gets (fun s =>
    Table.findMany Notification.id Notification.createdAt where_ take
                   cursor (notifications s)).

Definition findUnique (k : string) : M (option Notification.t) :=
  gets (fun s => Table.findUnique Notification.id k (notifications s)).

(** [update] fails with P2025 when no row has the identifier. *)
Definition update (k : string) (data : Notification.t -> Notification.t)
  : M Notification.t :=
  fun s =>
    match Table.findUnique Notification.id k (notifications s) with
    | Some n =>
        (Ok (data n),
         set_notifications
           (Table.update Notification.id k data (notifications s)) s)
    | None => (Err (PrismaClientKnownRequestError "P2025"), s)
    end.

(** [updateMany] returns the number of rows it changed. *)
Definition updateMany (where_ : Notification.t -> bool)
           (data : Notification.t -> Notification.t) : M nat :=
  fun s =>
    (Ok (Table.count where_ (notifications s)),
     set_notifications
       (Table.updateMany where_ data (notifications s)) s).

Definition count (where_ : Notification.t -> bool) : M nat :=
  gets (fun s => Table.count where_ (notifications s)).

(** [create] of a row that refers to no comment and to no reel.  A
    [type] outside the enum is refused by the client
    (PrismaClientValidationError), a reference to a missing row by the
    database (P2003); nothing is stored then. *)
Definition create (g : Defaults) (i : nat) (d : Data)
  : M Notification.t :=
  fun s =>
    if negb (type_ok d) then (Err PrismaClientValidationError, s)
    else if negb (references_ok s d)
    then (Err (PrismaClientKnownRequestError "P2003"), s)
    else
      (Ok (row g i d None None),
       set_notifications
         (Table.create (row g i d None None) (notifications s)) s).

(** [create] in general: the references to a comment and to a reel are
    checked as well. *)
Definition createLinked (g : Defaults) (i : nat) (d : Data)
           (commentId reelId : option string) : Tx Notification.t :=
  fun x =>
    if negb (type_ok d) then (Err PrismaClientValidationError, x)
    else if negb (references_ok (core x) d
                  && refers Comment.id (comments x) commentId
                  && refers Reel.id (reels x) reelId)
    then (Err (PrismaClientKnownRequestError "P2003"), x)
    else
      (Ok (row g i d commentId reelId),
       set_core
         (set_notifications
            (Table.create (row g i d commentId reelId)
                          (notifications (core x)))
            (core x)) x).

(** [delete] fails with P2025 when no row has the identifier; no table
    refers to a notification. *)
Definition delete (k : string) : M Notification.t :=
  fun s =>
    match Table.findUnique Notification.id k (notifications s) with
    | Some n =>
        (Ok n,
         set_notifications
           (Table.deleteMany (fun r => String.eqb (Notification.id r) k)
                             (notifications s)) s)
    | None => (Err (PrismaClientKnownRequestError "P2025"), s)
    end.

(** [create] with a [data] that has no [content].  The field is
    required ([content String] in the schema, TEXT NOT NULL without a
    default in the migration): the client refuses the call. *)
Definition createWithoutContent (type receiverId : string)
           (senderId : option string) : M Notification.t :=
  throw PrismaClientValidationError.
End notification.

Module like.
Definition row (g : Defaults) (i : nat) (userId postId : string)
  : Like.t :=
  Like.mk (cuid g i) (now g) userId (Some postId) None.

Definition findFirst (where_ : Like.t -> bool) : M (option Like.t) :=
  gets (fun s => Table.findFirst where_ (likes s)).

Definition create (g : Defaults) (i : nat) (userId postId : string)
  : M Like.t :=
  fun s =>
    (Ok (row g i userId postId),
     set_likes (Table.create (row g i userId postId) (likes s)) s).

Definition deleteMany (where_ : Like.t -> bool) : M nat :=
  fun s =>
    (Ok (Table.count where_ (likes s)),
     set_likes (Table.deleteMany where_ (likes s)) s).
End like.

Module post.
Definition findUnique (k : string) : M (option Post.t) :=
  gets (fun s => Table.findUnique Post.id k (posts s)).

Definition findMany (where_ : Post.t -> bool) (take : Z)
           (cursor : option string) : M (list Post.t) :=
  gets (fun s =>
    Table.findMany Post.id Post.createdAt where_ take cursor (posts s)).

(** [update] fails with P2025 when no row has the identifier. *)
Definition update (k : string) (data : Post.t -> Post.t) : M Post.t :=
  fun s =>
    match Table.findUnique Post.id k (posts s) with
    | Some p =>
        (Ok (data p), set_posts (Table.update Post.id k data (posts s)) s)
    | None => (Err (PrismaClientKnownRequestError "P2025"), s)
    end.

(** [include: { likes: { where: { userId }, take: 1 } }]. *)
Definition likesBy (userId : string) (p : Post.t) (s : Store)
  : list Like.t :=
  firstn 1
    (filter
       (fun l =>
          column_is (Post.id p) (Like.postId l)
          && String.eqb (Like.userId l) userId)
       (likes s)).
End post.

Module user.
Definition findFirst (where_ : User.t -> bool) : M (option User.t) :=
  gets (fun s => Table.findFirst where_ (users s)).

Definition findUnique (k : string) : M (option User.t) :=
  gets (fun s => Table.findUnique User.id k (users s)).

Definition row (g : Defaults) (i : nat)
           (name email username hashedPassword : string) : User.t :=
  User.mk (cuid g i) (Some name) (Some email) None None (Some "")
          (Some username) (Some hashedPassword) (now g) (now g).

(** [User_email_key] and [User_username_key]: a second row with the
    same email or the same username is refused with P2002. *)
Definition create (g : Defaults) (i : nat)
           (name email username hashedPassword : string) : M User.t :=
  fun s =>
    if existsb
         (fun u =>
            column_is email (User.email u)
            || column_is username (User.username u))
         (users s)
    then (Err (PrismaClientKnownRequestError "P2002"), s)
    else
      (Ok (row g i name email username hashedPassword),
       set_users
         (Table.create (row g i name email username hashedPassword)
                       (users s)) s).

(** [update] fails with P2025 when no row has the identifier. *)
Definition update (k : string) (data : User.t -> User.t) : M User.t :=
  fun s =>
    match Table.findUnique User.id k (users s) with
    | Some u =>
        (Ok (data u), set_users (Table.update User.id k data (users s)) s)
    | None => (Err (PrismaClientKnownRequestError "P2025"), s)
    end.
End user.

Module story.
(** [findUnique] with [include: { views: { where: { viewerId } } }]:
    the story and those of its views that the viewer made. *)
Definition findUniqueWithViews (k viewerId : string)
  : M (option (Story.t * list StoryView.t)) :=
  gets (fun s =>
    match Table.findUnique Story.id k (stories s) with
    | Some st =>
        Some (st,
              filter
                (fun v =>
                   String.eqb (StoryView.storyId v) (Story.id st)
                   && String.eqb (StoryView.viewerId v) viewerId)
                (storyViews s))
    | None => None
    end).

Definition findUnique (k : string) : M (option Story.t) :=
  gets (fun s => Table.findUnique Story.id k (stories s)).

(** [findMany] without [take], ordered by [createdAt] descending. *)
Definition findMany (where_ : Story.t -> bool) : M (list Story.t) :=
  gets (fun s =>
    Table.orderByDesc Story.createdAt (filter where_ (stories s))).

(** [include: { views: { where: { viewerId } } }]. *)
Definition viewsBy (viewerId : string) (st : Story.t) (s : Store)
  : list StoryView.t :=
  filter
    (fun v =>
       String.eqb (StoryView.storyId v) (Story.id st)
       && String.eqb (StoryView.viewerId v) viewerId)
    (storyViews s).
End story.

Module storyView.
Definition row (g : Defaults) (i : nat) (storyId viewerId : string)
  : StoryView.t :=
  StoryView.mk (cuid g i) storyId viewerId (now g).

(** [StoryView_storyId_viewerId_key]: a second row for the same
    story and viewer is refused with P2002. *)
Definition create (g : Defaults) (i : nat) (storyId viewerId : string)
  : M StoryView.t :=
  fun s =>
    if existsb
         (fun v =>
            String.eqb (StoryView.storyId v) storyId
            && String.eqb (StoryView.viewerId v) viewerId)
         (storyViews s)
    then (Err (PrismaClientKnownRequestError "P2002"), s)
    else
      (Ok (row g i storyId viewerId),
       set_storyViews
         (Table.create (row g i storyId viewerId) (storyViews s)) s).

(** [findMany] without [take], ordered by [viewedAt] descending. *)
Definition findMany (where_ : StoryView.t -> bool)
  : M (list StoryView.t) :=
  gets (fun s =>
    Table.orderByDesc StoryView.viewedAt (filter where_ (storyViews s))).
End storyView.

Module message.
Definition findMany (where_ : Message.t -> bool) (take : Z)
           (cursor : option string) : M (list Message.t) :=
  gets (fun s =>
    Table.findMany Message.id Message.createdAt where_ take cursor
                   (messages s)).

Definition updateMany (where_ : Message.t -> bool)
           (data : Message.t -> Message.t) : M nat :=
  fun s =>
    (Ok (Table.count where_ (messages s)),
     set_messages (Table.updateMany where_ data (messages s)) s).

Definition count (where_ : Message.t -> bool) : M nat :=
  gets (fun s => Table.count where_ (messages s)).

Definition create (m : Message.t) : M Message.t :=
  fun s => (Ok m, set_messages (Table.create m (messages s)) s).

Definition findUnique (k : string) : M (option Message.t) :=
  gets (fun s => Table.findUnique Message.id k (messages s)).
End message.

Module groupMember.
Definition findFirst (where_ : GroupMember.t -> bool)
  : M (option GroupMember.t) :=
  gets (fun s => Table.findFirst where_ (groupMembers s)).
End groupMember.


(** *** Delegates on the tables of [Database] *)

Module follow.
Definition row (g : Defaults) (i : nat) (followerId followingId : string)
  : Follow.t :=
  Follow.mk (cuid g i) followerId followingId (now g).

Definition findFirst (where_ : Follow.t -> bool) : Tx (option Follow.t) :=
  getsT (fun d => Table.findFirst where_ (follows d)).

(** [Follow_followerId_followingId_key]: a second row for the same pair
    is refused with P2002.  [Follow_followerId_fkey] and
    [Follow_followingId_fkey]: both ends must be users, or the row is
    refused with P2003. *)
Definition create (g : Defaults) (i : nat) (followerId followingId : string)
  : Tx Follow.t :=
  fun d =>
    if existsb
         (fun f =>
            String.eqb (Follow.followerId f) followerId
            && String.eqb (Follow.followingId f) followingId)
         (follows d)
    then (Err (PrismaClientKnownRequestError "P2002"), d)
    else if negb (refers User.id (users (core d)) (Some followerId)
                  && refers User.id (users (core d)) (Some followingId))
    then (Err (PrismaClientKnownRequestError "P2003"), d)
    else
      (Ok (row g i followerId followingId),
       set_follows
         (Table.create (row g i followerId followingId) (follows d)) d).

Definition deleteMany (where_ : Follow.t -> bool) : Tx nat :=
  fun d =>
    (Ok (Table.count where_ (follows d)),
     set_follows (Table.deleteMany where_ (follows d)) d).
End follow.

Module comment.
Definition row (g : Defaults) (i : nat) (content userId postId : string)
  : Comment.t :=
  Comment.mk (cuid g i) content (now g) (now g) postId userId.

Definition create (g : Defaults) (i : nat) (content userId postId : string)
  : Tx Comment.t :=
  fun d =>
    (Ok (row g i content userId postId),
     set_comments
       (Table.create (row g i content userId postId) (comments d)) d).
End comment.

Module reaction.
Definition findFirst (where_ : Reaction.t -> bool)
  : Tx (option Reaction.t) :=
  getsT (fun d => Table.findFirst where_ (reactions d)).

(** [create]: the new row takes its identifier and [createdAt] from the
    store. *)
Definition create (r : Reaction.t) : Tx Reaction.t :=
  fun d => (Ok r, set_reactions (Table.create r (reactions d)) d).

(** [update] and [delete] fail with P2025 when no row has the
    identifier. *)
Definition update (k : string) (data : Reaction.t -> Reaction.t)
  : Tx Reaction.t :=
  fun d =>
    match Table.findUnique Reaction.id k (reactions d) with
    | Some r =>
        (Ok (data r),
         set_reactions (Table.update Reaction.id k data (reactions d)) d)
    | None => (Err (PrismaClientKnownRequestError "P2025"), d)
    end.

Definition delete (k : string) : Tx Reaction.t :=
  fun d =>
    match Table.findUnique Reaction.id k (reactions d) with
    | Some r =>
        (Ok r,
         set_reactions
           (Table.deleteMany (fun x => String.eqb (Reaction.id x) k)
                             (reactions d)) d)
    | None => (Err (PrismaClientKnownRequestError "P2025"), d)
    end.

Definition deleteMany (where_ : Reaction.t -> bool) : Tx nat :=
  fun d =>
    (Ok (Table.count where_ (reactions d)),
     set_reactions (Table.deleteMany where_ (reactions d)) d).
End reaction.

Module reel.
Definition findUnique (k : string) : Tx (option Reel.t) :=
  getsT (fun d => Table.findUnique Reel.id k (reels d)).
End reel.

Module group.
(** The nested [members: { create: [...] }]: the member rows are
    inserted in order; a row is refused with P2002 when the table has a
    row for the same user and group ([GroupMember_userId_groupId_key]),
    and with P2003 when its user is missing
    ([GroupMember_userId_fkey]). *)
Fixpoint addMembers (g : Defaults) (i : nat) (groupId : string)
         (us : list User.t) (ms : list (string * string))
         (t : list GroupMember.t) : Result (list GroupMember.t) :=
  match ms with
  | [] => Ok t
  | (userId, role) :: ms' =>
      if existsb
           (fun gm =>
              String.eqb (GroupMember.userId gm) userId
              && String.eqb (GroupMember.groupId gm) groupId)
           t
      then Err (PrismaClientKnownRequestError "P2002")
      else if negb (refers User.id us (Some userId))
      then Err (PrismaClientKnownRequestError "P2003")
      else
        addMembers g (S i) groupId us ms'
          (Table.create
             (GroupMember.mk (cuid g i) userId groupId role (now g)) t)
  end.

Definition row (g : Defaults) (name : string)
           (description imageUrl : option string) : Group.t :=
  Group.mk (cuid g 0) name description imageUrl (now g) (now g).

(** [create] with nested members is one transaction: when a member row
    is refused nothing is written. *)
Definition create (g : Defaults) (name : string)
           (description imageUrl : option string)
           (members : list (string * string)) : Tx Group.t :=
  fun d =>
    match addMembers g 1 (cuid g 0) (users (core d)) members
                     (groupMembers (core d)) with
    | Ok t =>
        (Ok (row g name description imageUrl),
         set_groups
           (Table.create (row g name description imageUrl) (groups d))
           (set_core (set_groupMembers t (core d)) d))
    | Err e => (Err e, d)
    end.
End group.

(** *** Deletes with their cascades

    The foreign keys of the schema that point at a post, a story or a
    reel are declared [onDelete: Cascade]; the rows that refer to the
    deleted row go with it.  (The tags of a post are not modelled.) *)

Module cascade.
Definition keep {A : Type} (gone : A -> bool) (l : list A) : list A :=
  filter (fun x => negb (gone x)) l.

(** Does a row with these references hang on post [k] or on one of the
    comments [cs]? *)
Definition onPost (k : string) (cs : list Comment.t)
           (postId commentId : option string) : bool :=
  column_is k postId
  || existsb (fun c => column_is (Comment.id c) commentId) cs.

Definition post (k : string) (d : Database) : Database :=
  let cs := filter (fun c => String.eqb (Comment.postId c) k) (comments d) in
  let s := core d in
  mkDatabase
    (mkStore (users s)
       (keep (fun p => String.eqb (Post.id p) k) (posts s))
       (keep (fun l => onPost k cs (Like.postId l) (Like.commentId l))
             (likes s))
       (stories s) (storyViews s)
       (keep (fun n =>
                onPost k cs (Notification.postId n)
                       (Notification.commentId n))
             (notifications s))
       (messages s) (groupMembers s))
    (follows d)
    (keep (fun c => String.eqb (Comment.postId c) k) (comments d))
    (keep (fun r => onPost k cs (Reaction.postId r) (Reaction.commentId r))
          (reactions d))
    (reels d) (groups d).

Definition story (k : string) (d : Database) : Database :=
  let s := core d in
  mkDatabase
    (mkStore (users s) (posts s) (likes s)
       (keep (fun st => String.eqb (Story.id st) k) (stories s))
       (keep (fun v => String.eqb (StoryView.storyId v) k) (storyViews s))
       (keep (fun n => column_is k (Notification.storyId n))
             (notifications s))
       (messages s) (groupMembers s))
    (follows d) (comments d)
    (keep (fun r => column_is k (Reaction.storyId r)) (reactions d))
    (reels d) (groups d).

Definition reel (k : string) (d : Database) : Database :=
  let s := core d in
  mkDatabase
    (set_notifications
       (keep (fun n => column_is k (Notification.reelId n))
             (notifications s)) s)
    (follows d) (comments d)
    (keep (fun r => column_is k (Reaction.reelId r)) (reactions d))
    (keep (fun x => String.eqb (Reel.id x) k) (reels d))
    (groups d).
End cascade.

(** [delete] fails with P2025 when no row has the identifier. *)
Definition post_delete (k : string) : Tx Post.t :=
  fun d =>
    match Table.findUnique Post.id k (posts (core d)) with
    | Some p => (Ok p, cascade.post k d)
    | None => (Err (PrismaClientKnownRequestError "P2025"), d)
    end.

Definition story_delete (k : string) : Tx Story.t :=
  fun d =>
    match Table.findUnique Story.id k (stories (core d)) with
    | Some st => (Ok st, cascade.story k d)
    | None => (Err (PrismaClientKnownRequestError "P2025"), d)
    end.

Definition reel_delete (k : string) : Tx Reel.t :=
  fun d =>
    match Table.findUnique Reel.id k (reels d) with
    | Some r => (Ok r, cascade.reel k d)
    | None => (Err (PrismaClientKnownRequestError "P2025"), d)
    end.

End db.

(** ** Input validation

    A procedure whose input does not pass its zod schema is refused with
    BAD_REQUEST before the handler runs. *)

Definition invalid_input : Exception :=
  TRPCError BAD_REQUEST "Input validation failed".

(** [z.number().min(1).max(100)], the page size of the list
    procedures. *)
Definition limit_ok (l : Z) : bool := ((1 <=? l) && (l <=? 100))%Z.

(** ** notificationRouter *)

Module notificationRouter.

Record GetAllInput := mkGetAllInput {
  limit : Z;
  cursor : option string;
  onlyUnread : bool
}.

Record GetAllOutput := mkGetAllOutput {
  items : list Notification.t;
  nextCursor : option string
}.

Definition unauthorized : Exception :=
  TRPCError UNAUTHORIZED "User not authenticated".

Definition getAll (userId : string) (input : GetAllInput)
  : M GetAllOutput :=
  if negb (limit_ok (limit input)) then throw invalid_input else
  if negb (truthy userId) then throw unauthorized else
  notifications <-
    db.notification.findMany
      (fun n =>
         String.eqb (Notification.receiverId n) userId
         && (if onlyUnread input then negb (Notification.isRead n)
             else true))
      (limit input + 1)
      (match cursor input with
       | Some c => if truthy c then Some c else None
       | None => None
       end) ;;
  if (Z.of_nat (length notifications) >? limit input)%Z then
    let (nextItem, rest) := pop notifications in
    ret (mkGetAllOutput rest (option_map Notification.id nextItem))
  else
    ret (mkGetAllOutput notifications None).

Definition markAsRead (userId : string) (id : string)
  : M Notification.t :=
  if negb (truthy userId) then throw unauthorized else
  notification <- db.notification.findUnique id ;;
  match notification with
  | None => throw (TRPCError NOT_FOUND "Notification not found")
  | Some n =>
      if negb (String.eqb (Notification.receiverId n) userId) then
        throw (TRPCError FORBIDDEN
          "You do not have permission to mark this notification as read")
      else
        db.notification.update id (Notification.set_isRead true)
  end.

Definition markAllAsRead (userId : string) : M nat :=
  if negb (truthy userId) then throw unauthorized else
  db.notification.updateMany
    (fun n =>
       String.eqb (Notification.receiverId n) userId
       && negb (Notification.isRead n))
    (Notification.set_isRead true).

Definition getUnreadCount (userId : string) : M nat :=
  if negb (truthy userId) then throw unauthorized else
  db.notification.count
    (fun n =>
       String.eqb (Notification.receiverId n) userId
       && negb (Notification.isRead n)).

Module CreateInput.
Record t := mk {
  receiverId : string;
  type : string;
  content : string;
  postId : option string;
  commentId : option string;
  storyId : option string;
  reelId : option string;
  messageId : option string
}.
End CreateInput.

(** [create]: the [type] must be one of the values of the enum; the
    sender is the session user. *)
Definition create (g : Defaults) (senderId : string)
           (input : CreateInput.t) : Tx Notification.t :=
  if negb (existsb (String.eqb (CreateInput.type input)) NotificationType)
  then throwT invalid_input else
  if negb (truthy senderId) then throwT unauthorized else
  db.notification.createLinked g 0
    (db.notification.mkData
       (CreateInput.type input) (CreateInput.content input)
       (CreateInput.receiverId input) (Some senderId)
       (CreateInput.postId input) (CreateInput.storyId input)
       (CreateInput.messageId input))
    (CreateInput.commentId input) (CreateInput.reelId input).

Definition delete (userId : string) (id : string) : M Notification.t :=
  if negb (truthy userId) then throw unauthorized else
  notification <- db.notification.findUnique id ;;
  match notification with
  | None => throw (TRPCError NOT_FOUND "Notification not found")
  | Some n =>
      if negb (String.eqb (Notification.receiverId n) userId) then
        throw (TRPCError FORBIDDEN
          "You do not have permission to delete this notification")
      else
        db.notification.delete id
  end.

End notificationRouter.

(** ** postRouter

    A handler that answers [{ success: true }] returns [true]. *)

Module postRouter.

Definition like (g : Defaults) (userId : string) (postId : string)
  : M bool :=
  existingLike <-
    db.like.findFirst
      (fun l =>
         String.eqb (Like.userId l) userId
         && column_is postId (Like.postId l)) ;;
  match existingLike with
  | Some _ => throw (TRPCError BAD_REQUEST "Post already liked")
  | None =>
      post <- db.post.findUnique postId ;;
      match post with
      | None => throw (TRPCError NOT_FOUND "Post not found")
      | Some p =>
          db.like.create g 0 userId postId ;;;
          (if negb (String.eqb (Post.userId p) userId) then
             db.notification.create g 1
               (db.notification.mkData "like" "liked your post"
                  (Post.userId p) (Some userId) None None None)
             ;;; ret tt
           else ret tt) ;;;
          ret true
      end
  end.

Definition unlike (userId : string) (postId : string) : M bool :=
  db.like.deleteMany
    (fun l =>
       String.eqb (Like.userId l) userId
       && column_is postId (Like.postId l)) ;;;
  ret true.

(** [isLiked: userId ? post.likes && post.likes.length > 0 : false]. *)
Definition isLikedBy (userId : option string) (p : Post.t) (s : Store)
  : bool :=
  match userId with
  | Some u =>
      if truthy u then negb (length (db.post.likesBy u p s) =? 0)%nat
      else false
  | None => false
  end.

Module Feed.
Record Item := mkItem {
  post : Post.t;
  isLiked : bool
}.

Record Output := mkOutput {
  posts : list Item;
  nextCursor : option string
}.
End Feed.

(** [getFeed] is a public procedure: [userId] is the identifier of the
    session user, if there is a session. *)
Definition getFeed (userId : option string) (limit : Z)
           (cursor : option string) : M Feed.Output :=
  if negb (limit_ok limit) then throw invalid_input else
  posts <-
    db.post.findMany (fun _ => true) (limit + 1)
      (match cursor with
       | Some c => if truthy c then Some c else None
       | None => None
       end) ;;
  let (page, nextCursor) :=
    if (Z.of_nat (length posts) >? limit)%Z then
      let (nextItem, rest) := pop posts in
      (rest, option_map Post.id nextItem)
    else (posts, None) in
  liked <- gets (fun s p => isLikedBy userId p s) ;;
  ret (Feed.mkOutput (map (fun p => Feed.mkItem p (liked p)) page)
                     nextCursor).

(** The [where] clause of [getUserPosts]. *)
Definition visibleTo (currentUserId : option string) (userId : string)
           (p : Post.t) : bool :=
  String.eqb (Post.userId p) userId
  && (String.eqb (Post.visibility p) "public"
      || match currentUserId with
         | Some c =>
             if truthy c then
               String.eqb (Post.visibility p) "friends"
               || String.eqb (Post.userId p) c
                  && String.eqb (Post.visibility p) "private"
             else false
         | None => false
         end).

Definition getUserPosts (currentUserId : option string) (userId : string)
           (limit : Z) (cursor : option string) : M Feed.Output :=
  if negb (limit_ok limit) then throw invalid_input else
  posts <-
    db.post.findMany (visibleTo currentUserId userId) (limit + 1)
      (match cursor with
       | Some c => if truthy c then Some c else None
       | None => None
       end) ;;
  let (page, nextCursor) :=
    if (Z.of_nat (length posts) >? limit)%Z then
      let (nextItem, rest) := pop posts in
      (rest, option_map Post.id nextItem)
    else (posts, None) in
  liked <- gets (fun s p => isLikedBy currentUserId p s) ;;
  ret (Feed.mkOutput (map (fun p => Feed.mkItem p (liked p)) page)
                     nextCursor).

Definition comment (g : Defaults) (userId : string) (postId : string)
           (content : string) : Tx Comment.t :=
  (post <- lift (db.post.findUnique postId) ;;
   match post with
   | None => throwT (TRPCError NOT_FOUND "Post not found")
   | Some p =>
       comment <- db.comment.create g 0 content userId postId ;;
       (if negb (String.eqb (Post.userId p) userId) then
          lift (db.notification.create g 1
                  (db.notification.mkData "comment" "commented on your post"
                     (Post.userId p) (Some userId) None None None))
          ;;; retT tt
        else retT tt) ;;;
       retT comment
   end)%tx.

Definition delete (userId : string) (postId : string) : Tx bool :=
  (post <- lift (db.post.findUnique postId) ;;
   match post with
   | None => throwT (TRPCError NOT_FOUND "Post not found")
   | Some p =>
       if negb (String.eqb (Post.userId p) userId) then
         throwT (TRPCError FORBIDDEN
                   "You are not authorized to delete this post")
       else
         db.post_delete postId ;;; retT true
   end)%tx.

(** [addReaction] answers with the [action] it took. *)
Definition addReaction (g : Defaults) (userId : string) (postId : string)
           (type : string) : Tx string :=
  (post <- lift (db.post.findUnique postId) ;;
   match post with
   | None => throwT (TRPCError NOT_FOUND "Post not found")
   | Some p =>
       existingReaction <-
         db.reaction.findFirst
           (fun r =>
              String.eqb (Reaction.userId r) userId
              && column_is postId (Reaction.postId r)) ;;
       match existingReaction with
       | Some r =>
           if String.eqb (Reaction.type r) type then
             db.reaction.delete (Reaction.id r) ;;; retT "removed"
           else
             db.reaction.update (Reaction.id r) (Reaction.set_type type)
             ;;; retT "updated"
       | None =>
           db.reaction.create
             (Reaction.mk (cuid g 0) type (now g) userId (Some postId)
                          None None None None) ;;;
           (if negb (String.eqb (Post.userId p) userId) then
              lift (db.notification.create g 1
                      (db.notification.mkData "reaction"
                         ("reacted with " ++ type ++ " to your post")%string
                         (Post.userId p) (Some userId) None None None))
              ;;; retT tt
            else retT tt) ;;;
           retT "added"
       end
   end)%tx.

(** [z.enum(["image", "video", "text", "3d", "audio"])]. *)
Definition targetType_ok (t : string) : bool :=
  existsb (String.eqb t) ["image"; "video"; "text"; "3d"; "audio"].

(** The [data] of the update in [convertPostType]; an absent
    [newContentUrl] leaves the column as it is. *)
Definition converted (g : Defaults) (targetType : string)
           (newContentUrl : option string) (p : Post.t) : Post.t :=
  Post.mk (Post.id p) (Post.caption p)
          (match newContentUrl with
           | Some u => Some u
           | None => Post.contentUrl p
           end)
          targetType (Post.ipfsHash p) (Post.integrityHash p)
          (Post.createdAt p) (now g) (Post.userId p) (Post.visibility p).

Definition convertPostType (g : Defaults) (userId : string)
           (postId : string) (targetType : string)
           (newContentUrl : option string) : M Post.t :=
  if negb (targetType_ok targetType) then throw invalid_input else
  post <- db.post.findUnique postId ;;
  match post with
  | None => throw (TRPCError NOT_FOUND "Post not found")
  | Some p =>
      if negb (String.eqb (Post.userId p) userId) then
        throw (TRPCError FORBIDDEN
                 "You are not authorized to modify this post")
      else
        db.post.update postId (converted g targetType newContentUrl)
  end.

End postRouter.

(** ** userRouter *)

Module userRouter.
Section Register.
(** [z.string().email()] and bcrypt's [hash] come from libraries. *)
Variable isEmail : string -> bool.
Variable hash : string -> nat -> string.

Record RegisterInput := mkRegisterInput {
  name : string;
  email : string;
  password : string;
  username : string
}.

Record RegisterOutput := mkRegisterOutput {
  success : bool;
  userId : string
}.

Definition register_input_ok (input : RegisterInput) : bool :=
  isEmail (email input)
  && (8 <=? js_length (password input))%nat
  && (3 <=? js_length (username input))%nat.

Definition register (g : Defaults) (input : RegisterInput)
  : M RegisterOutput :=
  if negb (register_input_ok input) then throw invalid_input else
  existingUser <-
    db.user.findFirst
      (fun u =>
         column_is (email input) (User.email u)
         || column_is (username input) (User.username u)) ;;
  match existingUser with
  | Some _ =>
      throw (Error "User with this email or username already exists")
  | None =>
      let hashedPassword := hash (password input) 12 in
      user <-
        db.user.create g 0 (name input) (email input) (username input)
                       hashedPassword ;;
      ret (mkRegisterOutput true (User.id user))
  end.
End Register.

Module UpdateProfileInput.
Record t := mk {
  name : option string;
  bio : option string;
  image : option string;
  coverImage : option string
}.
End UpdateProfileInput.




Definition followUser (g : Defaults) (currentUserId : string)
           (targetId : string) : Tx bool :=
  (if String.eqb targetId currentUserId then
     throwT (Error "You cannot follow yourself")
   else
   existingFollow <-
     db.follow.findFirst
       (fun f =>
          String.eqb (Follow.followerId f) currentUserId
          && String.eqb (Follow.followingId f) targetId) ;;
   match existingFollow with
   | Some _ => throwT (Error "Already following this user")
   | None =>
       db.follow.create g 0 currentUserId targetId ;;;
       lift (db.notification.createWithoutContent "follow" targetId
               (Some currentUserId)) ;;;
       retT true
   end)%tx.

Definition unfollowUser (currentUserId : string) (targetId : string)
  : Tx bool :=
  (db.follow.deleteMany
     (fun f =>
        String.eqb (Follow.followerId f) currentUserId
        && String.eqb (Follow.followingId f) targetId) ;;;
   retT true)%tx.
End userRouter.

(** ** storyRouter *)

Module storyRouter.

Definition viewStory (g : Defaults) (userId : string) (storyId : string)
  : M bool :=
  story <- db.story.findUniqueWithViews storyId userId ;;
  match story with
  | None => throw (TRPCError NOT_FOUND "Story not found")
  | Some (_, views) =>
      (if (length views =? 0)%nat then
         db.storyView.create g 0 storyId userId ;;; ret tt
       else ret tt) ;;;
      ret true
  end.


Module UserStory.
Record t := mk {
  story : Story.t;
  isViewed : bool
}.
End UserStory.

(** [getUserStories] is a public procedure: [currentUserId] is the
    identifier of the session user, if there is a session. *)
Definition getUserStories (g : Defaults) (currentUserId : option string)
           (userId : string) : Tx (list UserStory.t) :=
  ((if match currentUserId with
       | Some c => negb (String.eqb userId c)
       | None => true
       end
    then
      match currentUserId with
      | Some c =>
          if truthy c then
            followsUser <-
              db.follow.findFirst
                (fun f =>
                   String.eqb (Follow.followerId f) c
                   && String.eqb (Follow.followingId f) userId) ;;
            match followsUser with
            | Some _ => retT tt
            | None =>
                throwT (TRPCError FORBIDDEN
                          "You must follow this user to view their stories")
            end
          else
            throwT (TRPCError UNAUTHORIZED
                      "You must be logged in to view stories")
      | None =>
          throwT (TRPCError UNAUTHORIZED
                    "You must be logged in to view stories")
      end
    else retT tt) ;;;
   stories <-
     lift (db.story.findMany
             (fun st =>
                String.eqb (Story.userId st) userId
                && (Story.expiresAt st >? now g)%Z)) ;;
   viewed <-
     getsT (fun d st =>
              match currentUserId with
              | Some c =>
                  if truthy c then
                    negb (length (db.story.viewsBy c st (core d)) =? 0)%nat
                  else false
              | None => false
              end) ;;
   retT (map (fun st => UserStory.mk st (viewed st)) stories))%tx.

Definition delete (userId : string) (storyId : string) : Tx bool :=
  (story <- lift (db.story.findUnique storyId) ;;
   match story with
   | None => throwT (TRPCError NOT_FOUND "Story not found")
   | Some st =>
       if negb (String.eqb (Story.userId st) userId) then
         throwT (TRPCError FORBIDDEN
                   "You are not authorized to delete this story")
       else
         db.story_delete storyId ;;; retT true
   end)%tx.

Definition addReaction (g : Defaults) (userId : string) (storyId : string)
           (type : string) : Tx bool :=
  (story <- lift (db.story.findUnique storyId) ;;
   match story with
   | None => throwT (TRPCError NOT_FOUND "Story not found")
   | Some st =>
       existingReaction <-
         db.reaction.findFirst
           (fun r =>
              String.eqb (Reaction.userId r) userId
              && column_is storyId (Reaction.storyId r)) ;;
       match existingReaction with
       | Some r =>
           db.reaction.update (Reaction.id r) (Reaction.set_type type)
           ;;; retT true
       | None =>
           db.reaction.create
             (Reaction.mk (cuid g 0) type (now g) userId None None None
                          (Some storyId) None) ;;;
           (if negb (String.eqb (Story.userId st) userId) then
              lift (db.notification.create g 1
                      (db.notification.mkData "reaction"
                         ("reacted with " ++ type ++ " to your story")%string
                         (Story.userId st) (Some userId) None None None))
              ;;; retT tt
            else retT tt) ;;;
           retT true
       end
   end)%tx.

Module Viewer.
Record t := mk {
  viewer : option User.t;
  viewedAt : Z;
  reaction : option string
}.
End Viewer.

Definition getViewers (userId : string) (storyId : string)
  : Tx (list Viewer.t) :=
  (story <- lift (db.story.findUnique storyId) ;;
   match story with
   | None => throwT (TRPCError NOT_FOUND "Story not found")
   | Some st =>
       if negb (String.eqb (Story.userId st) userId) then
         throwT (TRPCError FORBIDDEN
                   "You are not authorized to view this information")
       else
         views <-
           lift (db.storyView.findMany
                   (fun v => String.eqb (StoryView.storyId v) storyId)) ;;
         getsT (fun d =>
           map (fun view =>
                  Viewer.mk
                    (Table.findUnique User.id (StoryView.viewerId view)
                                      (users (core d)))
                    (StoryView.viewedAt view)
                    (option_map Reaction.type
                       (find
                          (fun r =>
                             String.eqb (Reaction.userId r)
                                        (StoryView.viewerId view))
                          (filter
                             (fun r =>
                                column_is (StoryView.storyId view)
                                          (Reaction.storyId r))
                             (reactions d)))))
               views)
   end)%tx.

End storyRouter.

(** ** messageRouter *)

Module messageRouter.

Record GetConversationInput := mkGetConversationInput {
  userId : string;
  limit : Z;
  cursor : option string
}.

Record GetConversationOutput := mkGetConversationOutput {
  messages : list Message.t;
  nextCursor : option string
}.

Definition getConversation (g : Defaults) (currentUserId : string)
           (input : GetConversationInput) : M GetConversationOutput :=
  if negb (limit_ok (limit input)) then
    throw invalid_input
  else
  messages <-
    db.message.findMany
      (fun m =>
         (String.eqb (Message.senderId m) currentUserId
          && String.eqb (Message.receiverId m) (userId input)
          || String.eqb (Message.senderId m) (userId input)
             && String.eqb (Message.receiverId m) currentUserId)
         && column_null (Message.groupId m))
      (limit input + 1)
      (match cursor input with
       | Some c => if truthy c then Some c else None
       | None => None
       end) ;;
  let (page, nextCursor) :=
    if (Z.of_nat (length messages) >? limit input)%Z then
      let (nextItem, rest) := pop messages in
      (rest, option_map Message.id nextItem)
    else (messages, None) in
  db.message.updateMany
    (fun m =>
       String.eqb (Message.senderId m) (userId input)
       && String.eqb (Message.receiverId m) currentUserId
       && column_null (Message.readAt m))
    (Message.set_readAt (Some (now g))) ;;;
  ret (mkGetConversationOutput (rev page) nextCursor).

Section Send.
(** The key [crypto.randomBytes(32).toString('hex')] and the AES-256-GCM
    cipher (under a random IV) come from the runtime. *)
Variable randomKey : string.
Variable encrypt : string -> string -> string.

(** The fields that the inputs of [send] and [sendToGroup] share. *)
Record Body := mkBody {
  content : string;
  contentType : string;
  encrypted : bool
}.

(** [z.enum(["text", "image", "video", "audio"])]. *)
Definition contentType_ok (c : string) : bool :=
  existsb (String.eqb c) ["text"; "image"; "video"; "audio"].

Definition encryptedContent (input : Body) : option string :=
  if encrypted input then Some (encrypt randomKey (content input))
  else None.

Definition encryptionKey (input : Body) : option string :=
  if encrypted input then Some randomKey else None.

Definition send (g : Defaults) (senderId : string) (receiverId : string)
           (input : Body) : M Message.t :=
  if negb (contentType_ok (contentType input)) then
    throw invalid_input
  else
  if String.eqb senderId receiverId then
    throw (TRPCError BAD_REQUEST "Cannot send message to yourself")
  else
  receiver <- db.user.findUnique receiverId ;;
  match receiver with
  | None => throw (TRPCError NOT_FOUND "Receiver not found")
  | Some _ =>
      db.message.create
        (Message.mk (cuid g 0)
           (if encrypted input then "" else content input)
           (encryptedContent input) (encryptionKey input)
           (contentType input) (now g) senderId receiverId None None)
  end.

(** [sendToGroup]: the row names the sender as its receiver, as a
    placeholder. *)
Definition sendToGroup (g : Defaults) (senderId : string)
           (groupId : string) (input : Body) : M Message.t :=
  if negb (contentType_ok (contentType input)) then
    throw invalid_input
  else
  membership <-
    db.groupMember.findFirst
      (fun gm =>
         String.eqb (GroupMember.userId gm) senderId
         && String.eqb (GroupMember.groupId gm) groupId) ;;
  match membership with
  | None =>
      throw (TRPCError FORBIDDEN "You are not a member of this group")
  | Some _ =>
      db.message.create
        (Message.mk (cuid g 0)
           (if encrypted input then "" else content input)
           (encryptedContent input) (encryptionKey input)
           (contentType input) (now g) senderId senderId None
           (Some groupId))
  end.
End Send.

(** The unread count that [getRecentConversations] computes for the
    conversation with [userId]. *)
Definition unreadCount (currentUserId userId : string) : M nat :=
  db.message.count
    (fun m =>
       String.eqb (Message.senderId m) userId
       && String.eqb (Message.receiverId m) currentUserId
       && column_null (Message.readAt m)
       && column_null (Message.groupId m)).


Definition getGroupMessages (currentUserId : string) (groupId : string)
           (limit : Z) (cursor : option string) : M GetConversationOutput :=
  if negb (limit_ok limit) then throw invalid_input else
  membership <-
    db.groupMember.findFirst
      (fun gm =>
         String.eqb (GroupMember.userId gm) currentUserId
         && String.eqb (GroupMember.groupId gm) groupId) ;;
  match membership with
  | None =>
      throw (TRPCError FORBIDDEN "You are not a member of this group")
  | Some _ =>
      messages <-
        db.message.findMany
          (fun m => column_is groupId (Message.groupId m))
          (limit + 1)
          (match cursor with
           | Some c => if truthy c then Some c else None
           | None => None
           end) ;;
      let (page, nextCursor) :=
        if (Z.of_nat (length messages) >? limit)%Z then
          let (nextItem, rest) := pop messages in
          (rest, option_map Message.id nextItem)
        else (messages, None) in
      ret (mkGetConversationOutput (rev page) nextCursor)
  end.

(** [createGroup]: the caller becomes the admin, every listed user a
    member. *)
Definition createGroup (g : Defaults) (currentUserId : string)
           (name : string) (description imageUrl : option string)
           (memberIds : list string) : Tx Group.t :=
  db.group.create g name description imageUrl
    ((currentUserId, "admin")
     :: map (fun memberId => (memberId, "member")) memberIds).

Definition addMessageReaction (g : Defaults) (userId : string)
           (messageId : string) (type : string) : Tx bool :=
  (message <- lift (db.message.findUnique messageId) ;;
   match message with
   | None => throwT (TRPCError NOT_FOUND "Message not found")
   | Some _ =>
       existingReaction <-
         db.reaction.findFirst
           (fun r =>
              String.eqb (Reaction.userId r) userId
              && column_is messageId (Reaction.messageId r)) ;;
       match existingReaction with
       | Some r =>
           db.reaction.update (Reaction.id r) (Reaction.set_type type)
           ;;; retT true
       | None =>
           db.reaction.create
             (Reaction.mk (cuid g 0) type (now g) userId None None
                          (Some messageId) None None) ;;;
           retT true
       end
   end)%tx.

Definition removeMessageReaction (userId : string) (messageId : string)
  : Tx bool :=
  (db.reaction.deleteMany
     (fun r =>
        String.eqb (Reaction.userId r) userId
        && column_is messageId (Reaction.messageId r)) ;;;
   retT true)%tx.

End messageRouter.

(** ** reelRouter *)

Module reelRouter.

(** [addReaction] answers with the [action] it took. *)
Definition addReaction (g : Defaults) (userId : string) (reelId : string)
           (type : string) : Tx string :=
  (reel <- db.reel.findUnique reelId ;;
   match reel with
   | None => throwT (TRPCError NOT_FOUND "Reel not found")
   | Some rl =>
       existingReaction <-
         db.reaction.findFirst
           (fun r =>
              String.eqb (Reaction.userId r) userId
              && column_is reelId (Reaction.reelId r)) ;;
       match existingReaction with
       | Some r =>
           if String.eqb (Reaction.type r) type then
             db.reaction.delete (Reaction.id r) ;;; retT "removed"
           else
             db.reaction.update (Reaction.id r) (Reaction.set_type type)
             ;;; retT "updated"
       | None =>
           db.reaction.create
             (Reaction.mk (cuid g 0) type (now g) userId None None None
                          None (Some reelId)) ;;;
           (if negb (String.eqb (Reel.userId rl) userId) then
              lift (db.notification.create g 1
                      (db.notification.mkData "reaction"
                         ("reacted with " ++ type ++ " to your reel")%string
                         (Reel.userId rl) (Some userId) None None None))
              ;;; retT tt
            else retT tt) ;;;
           retT "added"
       end
   end)%tx.

Definition delete (userId : string) (reelId : string) : Tx bool :=
  (reel <- db.reel.findUnique reelId ;;
   match reel with
   | None => throwT (TRPCError NOT_FOUND "Reel not found")
   | Some rl =>
       if negb (String.eqb (Reel.userId rl) userId) then
         throwT (TRPCError FORBIDDEN
                   "You are not authorized to delete this reel")
       else
         db.reel_delete reelId ;;; retT true
   end)%tx.

End reelRouter.

(** ** Derived notions used in the statements *)

Section Clients.
Import notificationRouter.

(** The [where] clause of [getAll]. *)
Definition addressedTo (u : string) (unreadOnly : bool)
           (n : Notification.t) : bool :=
  String.eqb (Notification.receiverId n) u
  && (if unreadOnly then negb (Notification.isRead n) else true).

(** All rows [getAll] can show to [u], newest first. *)
Definition listing (u : string) (unreadOnly : bool) (s : Store)
  : list Notification.t :=
  Table.orderByDesc Notification.createdAt
    (filter (addressedTo u unreadOnly) (notifications s)).

(** Where a request starts reading in the listing. *)
Definition startOf (c : option string) (rows : list Notification.t)
  : list Notification.t :=
  match c with
  | Some k => if truthy k then Table.seek Notification.id k rows else rows
  | None => rows
  end.

(** The client of [getAll] ([useNotifications]): the first request
    carries no cursor, every further request carries the [nextCursor]
    of the page before, and the loop ends at the first page without
    one.  [fuel] bounds the number of requests. *)
Fixpoint paginate (fuel : nat) (u : string) (L : Z) (f : bool)
         (c : option string) (s : Store)
  : option (list (list Notification.t)) :=
  match fuel with
  | O => None
  | S fuel' =>
      match getAll u (mkGetAllInput L c f) s with
      | (Ok out, s') =>
          match nextCursor out with
          | None => Some [items out]
          | Some k =>
              option_map (cons (items out))
                         (paginate fuel' u L f (Some k) s')
          end
      | (Err _, _) => None
      end
  end.

End Clients.

(** The rows that [like] and [unlike] look for. *)
Definition likeOf (u p : string) (l : Like.t) : bool :=
  String.eqb (Like.userId l) u && column_is p (Like.postId l).

(** The [where] clause of the update in [getConversation]: the unread
    rows sent by [v] to [u]. *)
Definition unreadFrom (v u : string) (m : Message.t) : bool :=
  String.eqb (Message.senderId m) v
  && String.eqb (Message.receiverId m) u
  && column_null (Message.readAt m).

(** ** The server as a transition system *)

(** One StoryView per (story, viewer) pair. *)
Definition storyViewsUnique (s : Store) : Prop :=
  NoDup (map (fun v => (StoryView.storyId v, StoryView.viewerId v))
             (storyViews s)).

(** The number of views of [storyId] by [viewerId] in the store. *)
Definition viewsOf (storyId viewerId : string) (s : Store) : nat :=
  Table.count
    (fun v =>
       String.eqb (StoryView.storyId v) storyId
       && String.eqb (StoryView.viewerId v) viewerId)
    (storyViews s).

(** [viewStory] called once per element of [gs] by the same viewer on
    the same story. *)
Fixpoint viewStoryTimes (gs : list Defaults) (viewerId storyId : string)
         (s : Store) : Store :=
  match gs with
  | [] => s
  | g :: gs' =>
      viewStoryTimes gs' viewerId storyId
        (snd (storyRouter.viewStory g viewerId storyId s))
  end.

Section Server.
Variable isEmail : string -> bool.
Variable hash : string -> nat -> string.
Variable randomKey : string.
Variable encrypt : string -> string -> string.

(** The requests that are served from the tables of [Store]. *)
Inductive Request :=
  | NotificationGetAll (userId : string)
                     (input : notificationRouter.GetAllInput)
  | NotificationMarkAsRead (userId id : string)
  | NotificationMarkAllAsRead (userId : string)
  | NotificationGetUnreadCount (userId : string)
  | PostLike (g : Defaults) (userId postId : string)
  | PostUnlike (userId postId : string)
  | UserRegister (g : Defaults) (input : userRouter.RegisterInput)
  | StoryViewStory (g : Defaults) (userId storyId : string)
  | MessageSend (g : Defaults) (senderId receiverId : string)
              (input : messageRouter.Body)
  | MessageSendToGroup (g : Defaults) (senderId groupId : string)
                     (input : messageRouter.Body)
  | MessageGetConversation (g : Defaults) (userId : string)
                         (input : messageRouter.GetConversationInput).

(** The store after a request, whether it succeeded or threw. *)
Definition handle (r : Request) (s : Store) : Store :=
  match r with
  | NotificationGetAll u i => snd (notificationRouter.getAll u i s)
  | NotificationMarkAsRead u k => snd (notificationRouter.markAsRead u k s)
  | NotificationMarkAllAsRead u => snd (notificationRouter.markAllAsRead u s)
  | NotificationGetUnreadCount u =>
      snd (notificationRouter.getUnreadCount u s)
  | PostLike g u p => snd (postRouter.like g u p s)
  | PostUnlike u p => snd (postRouter.unlike u p s)
  | UserRegister g i => snd (userRouter.register isEmail hash g i s)
  | StoryViewStory g u k => snd (storyRouter.viewStory g u k s)
  | MessageSend g u v i =>
      snd (messageRouter.send randomKey encrypt g u v i s)
  | MessageSendToGroup g u k i =>
      snd (messageRouter.sendToGroup randomKey encrypt g u k i s)
  | MessageGetConversation g u i =>
      snd (messageRouter.getConversation g u i s)
  end.

Definition run (rs : list Request) (s : Store) : Store :=
  fold_left (fun st r => handle r st) rs s.
End Server.

(** ** Sample data *)

Definition sampleDefaults : Defaults :=
  mkDefaults (fun i => match i with O => "c1" | _ => "c2" end) 1000.

Definition sampleNotification (id : string) (createdAt : Z)
           (receiverId : string) (isRead : bool) : Notification.t :=
  Notification.mk id "COMMENT" "commented on your post" isRead createdAt
                  receiverId (Some "u9") None None None None None.

(** Three notifications for u1 (two of them created in the same
    millisecond) and one for u2. *)
Definition sampleInbox : Store :=
  set_notifications
    [ sampleNotification "n1" 10 "u1" false;
      sampleNotification "n2" 30 "u1" true;
      sampleNotification "n3" 20 "u2" false;
      sampleNotification "n4" 10 "u1" false ]
    emptyStore.

(** A feed with one post, p1, written by u2. *)
Definition samplePost : Post.t :=
  Post.mk "p1" (Some "hello") None "text" None None 500 500 "u2" "public".

Definition sampleFeed : Store :=
  mkStore [] [samplePost] [] [] [] [] [] [].

(** The feed after u1 called [like] on p1: the Like row is in place. *)
Definition sampleLiked : Store :=
  snd (postRouter.like sampleDefaults "u1" "p1" sampleFeed).

Definition sampleUser : User.t :=
  User.mk "u1" (Some "Ada") (Some "ada@example.org") None None (Some "")
          (Some "ada") (Some "secret") 100 100.

Definition sampleUsers : Store := set_users [sampleUser] emptyStore.

(** The users u1 and u2, and the post p1 of u2; nobody has liked it. *)
Definition sampleTimeline : Store :=
  mkStore
    [sampleUser;
     User.mk "u2" (Some "Bob") (Some "bob@example.org") None None (Some "")
             (Some "bob") (Some "secret") 100 100]
    [samplePost] [] [] [] [] [] [].

Definition sampleRegistration : userRouter.RegisterInput :=
  userRouter.mkRegisterInput "Ada L." "ada@example.org" "longpassword"
                             "lovelace".

Definition sampleStory : Story.t :=
  Story.mk "s1" "https://cdn/s1.png" "image" None 100 86400100 "u2".

Definition sampleStories : Store :=
  mkStore [] [] [] [sampleStory] [] [] [] [].

(** u1 is a member of the group g1 and has sent it one message. *)
Definition sampleGroup : Store :=
  mkStore [] [] [] [] [] [] []
          [GroupMember.mk "gm1" "u1" "g1" "admin" 50].

Definition sampleGroupChat : Store :=
  snd (messageRouter.sendToGroup "" (fun _ x => x) sampleDefaults "u1" "g1"
         (messageRouter.mkBody "hi all" "text" false) sampleGroup).

(** ** Further notions and sample data *)

Section Fetched.
Context {Row : Type}.
Variable key : Row -> string.
Variable createdAt : Row -> Z.

(** The rows a query starts from: the matching rows, newest first, from
    the cursor on. *)
Definition fetched (where_ : Row -> bool) (cursor : option string)
           (t : list Row) : list Row :=
  match cursor with
  | Some k =>
      Table.seek key k (Table.orderByDesc createdAt (filter where_ t))
  | None => Table.orderByDesc createdAt (filter where_ t)
  end.

End Fetched.

(** The cursor a handler hands to the store. *)
Definition effective (cursor : option string) : option string :=
  match cursor with
  | Some c => if truthy c then Some c else None
  | None => None
  end.

(** The number of unread notifications addressed to [u]. *)
Definition unreadOf (u : string) (s : Store) : nat :=
  Table.count
    (fun n =>
       String.eqb (Notification.receiverId n) u
       && negb (Notification.isRead n))
    (notifications s).

(** At most one Like row per user and post. *)
Definition likesUnique (s : Store) : Prop :=
  forall u p, Table.count (likeOf u p) (likes s) <= 1.

(** u1 and u2 have exchanged two direct messages, u3 has written to u1,
    and u1 has sent one message to the group g1. *)
Definition sampleMessage (id : string) (createdAt : Z)
           (senderId receiverId : string) (groupId : option string)
  : Message.t :=
  Message.mk id "hi" None None "text" createdAt senderId receiverId None
             groupId.

Definition sampleChat : Store :=
  mkStore
    [sampleUser;
     User.mk "u2" (Some "Bob") (Some "bob@example.org") None None (Some "")
             (Some "bob") (Some "secret") 100 100]
    [] [] [] [] []
    [ sampleMessage "m1" 10 "u2" "u1" None;
      sampleMessage "m2" 20 "u1" "u2" None;
      sampleMessage "m3" 30 "u1" "u1" (Some "g1");
      sampleMessage "m4" 40 "u3" "u1" None ]
    [GroupMember.mk "gm1" "u1" "g1" "admin" 50].

(** Three posts of u2, one of each visibility; u1 has liked the public
    one. *)
Definition samplePosts : Store :=
  mkStore []
    [ samplePost;
      Post.mk "p2" (Some "diary") None "text" None None 600 600 "u2"
              "private";
      Post.mk "p3" (Some "party") None "text" None None 700 700 "u2"
              "friends" ]
    [Like.mk "l1" 550 "u1" (Some "p1") None]
    [] [] [] [] [].

(** u1 follows u2.  u2 has the post p1, a story s1 that is still
    running (seen by u1, who reacted to it), an expired story s0 and a
    reel. *)
Definition sampleSocial : Database :=
  mkDatabase
    (mkStore
       [sampleUser;
        User.mk "u2" (Some "Bob") (Some "bob@example.org") None None
                (Some "") (Some "bob") (Some "secret") 100 100]
       [samplePost] []
       [sampleStory;
        Story.mk "s0" "https://cdn/s0.png" "image" None 50 500 "u2"]
       [StoryView.mk "v1" "s1" "u1" 200]
       [] [] [])
    [Follow.mk "f1" "u1" "u2" 5]
    []
    [Reaction.mk "r1" "love" 210 "u1" None None None (Some "s1") None]
    [Reel.mk "reel1" "https://cdn/r1.mp4" None None 300 "u2"]
    [].

(** The follow edge from [u] to [v]. *)
Definition edge (u v : string) (f : Follow.t) : bool :=
  String.eqb (Follow.followerId f) u && String.eqb (Follow.followingId f) v.

(** The reactions of user [u] on the target [k] of the column [col]. *)
Definition reactionOn (col : Reaction.t -> option string) (u k : string)
           (r : Reaction.t) : bool :=
  String.eqb (Reaction.userId r) u && column_is k (col r).

(** At most one reaction per user and post, per user and story, per
    user and reel, per user and message. *)
Definition reactionsUnique (d : Database) : Prop :=
  forall col,
    In col [Reaction.postId; Reaction.storyId; Reaction.reelId;
            Reaction.messageId] ->
    forall u k, Table.count (reactionOn col u k) (reactions d) <= 1.

(** The four references a row can hold to a post, a comment, a story
    and a reel all point at rows of [d]. *)
Definition targets (d : Database)
           (postId commentId storyId reelId : option string) : bool :=
  refers Post.id (posts (core d)) postId
  && refers Comment.id (comments d) commentId
  && refers Story.id (stories (core d)) storyId
  && refers Reel.id (reels d) reelId.

(** Referential integrity towards posts, comments, stories and reels:
    no comment, like, story view, reaction or notification refers to a
    row that is not there. *)
Definition integrity (d : Database) : bool :=
  forallb (fun c => targets d (Some (Comment.postId c)) None None None)
          (comments d)
  && forallb (fun l => targets d (Like.postId l) (Like.commentId l) None
                               None)
             (likes (core d))
  && forallb (fun v => targets d None None (Some (StoryView.storyId v))
                               None)
             (storyViews (core d))
  && forallb (fun r => targets d (Reaction.postId r) (Reaction.commentId r)
                               (Reaction.storyId r) (Reaction.reelId r))
             (reactions d)
  && forallb (fun n => targets d (Notification.postId n)
                               (Notification.commentId n)
                               (Notification.storyId n)
                               (Notification.reelId n))
             (notifications (core d)).

(** * Properties *)

(** ** Lists, [pop] and the ordered queries *)

Lemma pop_snoc {A : Type} (l : list A) (x : A) :
  pop (l ++ [x]) = (Some x, l).
Proof.
  induction l as [|y l IH]; [reflexivity|].
  change ((y :: l) ++ [x]) with (y :: (l ++ [x])).
  cbn [pop]. rewrite IH.
  destruct l; reflexivity.
Qed.

Lemma firstn_succ_snoc {A : Type} (n : nat) (l : list A) (x : A) :
  nth_error l n = Some x -> firstn (S n) l = firstn n l ++ [x].
Proof.
  revert l; induction n as [|n IH]; intros [|y l] H; try discriminate.
  - injection H as ->. reflexivity.
  - cbn [nth_error] in H.
    change (firstn (S (S n)) (y :: l)) with (y :: firstn (S n) l).
    rewrite (IH _ H). reflexivity.
Qed.

Lemma skipn_nth_error_cons {A : Type} (n : nat) (l : list A) (x : A) :
  nth_error l n = Some x -> exists tl, skipn n l = x :: tl.
Proof.
  revert l; induction n as [|n IH]; intros [|y l] H; try discriminate.
  - injection H as ->. exists l. reflexivity.
  - apply (IH l H).
Qed.

(** Fetching [n + 1] rows and popping the surplus row leaves the first
    [n] rows and the row at index [n], if there is one. *)
Lemma takePage_cases {A : Type} (n : nat) (rows : list A) :
  ((Z.of_nat (length (firstn (S n) rows)) >? Z.of_nat n)%Z = true
   /\ pop (firstn (S n) rows) = (nth_error rows n, firstn n rows))
  \/ ((Z.of_nat (length (firstn (S n) rows)) >? Z.of_nat n)%Z = false
      /\ firstn (S n) rows = firstn n rows
      /\ nth_error rows n = None).
Proof.
  destruct (nth_error rows n) as [x|] eqn:E.
  - left. rewrite (firstn_succ_snoc _ _ _ E), pop_snoc.
    assert (n < length rows) by (apply nth_error_Some; congruence).
    rewrite length_app, length_firstn. cbn [length].
    split; [|reflexivity].
    destruct (Z.gtb_spec (Z.of_nat (Nat.min n (length rows) + 1))
                         (Z.of_nat n)); [reflexivity|lia].
  - right. apply nth_error_None in E.
    rewrite !firstn_all2 by lia.
    split; [|split; reflexivity].
    destruct (Z.gtb_spec (Z.of_nat (length rows)) (Z.of_nat n));
      [lia|reflexivity].
Qed.

Section TableFacts.
Context {Row : Type}.
Variable key : Row -> string.
Variable createdAt : Row -> Z.

Local Abbreviation newerFirst := (Table.newerFirst createdAt).

Lemma insertDesc_perm (r : Row) (l : list Row) :
  Permutation (Table.insertDesc createdAt r l) (r :: l).
Proof.
  induction l as [|x l IH]; cbn [Table.insertDesc]; [reflexivity|].
  destruct (createdAt x >? createdAt r)%Z; [|reflexivity].
  rewrite IH. apply perm_swap.
Qed.

Lemma orderByDesc_perm (l : list Row) :
  Permutation (Table.orderByDesc createdAt l) l.
Proof.
  induction l as [|x l IH]; [reflexivity|].
  unfold Table.orderByDesc in *. cbn [fold_right].
  rewrite insertDesc_perm. now constructor.
Qed.

Lemma insertDesc_sorted (r : Row) (l : list Row) :
  StronglySorted newerFirst l ->
  StronglySorted newerFirst (Table.insertDesc createdAt r l).
Proof.
  induction 1 as [|x l Hs IH Hx]; cbn [Table.insertDesc].
  - repeat constructor.
  - destruct (Z.gtb_spec (createdAt x) (createdAt r)) as [Hgt|Hle].
    + constructor; [exact IH|].
      apply Forall_forall; intros y Hy.
      apply (Permutation_in _ (insertDesc_perm r l)) in Hy.
      destruct Hy as [<-|Hy].
      * unfold newerFirst; lia.
      * rewrite Forall_forall in Hx. now apply Hx.
    + constructor; [now constructor|].
      constructor; [unfold newerFirst; lia|].
      rewrite Forall_forall in Hx |- *. intros y Hy.
      specialize (Hx y Hy). unfold newerFirst in *. lia.
Qed.

Lemma orderByDesc_sorted (l : list Row) :
  StronglySorted newerFirst (Table.orderByDesc createdAt l).
Proof.
  induction l as [|x l IH]; [constructor|].
  unfold Table.orderByDesc in *. cbn [fold_right].
  now apply insertDesc_sorted.
Qed.

Lemma orderByDesc_length (l : list Row) :
  length (Table.orderByDesc createdAt l) = length l.
Proof. apply Permutation_length, orderByDesc_perm. Qed.

Lemma sorted_app_l (l1 l2 : list Row) :
  StronglySorted newerFirst (l1 ++ l2) -> StronglySorted newerFirst l1.
Proof.
  induction l1 as [|x l1 IH]; [constructor|].
  cbn [app]. intros H. inversion H as [|? ? Hs Hx]; subst.
  constructor; [now apply IH|].
  apply Forall_app in Hx. tauto.
Qed.

Lemma sorted_firstn (n : nat) (l : list Row) :
  StronglySorted newerFirst l -> StronglySorted newerFirst (firstn n l).
Proof.
  intros H. rewrite <- (firstn_skipn n l) in H.
  now apply sorted_app_l in H.
Qed.

(** Keys are unique in a table (primary key); filtering and ordering
    keep them so. *)
Lemma keys_unique_filter (f : Row -> bool) (l : list Row) :
  NoDup (map key l) -> NoDup (map key (filter f l)).
Proof.
  induction l as [|x l IH]; cbn [map filter]; [auto|].
  intros H. inversion H as [|? ? Hn Hd]; subst.
  destruct (f x); [|auto].
  cbn [map]. constructor; [|auto].
  intros Hin. apply Hn.
  apply in_map_iff in Hin. destruct Hin as (y & Hy & Hin).
  apply filter_In in Hin. apply in_map_iff. exists y. tauto.
Qed.

Lemma keys_unique_ordered (f : Row -> bool) (l : list Row) :
  NoDup (map key l) ->
  NoDup (map key (Table.orderByDesc createdAt (filter f l))).
Proof.
  intros H.
  eapply Permutation_NoDup.
  - apply Permutation_map. symmetry. apply orderByDesc_perm.
  - now apply keys_unique_filter.
Qed.

(** With unique keys the cursor finds its row and the listing
    continues from there. *)
Lemma seek_suffix (pre : list Row) (r : Row) (suf : list Row) :
  NoDup (map key (pre ++ r :: suf)) ->
  Table.seek key (key r) (pre ++ r :: suf) = r :: suf.
Proof.
  induction pre as [|x pre IH]; cbn [app Table.seek map]; intros H.
  - now rewrite String.eqb_refl.
  - inversion H as [|? ? Hn Hd]; subst.
    destruct (String.eqb_spec (key x) (key r)) as [E|_]; [|auto].
    exfalso. apply Hn. rewrite E, map_app. apply in_or_app.
    right. now left.
Qed.
End TableFacts.

(** ** Listing notifications *)

Section Listing.
Import notificationRouter.

Lemma getAll_page (u : string) (L : Z) (c : option string) (f : bool)
      (s : Store) :
  limit_ok L = true ->
  truthy u = true ->
  getAll u (mkGetAllInput L c f) s =
    (Ok (mkGetAllOutput
           (firstn (Z.to_nat L) (startOf c (listing u f s)))
           (option_map Notification.id
              (nth_error (startOf c (listing u f s)) (Z.to_nat L)))),
     s).
Proof.
  intros HL Hu.
  assert (HL' : (1 <= L <= 100)%Z) by (unfold limit_ok in HL; lia).
  unfold getAll. cbn [limit cursor onlyUnread].
  rewrite HL, Hu. cbn [negb].
  unfold bind, db.notification.findMany, gets, Table.findMany.
  fold (addressedTo u f). fold (listing u f s).
  set (from := match match c with
                     | Some c0 => if truthy c0 then Some c0 else None
                     | None => None
                     end with
               | Some k => Table.seek Notification.id k (listing u f s)
               | None => listing u f s
               end).
  assert (Hfrom : from = startOf c (listing u f s)).
  { unfold from, startOf. destruct c as [k|]; [|reflexivity].
    destruct (truthy k); reflexivity. }
  rewrite <- Hfrom. clear Hfrom. clearbody from.
  destruct (Z_of_nat_complete L) as [n ->]; [lia|].
  replace (Z.to_nat (Z.of_nat n + 1)) with (S n) by lia.
  rewrite Nat2Z.id.
  destruct (takePage_cases n from) as [(Hgt & Hpop)|(Hle & Hall & Hnone)].
  - rewrite Hgt, Hpop. reflexivity.
  - rewrite Hle, Hall, Hnone. reflexivity.
Qed.

Lemma paginate_from (u : string) (L : Z) (f : bool) (s : Store) :
  limit_ok L = true ->
  truthy u = true ->
  NoDup (map Notification.id (notifications s)) ->
  Forall (fun n => truthy (Notification.id n) = true) (notifications s) ->
  forall (fuel : nat) (pre : list Notification.t) (r : Notification.t)
         (suf : list Notification.t),
    listing u f s = pre ++ r :: suf ->
    length (r :: suf) <= fuel ->
    exists pages,
      paginate fuel u L f (Some (Notification.id r)) s = Some pages
      /\ concat pages = r :: suf
      /\ Forall (fun p => Z.of_nat (length p) <= L)%Z pages.
Proof.
  intros HL Hu Hkeys Hids.
  assert (HL' : (1 <= L <= 100)%Z) by (unfold limit_ok in HL; lia).
  assert (Hin : forall x, In x (listing u f s) ->
                          truthy (Notification.id x) = true).
  { intros x Hx. unfold listing in Hx.
    apply (Permutation_in _ (orderByDesc_perm _ _)) in Hx.
    apply filter_In in Hx. rewrite Forall_forall in Hids.
    now apply Hids. }
  assert (Hnd : NoDup (map Notification.id (listing u f s)))
    by now apply keys_unique_ordered.
  induction fuel as [|fuel IH]; intros pre r suf Hl Hlen;
    [cbn [length] in Hlen; lia|].
  cbn [paginate]. rewrite getAll_page by assumption.
  cbn [nextCursor items startOf].
  rewrite (Hin r) by (rewrite Hl; apply in_or_app; right; now left).
  rewrite Hl, seek_suffix by (rewrite <- Hl; exact Hnd).
  set (n := Z.to_nat L).
  assert (Hfn : (Z.of_nat (length (firstn n (r :: suf))) <= L)%Z).
  { rewrite length_firstn. subst n. lia. }
  destruct (nth_error (r :: suf) n) as [x|] eqn:E; cbn [option_map].
  - destruct (skipn_nth_error_cons _ _ _ E) as [tl Htl].
    destruct (IH (pre ++ firstn n (r :: suf)) x tl) as (pages & Hp & Hc & Hf).
    + rewrite <- app_assoc, <- Htl, firstn_skipn. exact Hl.
    + rewrite <- Htl, length_skipn. subst n. cbn [length] in *. lia.
    + rewrite Hp. cbn [option_map].
      exists (firstn n (r :: suf) :: pages). split; [reflexivity|].
      split; [|now constructor].
      cbn [concat]. rewrite Hc, <- Htl. apply firstn_skipn.
  - apply nth_error_None in E.
    exists [firstn n (r :: suf)]. split; [reflexivity|].
    split; [|now repeat constructor].
    cbn [concat]. rewrite app_nil_r. now apply firstn_all2.
Qed.
End Listing.

(** ** Claims on the notification listing *)

Lemma truthy_true (x : string) : truthy x = true <-> x <> "".
Proof.
  unfold truthy. destruct (String.eqb_spec x ""); cbn; split; congruence.
Qed.

Lemma limit_ok_true (L : Z) :
  limit_ok L = true <-> (1 <= L <= 100)%Z.
Proof. unfold limit_ok. lia. Qed.

Lemma hd_error_skipn {A : Type} (n : nat) (l : list A) :
  hd_error (skipn n l) = nth_error l n.
Proof.
  revert l; induction n as [|n IH]; intros [|x l]; try reflexivity.
  apply IH.
Qed.

Lemma addressedTo_all (u : string) (l : list Notification.t) :
  filter (addressedTo u false) l =
  filter (fun n => String.eqb (Notification.receiverId n) u) l.
Proof.
  apply filter_ext. intros n. unfold addressedTo. apply andb_true_r.
Qed.

Lemma listing_perm (u : string) (s : Store) :
  Permutation (listing u false s)
    (filter (fun n => String.eqb (Notification.receiverId n) u)
            (notifications s)).
Proof.
  unfold listing. rewrite addressedTo_all. apply orderByDesc_perm.
Qed.

Lemma listing_sorted (u : string) (f : bool) (s : Store) :
  StronglySorted (Table.newerFirst Notification.createdAt) (listing u f s).
Proof. apply orderByDesc_sorted. Qed.

(** C2. For a valid limit [L] and a user with [N] notifications,
    [getAll] without a cursor succeeds, leaves the store as it is and
    returns [min L N] items, newest first; together with the rows
    [beyond] the page they are all the notifications of the user in
    creation-time order; [nextCursor] is present exactly when [N > L],
    and it is the identifier of the first row beyond the page. *)
Theorem getAll_first_page (s : Store) (u : string) (L : Z) :
  (1 <= L <= 100)%Z ->
  u <> "" ->
  exists (out : notificationRouter.GetAllOutput)
         (beyond : list Notification.t),
    let mine :=
      filter (fun n => String.eqb (Notification.receiverId n) u)
             (notifications s) in
    notificationRouter.getAll u
      (notificationRouter.mkGetAllInput L None false) s = (Ok out, s)
    /\ length (notificationRouter.items out)
       = Nat.min (Z.to_nat L) (length mine)
    /\ Permutation (notificationRouter.items out ++ beyond) mine
    /\ StronglySorted (Table.newerFirst Notification.createdAt)
         (notificationRouter.items out ++ beyond)
    /\ (notificationRouter.nextCursor out <> None
        <-> (Z.of_nat (length mine) > L)%Z)
    /\ notificationRouter.nextCursor out
       = option_map Notification.id (hd_error beyond).
Proof.
  intros HL Hu.
  set (all := listing u false s).
  exists (notificationRouter.mkGetAllOutput
            (firstn (Z.to_nat L) all)
            (option_map Notification.id (nth_error all (Z.to_nat L)))),
         (skipn (Z.to_nat L) all).
  cbn zeta. cbn [notificationRouter.items notificationRouter.nextCursor].
  assert (Hlen : length all
                 = length (filter
                     (fun n => String.eqb (Notification.receiverId n) u)
                     (notifications s)))
    by apply Permutation_length, listing_perm.
  repeat split.
  - rewrite getAll_page by (try apply limit_ok_true; try apply truthy_true;
                            assumption).
    reflexivity.
  - rewrite length_firstn, Hlen. reflexivity.
  - rewrite firstn_skipn. apply listing_perm.
  - rewrite firstn_skipn. apply listing_sorted.
  - intros H. rewrite <- Hlen.
    destruct (nth_error all (Z.to_nat L)) eqn:E; [|now elim H].
    assert (Z.to_nat L < length all) by (apply nth_error_Some; congruence).
    lia.
  - intros H. rewrite <- Hlen in H.
    destruct (nth_error all (Z.to_nat L)) eqn:E; [discriminate|].
    apply nth_error_None in E. lia.
  - now rewrite hd_error_skipn.
Qed.

Lemma getAll_first_page_witness :
  (1 <= 2 <= 100)%Z /\ "u1" <> "" /\
  exists (out : notificationRouter.GetAllOutput)
         (beyond : list Notification.t),
    let mine :=
      filter (fun n => String.eqb (Notification.receiverId n) "u1")
             (notifications sampleInbox) in
    notificationRouter.getAll "u1"
      (notificationRouter.mkGetAllInput 2 None false) sampleInbox
      = (Ok out, sampleInbox)
    /\ length (notificationRouter.items out)
       = Nat.min (Z.to_nat 2) (length mine)
    /\ Permutation (notificationRouter.items out ++ beyond) mine
    /\ StronglySorted (Table.newerFirst Notification.createdAt)
         (notificationRouter.items out ++ beyond)
    /\ (notificationRouter.nextCursor out <> None
        <-> (Z.of_nat (length mine) > 2)%Z)
    /\ notificationRouter.nextCursor out
       = option_map Notification.id (hd_error beyond).
Proof.
  split; [lia|]. split; [discriminate|].
  apply (getAll_first_page sampleInbox "u1" 2); [lia|discriminate].
Defined.

(** C3. On a fixed store whose notification identifiers are unique and
    non-empty, for a valid limit, the request loop that starts without a
    cursor and follows [nextCursor] ends, and its pages put together are
    all the notifications of the user, each exactly once, newest first;
    no page is longer than the limit. *)
Theorem paginate_complete (s : Store) (u : string) (L : Z) :
  (1 <= L <= 100)%Z ->
  u <> "" ->
  NoDup (map Notification.id (notifications s)) ->
  Forall (fun n => Notification.id n <> "") (notifications s) ->
  exists pages : list (list Notification.t),
    paginate (S (length (notifications s))) u L false None s = Some pages
    /\ Permutation (concat pages)
         (filter (fun n => String.eqb (Notification.receiverId n) u)
                 (notifications s))
    /\ NoDup (map Notification.id (concat pages))
    /\ StronglySorted (Table.newerFirst Notification.createdAt)
         (concat pages)
    /\ Forall (fun p => (Z.of_nat (length p) <= L)%Z) pages.
Proof.
  intros HL Hu Hkeys Hids.
  assert (HL' := proj2 (limit_ok_true L) HL).
  assert (Hu' := proj2 (truthy_true u) Hu).
  assert (Hids' : Forall (fun n => truthy (Notification.id n) = true)
                         (notifications s)).
  { eapply Forall_impl; [|exact Hids]. intros n. apply truthy_true. }
  set (all := listing u false s).
  assert (Hall : exists pages,
             paginate (S (length (notifications s))) u L false None s
             = Some pages
             /\ concat pages = all
             /\ Forall (fun p => (Z.of_nat (length p) <= L)%Z) pages).
  { cbn [paginate]. rewrite getAll_page by assumption.
    cbn [notificationRouter.nextCursor notificationRouter.items startOf].
    fold all. set (n := Z.to_nat L).
    assert (Hfn : (Z.of_nat (length (firstn n all)) <= L)%Z).
    { rewrite length_firstn. subst n. lia. }
    destruct (nth_error all n) as [x|] eqn:E; cbn [option_map].
    - destruct (skipn_nth_error_cons _ _ _ E) as [tl Htl].
      destruct (paginate_from u L false s HL' Hu' Hkeys Hids'
                  (length (notifications s)) (firstn n all) x tl)
        as (pages & Hp & Hc & Hf).
      + rewrite <- Htl. symmetry. apply firstn_skipn.
      + rewrite <- Htl, length_skipn. unfold all, listing.
        rewrite orderByDesc_length.
        pose proof (filter_length_le (addressedTo u false)
                                     (notifications s)).
        lia.
      + rewrite Hp. cbn [option_map].
        exists (firstn n all :: pages). split; [reflexivity|].
        split; [|now constructor].
        cbn [concat]. rewrite Hc, <- Htl. apply firstn_skipn.
    - apply nth_error_None in E.
      exists [firstn n all]. split; [reflexivity|].
      split; [|now repeat constructor].
      cbn [concat]. rewrite app_nil_r. now apply firstn_all2. }
  destruct Hall as (pages & Hp & Hc & Hf).
  exists pages. rewrite Hc. repeat split; try assumption.
  - apply listing_perm.
  - now apply keys_unique_ordered.
  - apply listing_sorted.
Qed.

Lemma paginate_complete_witness :
  exists pages : list (list Notification.t),
    paginate (S (length (notifications sampleInbox))) "u1" 2 false None
             sampleInbox = Some pages
    /\ Permutation (concat pages)
         (filter (fun n => String.eqb (Notification.receiverId n) "u1")
                 (notifications sampleInbox))
    /\ NoDup (map Notification.id (concat pages))
    /\ StronglySorted (Table.newerFirst Notification.createdAt)
         (concat pages)
    /\ Forall (fun p => (Z.of_nat (length p) <= 2)%Z) pages.
Proof.
  apply (paginate_complete sampleInbox "u1" 2).
  - lia.
  - discriminate.
  - cbn. repeat constructor; cbn; intuition discriminate.
  - repeat constructor; discriminate.
Defined.

(** ** Reading state of notifications *)

Section KeyedTable.
Context {Row : Type}.
Variable key : Row -> string.

Lemma findUnique_In (l : list Row) (r : Row) :
  NoDup (map key l) -> In r l -> Table.findUnique key (key r) l = Some r.
Proof.
  unfold Table.findUnique.
  induction l as [|x l IH]; cbn [map In find]; intros Hnd Hin; [easy|].
  inversion Hnd as [|? ? Hn Hd]; subst.
  destruct Hin as [->|Hin]; [now rewrite String.eqb_refl|].
  destruct (String.eqb_spec (key x) (key r)) as [E|_]; [|auto].
  exfalso. apply Hn. rewrite E. now apply in_map.
Qed.

Lemma findUnique_update (k : string) (data : Row -> Row) (l : list Row) :
  (forall r, key (data r) = key r) ->
  Table.findUnique key k (Table.update key k data l)
  = option_map data (Table.findUnique key k l).
Proof.
  intros Hk. unfold Table.findUnique, Table.update.
  induction l as [|x l IH]; cbn [map find]; [reflexivity|].
  destruct (String.eqb_spec (key x) k) as [E|E].
  - rewrite Hk, E, String.eqb_refl. reflexivity.
  - apply String.eqb_neq in E. now rewrite E.
Qed.

Lemma update_other (k : string) (data : Row -> Row) (l : list Row)
      (r : Row) :
  key r <> k -> In r l -> In r (Table.update key k data l).
Proof.
  intros Hne Hin. unfold Table.update. apply in_map_iff. exists r.
  apply String.eqb_neq in Hne. now rewrite Hne.
Qed.

Lemma count_updateMany_zero (where_ : Row -> bool) (data : Row -> Row)
      (l : list Row) :
  (forall r, where_ (data r) = false) ->
  Table.count where_ (Table.updateMany where_ data l) = 0.
Proof.
  intros Hd. unfold Table.count, Table.updateMany.
  induction l as [|x l IH]; cbn [map filter]; [reflexivity|].
  destruct (where_ x) eqn:E; [rewrite Hd|rewrite E]; exact IH.
Qed.
End KeyedTable.

(** C5. A caller who is not the receiver of a notification gets
    FORBIDDEN from [markAsRead] and the store, hence the read state of
    the notification, stays as it was; for the receiver the call
    succeeds and the row with that identifier becomes the same row with
    [isRead] true, the other rows staying in place. *)
Theorem markAsRead_receiver_only (s : Store) (u : string)
        (n : Notification.t) :
  u <> "" ->
  NoDup (map Notification.id (notifications s)) ->
  In n (notifications s) ->
  (u <> Notification.receiverId n ->
   notificationRouter.markAsRead u (Notification.id n) s
   = (Err (TRPCError FORBIDDEN
        "You do not have permission to mark this notification as read"),
      s))
  /\ (u = Notification.receiverId n ->
      exists s',
        notificationRouter.markAsRead u (Notification.id n) s
        = (Ok (Notification.set_isRead true n), s')
        /\ Table.findUnique Notification.id (Notification.id n)
             (notifications s')
           = Some (Notification.set_isRead true n)
        /\ Notification.isRead (Notification.set_isRead true n) = true
        /\ (forall m, In m (notifications s) ->
                      Notification.id m <> Notification.id n ->
                      In m (notifications s'))
        /\ length (notifications s') = length (notifications s)).
Proof.
  intros Hu Hnd Hin.
  apply truthy_true in Hu.
  pose proof (findUnique_In Notification.id _ n Hnd Hin) as Hfind.
  unfold notificationRouter.markAsRead, bind, db.notification.findUnique,
    db.notification.update, gets, throw.
  rewrite Hu. cbn [negb]. cbv beta. rewrite Hfind. split; intros Hr.
  - destruct (String.eqb_spec (Notification.receiverId n) u);
      [congruence|reflexivity].
  - rewrite <- Hr, String.eqb_refl. cbn [negb]. rewrite Hfind.
    eexists. split; [reflexivity|].
    cbn [notifications set_notifications].
    repeat split.
    + rewrite findUnique_update by reflexivity. now rewrite Hfind.
    + intros m Hm Hne. now apply update_other.
    + unfold Table.update. apply length_map.
Qed.

Lemma markAsRead_receiver_only_witness :
  notificationRouter.markAsRead "u1" "n3" sampleInbox
  = (Err (TRPCError FORBIDDEN
       "You do not have permission to mark this notification as read"),
     sampleInbox)
  /\ exists s',
       notificationRouter.markAsRead "u2" "n3" sampleInbox
       = (Ok (sampleNotification "n3" 20 "u2" true), s').
Proof.
  assert (Hnd : NoDup (map Notification.id (notifications sampleInbox)))
    by (cbn; repeat constructor; cbn; intuition discriminate).
  assert (Hin : In (sampleNotification "n3" 20 "u2" false)
                   (notifications sampleInbox))
    by (cbn; tauto).
  split.
  - apply (markAsRead_receiver_only sampleInbox "u1"
             (sampleNotification "n3" 20 "u2" false));
      [discriminate|exact Hnd|exact Hin|discriminate].
  - destruct (markAsRead_receiver_only sampleInbox "u2"
                (sampleNotification "n3" 20 "u2" false))
      as [_ Hok]; [discriminate|exact Hnd|exact Hin|].
    destruct (Hok eq_refl) as (s' & Hs' & _). exists s'. exact Hs'.
Defined.

(** C6. For an authenticated user, [markAllAsRead] succeeds; it reports
    the number of the caller's unread rows and sets [isRead] on them;
    [getUnreadCount], which counts the caller's rows with [isRead]
    false, then returns 0 on the store it left. *)
Theorem markAllAsRead_then_getUnreadCount (s : Store) (u : string) :
  u <> "" ->
  let unread n :=
    String.eqb (Notification.receiverId n) u
    && negb (Notification.isRead n) in
  exists s',
    notificationRouter.markAllAsRead u s
    = (Ok (length (filter unread (notifications s))), s')
    /\ notifications s'
       = map (fun n => if unread n then Notification.set_isRead true n
                       else n)
             (notifications s)
    /\ notificationRouter.getUnreadCount u s' = (Ok 0, s')
    /\ (forall t, notificationRouter.getUnreadCount u t
                  = (Ok (length (filter unread (notifications t))), t)).
Proof.
  intros Hu unread. apply truthy_true in Hu.
  unfold notificationRouter.markAllAsRead, notificationRouter.getUnreadCount,
    db.notification.updateMany, db.notification.count, gets.
  rewrite Hu. cbn [negb].
  eexists. split; [reflexivity|].
  cbn [notifications set_notifications].
  split; [reflexivity|]. split; [|reflexivity].
  rewrite count_updateMany_zero; [reflexivity|].
  intros r. cbn. apply andb_false_r.
Qed.

Lemma markAllAsRead_then_getUnreadCount_witness :
  "u1" <> "" /\
  exists s',
    notificationRouter.markAllAsRead "u1" sampleInbox = (Ok 2, s')
    /\ notificationRouter.getUnreadCount "u1" s' = (Ok 0, s').
Proof.
  split; [discriminate|].
  destruct (markAllAsRead_then_getUnreadCount sampleInbox "u1")
    as (s' & H1 & _ & H2 & _); [discriminate|].
  exists s'. split; [exact H1|exact H2].
Defined.

(** ** Likes *)

Lemma likeOf_true (u p : string) (l : Like.t) :
  likeOf u p l = true <-> Like.userId l = u /\ Like.postId l = Some p.
Proof.
  unfold likeOf, column_is. rewrite andb_true_iff, String.eqb_eq.
  destruct (Like.postId l) as [q|].
  - rewrite String.eqb_eq. split; intros [H1 H2]; split; congruence.
  - split; intros [H1 H2]; discriminate.
Qed.

(** C4. When the user already has a Like row for the post, [like]
    throws BAD_REQUEST and leaves the store as it was: no Like row and
    no Notification row is added. *)
Theorem like_twice_rejected (g : Defaults) (s : Store) (u p : string) :
  (exists l, In l (likes s) /\ Like.userId l = u
             /\ Like.postId l = Some p) ->
  postRouter.like g u p s
  = (Err (TRPCError BAD_REQUEST "Post already liked"), s).
Proof.
  intros (l & Hin & Hl).
  unfold postRouter.like, bind, db.like.findFirst, gets, Table.findFirst.
  fold (likeOf u p).
  destruct (find (likeOf u p) (likes s)) eqn:E; [reflexivity|].
  apply (find_none _ _ E) in Hin.
  apply likeOf_true in Hl. congruence.
Qed.

Lemma like_twice_rejected_witness :
  postRouter.like sampleDefaults "u1" "p1" sampleLiked
  = (Err (TRPCError BAD_REQUEST "Post already liked"), sampleLiked).
Proof.
  apply (like_twice_rejected sampleDefaults sampleLiked "u1" "p1").
  exists (Like.mk "c1" 1000 "u1" (Some "p1") None).
  split; [left; reflexivity|split; reflexivity].
Defined.

(** What a first [like] of an existing post does, for every store: one
    Like row is appended and nothing else is written.  On an own post
    the call succeeds.  On a post of somebody else the handler goes on
    to create a notification of type "like", which the client refuses:
    the call throws after the Like row is in place. *)
Lemma like_effect (g : Defaults) (s : Store) (u p : string)
      (post : Post.t) :
  (forall l, In l (likes s) ->
             ~ (Like.userId l = u /\ Like.postId l = Some p)) ->
  Table.findUnique Post.id p (posts s) = Some post ->
  postRouter.like g u p s
  = (if String.eqb (Post.userId post) u then Ok true
     else Err PrismaClientValidationError,
     set_likes (likes s ++ [Like.mk (cuid g 0) (now g) u (Some p) None]) s).
Proof.
  intros Hnone Hpost.
  unfold postRouter.like, bind, db.like.findFirst, db.post.findUnique, gets,
    Table.findFirst.
  fold (likeOf u p).
  destruct (find (likeOf u p) (likes s)) as [l|] eqn:E.
  - apply find_some in E. destruct E as [Hin Hl].
    apply likeOf_true in Hl. elim (Hnone l Hin Hl).
  - rewrite Hpost.
    unfold db.like.create, db.notification.create, ret.
    destruct (String.eqb (Post.userId post) u); reflexivity.
Qed.

(** C1, on the code: when u1 likes p1, a post of u2, the call does not
    succeed.  It adds the Like row and then throws, because the
    notification it goes on to create carries the type "like", which is
    not a value of [NotificationType] ("LIKE" is): no Notification row
    is stored for u2. *)
Theorem like_notification_row :
  postRouter.like sampleDefaults "u1" "p1" sampleTimeline
  = (Err PrismaClientValidationError,
     set_likes [Like.mk "c1" 1000 "u1" (Some "p1") None] sampleTimeline)
  /\ notifications (snd (postRouter.like sampleDefaults "u1" "p1"
                                          sampleTimeline)) = []
  /\ ~ In "like" NotificationType
  /\ In "LIKE" NotificationType.
Proof.
  split; [reflexivity|]. split; [reflexivity|]. split.
  - cbn. intuition discriminate.
  - cbn. tauto.
Qed.

(** C7. [unlike] succeeds, removes exactly the Like rows of the caller
    for the post and changes no other table; the notifications in
    particular stay as they were. *)
Theorem unlike_frame (s : Store) (u p : string) :
  exists s',
    postRouter.unlike u p s = (Ok true, s')
    /\ (forall l, In l (likes s') <->
                  In l (likes s)
                  /\ ~ (Like.userId l = u /\ Like.postId l = Some p))
    /\ likes s' = filter (fun l => negb (likeOf u p l)) (likes s)
    /\ notifications s' = notifications s
    /\ users s' = users s
    /\ posts s' = posts s
    /\ stories s' = stories s
    /\ storyViews s' = storyViews s
    /\ messages s' = messages s
    /\ groupMembers s' = groupMembers s.
Proof.
  eexists. split; [reflexivity|].
  cbn [likes set_likes notifications users posts stories storyViews
       messages groupMembers].
  split; [|repeat split].
  intros l. unfold Table.deleteMany.
  rewrite filter_In, negb_true_iff.
  pose proof (likeOf_true u p l) as H. unfold likeOf in H.
  destruct (String.eqb (Like.userId l) u && column_is p (Like.postId l));
    intuition congruence.
Qed.

(** ** Registration *)

(** C8. When the email or the username of a registration already
    belongs to a user, [register] returns an error and the store, hence
    the user table, stays as it was. *)
Theorem register_taken (isEmail : string -> bool)
        (hash : string -> nat -> string) (g : Defaults)
        (input : userRouter.RegisterInput) (s : Store) :
  (exists usr, In usr (users s)
               /\ (User.email usr = Some (userRouter.email input)
                   \/ User.username usr
                      = Some (userRouter.username input))) ->
  exists e, userRouter.register isEmail hash g input s = (Err e, s).
Proof.
  intros (usr & Hin & Hsame).
  unfold userRouter.register.
  destruct (userRouter.register_input_ok isEmail input);
    [|eexists; reflexivity].
  cbn [negb]. unfold bind, db.user.findFirst, gets, Table.findFirst.
  destruct (find _ (users s)) eqn:E; [eexists; reflexivity|].
  apply (find_none _ _ E) in Hin. cbn beta in Hin.
  apply orb_false_iff in Hin. destruct Hin as [He Hn].
  destruct Hsame as [H|H]; rewrite H in *; cbn [column_is] in *;
    rewrite String.eqb_refl in *; discriminate.
Qed.

Lemma register_taken_witness :
  exists e,
    userRouter.register (fun _ => true) (fun pw _ => pw) sampleDefaults
                        sampleRegistration sampleUsers
    = (Err e, sampleUsers).
Proof.
  apply (register_taken (fun _ => true) (fun pw _ => pw) sampleDefaults
                        sampleRegistration sampleUsers).
  exists sampleUser. split; [left; reflexivity|left; reflexivity].
Defined.

(** ** Story views *)

Lemma count_zero_existsb {A : Type} (p : A -> bool) (l : list A) :
  Table.count p l = 0 -> existsb p l = false.
Proof.
  unfold Table.count.
  induction l as [|x l IH]; cbn [filter existsb]; [reflexivity|].
  destruct (p x); cbn [length orb]; [discriminate|exact IH].
Qed.

Lemma count_app {A : Type} (p : A -> bool) (l1 l2 : list A) :
  Table.count p (l1 ++ l2) = Table.count p l1 + Table.count p l2.
Proof. unfold Table.count. now rewrite filter_app, length_app. Qed.

Lemma findUnique_key {Row : Type} (key : Row -> string) (k : string)
      (l : list Row) (r : Row) :
  Table.findUnique key k l = Some r -> key r = k.
Proof.
  unfold Table.findUnique. intros H. apply find_some in H.
  now apply String.eqb_eq.
Qed.

(** The store that [viewStory] leaves. *)
Lemma viewStory_store (g : Defaults) (s : Store) (v sid : string) :
  snd (storyRouter.viewStory g v sid s)
  = match Table.findUnique Story.id sid (stories s) with
    | Some _ =>
        if (viewsOf sid v s =? 0)%nat then
          set_storyViews
            (storyViews s ++ [StoryView.mk (cuid g 0) sid v (now g)]) s
        else s
    | None => s
    end.
Proof.
  unfold storyRouter.viewStory, bind, db.story.findUniqueWithViews, gets.
  destruct (Table.findUnique Story.id sid (stories s)) as [st|] eqn:E;
    [|reflexivity].
  rewrite (findUnique_key _ _ _ _ E).
  change (length (filter _ (storyViews s))) with (viewsOf sid v s).
  destruct (viewsOf sid v s =? 0)%nat eqn:E0; [|reflexivity].
  apply Nat.eqb_eq in E0.
  unfold db.storyView.create.
  rewrite (count_zero_existsb _ _ E0). reflexivity.
Qed.

Lemma viewStory_result (g : Defaults) (s : Store) (v sid : string) :
  fst (storyRouter.viewStory g v sid s)
  = match Table.findUnique Story.id sid (stories s) with
    | Some _ => Ok true
    | None => Err (TRPCError NOT_FOUND "Story not found")
    end.
Proof.
  unfold storyRouter.viewStory, bind, db.story.findUniqueWithViews, gets.
  destruct (Table.findUnique Story.id sid (stories s)) as [st|] eqn:E;
    [|reflexivity].
  rewrite (findUnique_key _ _ _ _ E).
  change (length (filter _ (storyViews s))) with (viewsOf sid v s).
  destruct (viewsOf sid v s =? 0)%nat eqn:E0; [|reflexivity].
  apply Nat.eqb_eq in E0.
  unfold db.storyView.create.
  rewrite (count_zero_existsb _ _ E0). reflexivity.
Qed.

Lemma viewsOf_zero_fresh (s : Store) (v sid : string) :
  viewsOf sid v s = 0 ->
  ~ In (sid, v)
       (map (fun x => (StoryView.storyId x, StoryView.viewerId x))
            (storyViews s)).
Proof.
  unfold viewsOf, Table.count. intros H0 Hin.
  apply in_map_iff in Hin. destruct Hin as (x & Hx & Hin).
  injection Hx as H1 H2.
  assert (Hf : In x (filter
                 (fun w => String.eqb (StoryView.storyId w) sid
                           && String.eqb (StoryView.viewerId w) v)
                 (storyViews s))).
  { apply filter_In. split; [exact Hin|].
    now rewrite H1, H2, !String.eqb_refl. }
  destruct (filter _ (storyViews s)); [easy|discriminate].
Qed.

Lemma unique_views_at_most_one (l : list StoryView.t) (v sid : string) :
  NoDup (map (fun x => (StoryView.storyId x, StoryView.viewerId x)) l) ->
  Table.count
    (fun w => String.eqb (StoryView.storyId w) sid
              && String.eqb (StoryView.viewerId w) v) l <= 1.
Proof.
  unfold Table.count.
  induction l as [|x l IH]; cbn [map filter]; intros H; [cbn; lia|].
  inversion H as [|? ? Hn Hd]; subst.
  destruct (String.eqb (StoryView.storyId x) sid
            && String.eqb (StoryView.viewerId x) v) eqn:B; [|auto].
  apply andb_true_iff in B. destruct B as [E1 E2].
  apply String.eqb_eq in E1, E2.
  destruct (filter _ l) as [|y tl] eqn:F; [cbn; lia|].
  exfalso. apply Hn.
  assert (Hy : In y (filter
                 (fun w => String.eqb (StoryView.storyId w) sid
                           && String.eqb (StoryView.viewerId w) v) l))
    by (rewrite F; now left).
  apply filter_In in Hy. destruct Hy as [Hy Hb].
  apply andb_true_iff in Hb. destruct Hb as [B1 B2].
  apply String.eqb_eq in B1, B2.
  apply in_map_iff. exists y. split; [congruence|exact Hy].
Qed.

Lemma viewStory_keeps_unique (g : Defaults) (s : Store) (v sid : string) :
  storyViewsUnique s ->
  storyViewsUnique (snd (storyRouter.viewStory g v sid s)).
Proof.
  intros Hu. rewrite viewStory_store.
  destruct (Table.findUnique Story.id sid (stories s)); [|exact Hu].
  destruct (viewsOf sid v s =? 0)%nat eqn:E0; [|exact Hu].
  apply Nat.eqb_eq in E0.
  unfold storyViewsUnique in *. cbn [storyViews set_storyViews].
  rewrite map_app. cbn [map StoryView.storyId StoryView.viewerId].
  eapply Permutation_NoDup; [apply Permutation_cons_append|].
  constructor; [now apply viewsOf_zero_fresh|exact Hu].
Qed.

Lemma viewsOf_after_create (g : Defaults) (s : Store) (v sid : string) :
  viewsOf sid v
    (set_storyViews
       (storyViews s ++ [StoryView.mk (cuid g 0) sid v (now g)]) s)
  = S (viewsOf sid v s).
Proof.
  unfold viewsOf. cbn [storyViews set_storyViews].
  rewrite count_app. unfold Table.count at 2.
  cbn [filter StoryView.storyId StoryView.viewerId].
  rewrite !String.eqb_refl. cbn. lia.
Qed.

Lemma viewStoryTimes_fixed (gs : list Defaults) (s : Store)
      (v sid : string) :
  (forall g, snd (storyRouter.viewStory g v sid s) = s) ->
  viewStoryTimes gs v sid s = s.
Proof.
  intros Hfix. induction gs as [|g gs IH]; cbn [viewStoryTimes];
    [reflexivity|].
  now rewrite Hfix.
Qed.

(** C9. On a store with at most one StoryView per (story, viewer) pair,
    [viewStory] keeps it so; the pair of the call has at most one row
    afterwards; the call adds a row only when the pair had none, and
    never runs into the unique index; any number of further calls by the
    same viewer on the same story leave the store as the first call left
    it. *)
Theorem viewStory_one_view_per_viewer (g : Defaults) (s : Store)
        (v sid : string) :
  storyViewsUnique s ->
  let s1 := snd (storyRouter.viewStory g v sid s) in
  storyViewsUnique s1
  /\ viewsOf sid v s1 <= 1
  /\ (storyViews s1 = storyViews s
      \/ (viewsOf sid v s = 0
          /\ storyViews s1
             = storyViews s ++ [StoryView.mk (cuid g 0) sid v (now g)]))
  /\ fst (storyRouter.viewStory g v sid s)
     <> Err (PrismaClientKnownRequestError "P2002")
  /\ (forall gs : list Defaults, viewStoryTimes gs v sid s1 = s1).
Proof.
  intros Hu s1.
  assert (Hu1 : storyViewsUnique s1) by now apply viewStory_keeps_unique.
  split; [exact Hu1|].
  split; [now apply unique_views_at_most_one|].
  split; [|split].
  - subst s1. rewrite viewStory_store.
    destruct (Table.findUnique Story.id sid (stories s)); [|now left].
    destruct (viewsOf sid v s =? 0)%nat eqn:E0; [|now left].
    right. apply Nat.eqb_eq in E0. split; [exact E0|reflexivity].
  - rewrite viewStory_result.
    destruct (Table.findUnique Story.id sid (stories s)); discriminate.
  - intros gs. apply viewStoryTimes_fixed. intros g'.
    subst s1. rewrite (viewStory_store g' _ v sid), (viewStory_store g s).
    destruct (Table.findUnique Story.id sid (stories s)) as [st|] eqn:E;
      [|now rewrite E].
    destruct (viewsOf sid v s =? 0)%nat eqn:E0.
    + cbn [stories set_storyViews]. rewrite E.
      now rewrite viewsOf_after_create.
    + now rewrite E, E0.
Qed.

Lemma viewStory_one_view_per_viewer_witness :
  let s1 := snd (storyRouter.viewStory sampleDefaults "u1" "s1"
                                       sampleStories) in
  storyViewsUnique s1
  /\ viewsOf "s1" "u1" s1 <= 1
  /\ (storyViews s1 = storyViews sampleStories
      \/ (viewsOf "s1" "u1" sampleStories = 0
          /\ storyViews s1
             = storyViews sampleStories
               ++ [StoryView.mk "c1" "s1" "u1" 1000]))
  /\ fst (storyRouter.viewStory sampleDefaults "u1" "s1" sampleStories)
     <> Err (PrismaClientKnownRequestError "P2002")
  /\ (forall gs : list Defaults, viewStoryTimes gs "u1" "s1" s1 = s1).
Proof.
  apply (viewStory_one_view_per_viewer sampleDefaults sampleStories
                                       "u1" "s1").
  unfold storyViewsUnique. cbn. constructor.
Defined.

(** Case analysis on every branch of an unfolded handler. *)
Ltac split_handler :=
  cbv beta iota zeta;
  repeat (match goal with
          | |- context [if ?b then _ else _] => destruct b
          | |- context [match ?x with _ => _ end] => destruct x
          end; cbv beta iota zeta).

(** No other handler writes the table of story views. *)
Lemma handle_storyViews (isEmail : string -> bool)
      (hash : string -> nat -> string) (randomKey : string)
      (encrypt : string -> string -> string) (r : Request) (s : Store) :
  (forall g u k, r <> StoryViewStory g u k) ->
  storyViews (handle isEmail hash randomKey encrypt r s) = storyViews s.
Proof.
  intros Hr.
  destruct r; cbn [handle]; try (now elim (Hr g userId storyId)).
  all: unfold notificationRouter.getAll, notificationRouter.markAsRead,
         notificationRouter.markAllAsRead,
         notificationRouter.getUnreadCount, postRouter.like,
         postRouter.unlike, userRouter.register, messageRouter.send,
         messageRouter.sendToGroup, messageRouter.getConversation,
         db.notification.findMany,
         db.notification.findUnique, db.notification.update,
         db.notification.updateMany, db.notification.count,
         db.notification.create, db.like.findFirst, db.like.create,
         db.like.deleteMany, db.post.findUnique, db.user.findFirst,
         db.user.findUnique, db.user.create, db.message.findMany,
         db.message.updateMany, db.message.create,
         db.groupMember.findFirst, bind, gets, ret, throw.
  all: split_handler; reflexivity.
Qed.

(** Along any sequence of requests the store keeps at most one
    StoryView per (story, viewer) pair. *)
Lemma run_keeps_unique (isEmail : string -> bool)
      (hash : string -> nat -> string) (randomKey : string)
      (encrypt : string -> string -> string) (rs : list Request)
      (s : Store) :
  storyViewsUnique s ->
  storyViewsUnique (run isEmail hash randomKey encrypt rs s).
Proof.
  revert s. induction rs as [|r rs IH]; intros s Hu; [exact Hu|].
  cbn [run fold_left]. apply IH.
  destruct r;
    try (unfold storyViewsUnique;
         rewrite handle_storyViews by discriminate; exact Hu).
  cbn [handle]. now apply viewStory_keeps_unique.
Qed.

(** ** Conversations *)

Lemma getConversation_run (g : Defaults) (u : string)
      (input : messageRouter.GetConversationInput) (s : Store) :
  limit_ok (messageRouter.limit input) = true ->
  exists out,
    messageRouter.getConversation g u input s
    = (Ok out,
       set_messages
         (Table.updateMany (unreadFrom (messageRouter.userId input) u)
            (Message.set_readAt (Some (now g))) (messages s)) s).
Proof.
  intros HL. unfold messageRouter.getConversation.
  rewrite HL. cbn [negb].
  unfold db.message.findMany, db.message.updateMany, bind, gets, ret.
  cbv beta iota.
  match goal with
  | |- context [if ?b then _ else _] => destruct b
  end.
  - match goal with
    | |- context [pop ?l] => destruct (pop l)
    end.
    eexists. reflexivity.
  - eexists. reflexivity.
Qed.

(** What [getConversation] does to the store, for a valid limit: every
    unread row sent by [v] to the caller gets [readAt], so the unread
    count of the conversation is 0 afterwards; a row that is not sent by
    [v] to the caller stays as it was, and so does every other table.
    The update does not look at [groupId]. *)
Lemma getConversation_marks_read (g : Defaults) (u : string)
      (input : messageRouter.GetConversationInput) (s : Store) :
  limit_ok (messageRouter.limit input) = true ->
  let v := messageRouter.userId input in
  let s' := snd (messageRouter.getConversation g u input s) in
  messages s'
  = map (fun m => if unreadFrom v u m
                  then Message.set_readAt (Some (now g)) m else m)
        (messages s)
  /\ messageRouter.unreadCount u v s' = (Ok 0, s')
  /\ (forall m, In m (messages s) ->
                Message.senderId m <> v \/ Message.receiverId m <> u ->
                In m (messages s'))
  /\ notifications s' = notifications s
  /\ users s' = users s /\ posts s' = posts s /\ likes s' = likes s.
Proof.
  intros HL v s'.
  destruct (getConversation_run g u input s HL) as (out & Hrun).
  subst s'. rewrite Hrun. cbn [snd messages set_messages notifications
                               users posts likes].
  split; [reflexivity|]. split; [|split; [|repeat split]].
  - unfold messageRouter.unreadCount, db.message.count, gets.
    cbn [messages set_messages]. f_equal. f_equal.
    unfold Table.count, Table.updateMany. fold v. clear Hrun.
    induction (messages s) as [|m l IH]; [reflexivity|].
    cbn [map filter].
    destruct (unreadFrom v u m) eqn:E.
    + cbn [Message.set_readAt Message.senderId Message.receiverId
           Message.readAt column_null].
      rewrite andb_false_r. cbn [andb]. exact IH.
    + unfold unreadFrom in E. rewrite E. cbn [andb]. exact IH.
  - intros m Hin Hne. unfold Table.updateMany. apply in_map_iff.
    exists m. split; [|exact Hin]. fold v.
    unfold unreadFrom.
    destruct Hne as [Hne|Hne]; apply String.eqb_neq in Hne; rewrite Hne;
      [reflexivity|now rewrite andb_false_r].
Qed.

(** When the caller opens the conversation with somebody else, the
    messages the caller sent stay as they were. *)
Lemma getConversation_keeps_sent (g : Defaults) (u : string)
      (input : messageRouter.GetConversationInput) (s : Store)
      (m : Message.t) :
  limit_ok (messageRouter.limit input) = true ->
  messageRouter.userId input <> u ->
  In m (messages s) ->
  Message.senderId m = u ->
  In m (messages (snd (messageRouter.getConversation g u input s))).
Proof.
  intros HL Hne Hin Hs.
  apply (getConversation_marks_read g u input s HL); [exact Hin|].
  left. congruence.
Qed.

(** [send] refuses a message to oneself: a row whose sender is its
    receiver comes from [sendToGroup] only. *)
Lemma send_to_self_rejected (randomKey : string)
      (encrypt : string -> string -> string) (g : Defaults) (u : string)
      (input : messageRouter.Body) (s : Store) :
  exists e,
    messageRouter.send randomKey encrypt g u u input s = (Err e, s).
Proof.
  unfold messageRouter.send.
  destruct (negb _); [eexists; reflexivity|].
  rewrite String.eqb_refl. eexists; reflexivity.
Qed.

(** C10, on the code: u1 has sent one message to the group g1 (the row
    names u1 as sender and as receiver, [readAt] is null).  When u1
    calls [getConversation] with the own identifier, the page is empty
    and the group message gets [readAt]: a message sent by the caller,
    outside the conversation, is changed. *)
Theorem getConversation_marks_group_message :
  messages sampleGroupChat
  = [Message.mk "c1" "hi all" None None "text" 1000 "u1" "u1" None
                (Some "g1")]
  /\ messageRouter.getConversation (mkDefaults (fun _ => "c3") 2000) "u1"
       (messageRouter.mkGetConversationInput "u1" 50 None) sampleGroupChat
     = (Ok (messageRouter.mkGetConversationOutput [] None),
        set_messages
          [Message.mk "c1" "hi all" None None "text" 1000 "u1" "u1"
                      (Some 2000%Z) (Some "g1")]
          sampleGroupChat).
Proof. split; reflexivity. Qed.


(** * Further properties of the handlers *)

(** ** Pages and ordered queries *)

Lemma page_of_fetch {A : Type} (key : A -> string) (n : nat)
      (rows : list A) :
  (if (Z.of_nat (length (firstn (S n) rows)) >? Z.of_nat n)%Z then
     let (nextItem, rest) := pop (firstn (S n) rows) in
     (rest, option_map key nextItem)
   else (firstn (S n) rows, None))
  = (firstn n rows, option_map key (nth_error rows n)).
Proof.
  destruct (takePage_cases n rows) as [(Hgt & Hpop)|(Hle & Hall & Hnone)].
  - rewrite Hgt, Hpop. reflexivity.
  - rewrite Hle, Hall, Hnone. reflexivity.
Qed.

Section FindMany.
Context {Row : Type}.
Variable key : Row -> string.
Variable createdAt : Row -> Z.

Lemma seek_tail (k : string) (l : list Row) :
  exists pre, l = pre ++ Table.seek key k l.
Proof.
  induction l as [|x l [pre IH]]; [now exists []|].
  cbn [Table.seek]. destruct (String.eqb (key x) k).
  - now exists [].
  - exists (x :: pre). cbn [app]. now rewrite <- IH.
Qed.

Lemma sorted_app_r (l1 l2 : list Row) :
  StronglySorted (Table.newerFirst createdAt) (l1 ++ l2) ->
  StronglySorted (Table.newerFirst createdAt) l2.
Proof.
  induction l1 as [|x l1 IH]; [auto|].
  cbn [app]. intros H. inversion H; subst. auto.
Qed.

Local Abbreviation fetched := (fetched key createdAt).

Lemma fetched_In (where_ : Row -> bool) (cursor : option string)
      (t : list Row) (x : Row) :
  In x (fetched where_ cursor t) -> In x t /\ where_ x = true.
Proof.
  intros H. apply filter_In.
  apply (Permutation_in _ (orderByDesc_perm createdAt _)).
  unfold fetched in H. destruct cursor as [k|]; [|exact H].
  destruct (seek_tail k (Table.orderByDesc createdAt (filter where_ t)))
    as [pre Hpre].
  rewrite Hpre. apply in_or_app. now right.
Qed.

Lemma fetched_sorted (where_ : Row -> bool) (cursor : option string)
      (t : list Row) :
  StronglySorted (Table.newerFirst createdAt) (fetched where_ cursor t).
Proof.
  unfold fetched. destruct cursor as [k|]; [|apply orderByDesc_sorted].
  destruct (seek_tail k (Table.orderByDesc createdAt (filter where_ t)))
    as [pre Hpre].
  apply (sorted_app_r pre). rewrite <- Hpre. apply orderByDesc_sorted.
Qed.

Lemma findMany_fetched (where_ : Row -> bool) (take : Z)
      (cursor : option string) (t : list Row) :
  Table.findMany key createdAt where_ take cursor t
  = firstn (Z.to_nat take) (fetched where_ cursor t).
Proof. unfold Table.findMany, fetched. now destruct cursor. Qed.
End FindMany.

Lemma In_firstn {A : Type} (n : nat) (l : list A) (x : A) :
  In x (firstn n l) -> In x l.
Proof.
  intros H. rewrite <- (firstn_skipn n l). apply in_or_app. now left.
Qed.

(** ** More on notifications *)

Lemma filter_all {A : Type} (f : A -> bool) (l : list A) :
  (forall x, In x l -> f x = true) -> filter f l = l.
Proof.
  induction l as [|x l IH]; intros H; [reflexivity|].
  cbn [filter]. rewrite (H x) by now left.
  f_equal. apply IH. intros y Hy. apply H. now right.
Qed.

Lemma map_fixed {A : Type} (f : A -> A) (l : list A) :
  (forall x, In x l -> f x = x) -> map f l = l.
Proof.
  induction l as [|x l IH]; intros H; [reflexivity|].
  cbn [map]. rewrite (H x) by now left.
  f_equal. apply IH. intros y Hy. apply H. now right.
Qed.

Lemma updateMany_id {Row : Type} (where_ : Row -> bool)
      (data : Row -> Row) (l : list Row) :
  (forall r, In r l -> where_ r = false) ->
  Table.updateMany where_ data l = l.
Proof.
  intros H. unfold Table.updateMany.
  induction l as [|x l IH]; [reflexivity|].
  cbn [map]. rewrite (H x) by now left.
  f_equal. apply IH. intros r Hr. apply H. now right.
Qed.

Lemma updateMany_settled {Row : Type} (where_ : Row -> bool)
      (data : Row -> Row) (l : list Row) (r : Row) :
  (forall x, where_ (data x) = false) ->
  In r (Table.updateMany where_ data l) -> where_ r = false.
Proof.
  intros Hd Hin. unfold Table.updateMany in Hin.
  apply in_map_iff in Hin. destruct Hin as (x & Hx & _).
  destruct (where_ x) eqn:E; subst; [apply Hd|exact E].
Qed.

Section MoreKeyed.
Context {Row : Type}.
Variable key : Row -> string.

Lemma findUnique_none (k : string) (l : list Row) :
  (forall r, In r l -> key r <> k) -> Table.findUnique key k l = None.
Proof.
  intros H. unfold Table.findUnique.
  destruct (find _ l) as [r|] eqn:E; [|reflexivity].
  apply find_some in E. destruct E as [Hin Hk].
  apply String.eqb_eq in Hk. now elim (H r Hin).
Qed.

Lemma delete_length (l : list Row) (n : Row) :
  NoDup (map key l) -> In n l ->
  length (Table.deleteMany (fun r => String.eqb (key r) (key n)) l) + 1
  = length l.
Proof.
  unfold Table.deleteMany.
  induction l as [|x l IH]; cbn [map In filter length]; intros Hnd Hin;
    [easy|].
  inversion Hnd as [|? ? Hn Hd]; subst.
  destruct (String.eqb_spec (key x) (key n)) as [E|E]; cbn [negb length].
  - rewrite filter_all; [lia|].
    intros y Hy. apply negb_true_iff, String.eqb_neq. intros Hk.
    apply Hn. rewrite E, <- Hk. now apply in_map.
  - destruct Hin as [->|Hin]; [congruence|].
    rewrite <- (IH Hd Hin). lia.
Qed.

(** Updating the row with a given key changes the count of a predicate
    by what that row contributes. *)
Lemma count_update (where_ : Row -> bool) (data : Row -> Row)
      (l : list Row) (n : Row) :
  (forall r, key (data r) = key r) ->
  NoDup (map key l) -> In n l ->
  Table.count where_ (Table.update key (key n) data l)
  + (if where_ n then 1 else 0)
  = Table.count where_ l + (if where_ (data n) then 1 else 0).
Proof.
  intros Hk. unfold Table.count, Table.update.
  induction l as [|x l IH]; cbn [map In filter]; intros Hnd Hin; [easy|].
  inversion Hnd as [|? ? Hn Hd]; subst.
  destruct Hin as [->|Hin].
  - rewrite String.eqb_refl.
    assert (Hrest : map (fun r => if String.eqb (key r) (key n)
                                  then data r else r) l = l).
    { apply map_fixed. intros y Hy.
      destruct (String.eqb_spec (key y) (key n)) as [E|_]; [|reflexivity].
      exfalso. apply Hn. rewrite <- E. now apply in_map. }
    rewrite Hrest.
    destruct (where_ (data n)), (where_ n); cbn [length]; lia.
  - destruct (String.eqb_spec (key x) (key n)) as [E|_].
    + exfalso. apply Hn. rewrite E. now apply in_map.
    + specialize (IH Hd Hin).
      destruct (where_ x); cbn [length]; lia.
Qed.
End MoreKeyed.

(** X1. [delete] of a notification: a caller who is not the receiver
    gets FORBIDDEN and the store stays as it was; for the receiver the
    row with that identifier, and no other row, is removed, and no other
    table changes. *)
Theorem delete_receiver_only (s : Store) (u : string)
        (n : Notification.t) :
  u <> "" ->
  NoDup (map Notification.id (notifications s)) ->
  In n (notifications s) ->
  (u <> Notification.receiverId n ->
   notificationRouter.delete u (Notification.id n) s
   = (Err (TRPCError FORBIDDEN
        "You do not have permission to delete this notification"), s))
  /\ (u = Notification.receiverId n ->
      exists s',
        notificationRouter.delete u (Notification.id n) s = (Ok n, s')
        /\ (forall m, In m (notifications s') <->
                      In m (notifications s)
                      /\ Notification.id m <> Notification.id n)
        /\ length (notifications s') + 1 = length (notifications s)
        /\ users s' = users s /\ posts s' = posts s
        /\ likes s' = likes s /\ messages s' = messages s
        /\ stories s' = stories s /\ storyViews s' = storyViews s
        /\ groupMembers s' = groupMembers s).
Proof.
  intros Hu Hnd Hin.
  apply truthy_true in Hu.
  pose proof (findUnique_In Notification.id _ n Hnd Hin) as Hfind.
  unfold notificationRouter.delete, bind, db.notification.findUnique,
    db.notification.delete, gets, throw.
  rewrite Hu. cbn [negb]. cbv beta. rewrite Hfind. split; intros Hr.
  - destruct (String.eqb_spec (Notification.receiverId n) u);
      [congruence|reflexivity].
  - rewrite <- Hr, String.eqb_refl. cbn [negb]. rewrite Hfind.
    eexists. split; [reflexivity|].
    cbn [notifications set_notifications users posts likes messages
         stories storyViews groupMembers].
    split; [|split; [now apply delete_length|repeat split]].
    intros m. unfold Table.deleteMany.
    rewrite filter_In, negb_true_iff, String.eqb_neq. tauto.
Qed.

Lemma delete_receiver_only_witness :
  notificationRouter.delete "u1" "n3" sampleInbox
  = (Err (TRPCError FORBIDDEN
       "You do not have permission to delete this notification"),
     sampleInbox)
  /\ exists s',
       notificationRouter.delete "u2" "n3" sampleInbox
       = (Ok (sampleNotification "n3" 20 "u2" false), s').
Proof.
  assert (Hnd : NoDup (map Notification.id (notifications sampleInbox)))
    by (cbn; repeat constructor; cbn; intuition discriminate).
  assert (Hin : In (sampleNotification "n3" 20 "u2" false)
                   (notifications sampleInbox))
    by (cbn; tauto).
  split.
  - apply (delete_receiver_only sampleInbox "u1"
             (sampleNotification "n3" 20 "u2" false));
      [discriminate|exact Hnd|exact Hin|discriminate].
  - destruct (delete_receiver_only sampleInbox "u2"
                (sampleNotification "n3" 20 "u2" false))
      as [_ Hok]; [discriminate|exact Hnd|exact Hin|].
    destruct (Hok eq_refl) as (s' & Hs' & _). exists s'. exact Hs'.
Defined.

(** X2. [markAsRead] and [delete] with an identifier that no
    notification has throw NOT_FOUND and leave the store as it was. *)
Theorem notification_not_found (s : Store) (u k : string) :
  u <> "" ->
  (forall n, In n (notifications s) -> Notification.id n <> k) ->
  notificationRouter.markAsRead u k s
  = (Err (TRPCError NOT_FOUND "Notification not found"), s)
  /\ notificationRouter.delete u k s
     = (Err (TRPCError NOT_FOUND "Notification not found"), s).
Proof.
  intros Hu Hk. apply truthy_true in Hu.
  pose proof (findUnique_none Notification.id k _ Hk) as Hfind.
  unfold notificationRouter.markAsRead, notificationRouter.delete, bind,
    db.notification.findUnique, gets, throw.
  rewrite Hu. cbn [negb]. cbv beta. rewrite Hfind. split; reflexivity.
Qed.

Lemma notification_not_found_witness :
  notificationRouter.markAsRead "u1" "n9" sampleInbox
  = (Err (TRPCError NOT_FOUND "Notification not found"), sampleInbox)
  /\ notificationRouter.delete "u1" "n9" sampleInbox
     = (Err (TRPCError NOT_FOUND "Notification not found"), sampleInbox).
Proof.
  apply (notification_not_found sampleInbox "u1" "n9"); [discriminate|].
  cbn. intros n [<-|[<-|[<-|[<-|[]]]]]; discriminate.
Defined.

Lemma getUnreadCount_unreadOf (u : string) (s : Store) :
  u <> "" -> notificationRouter.getUnreadCount u s = (Ok (unreadOf u s), s).
Proof.
  intros Hu. apply truthy_true in Hu.
  unfold notificationRouter.getUnreadCount. now rewrite Hu.
Qed.

(** X3. [create] refuses a [type] outside [NotificationType] before it
    stores anything, and a row that refers to a missing user, post,
    comment, story, reel or message is refused by the database (P2003).
    Otherwise it appends one unread row whose sender is the caller and
    writes nothing else; the unread count of the receiver, and of nobody
    else, grows by one. *)
Theorem create_notifies (g : Defaults) (sender : string)
        (input : notificationRouter.CreateInput.t) (d : Database) :
  sender <> "" ->
  let linked :=
    refers User.id (users (core d))
           (Some (notificationRouter.CreateInput.receiverId input))
    && refers User.id (users (core d)) (Some sender)
    && refers Message.id (messages (core d))
              (notificationRouter.CreateInput.messageId input)
    && targets d (notificationRouter.CreateInput.postId input)
               (notificationRouter.CreateInput.commentId input)
               (notificationRouter.CreateInput.storyId input)
               (notificationRouter.CreateInput.reelId input) in
  (~ In (notificationRouter.CreateInput.type input) NotificationType ->
   notificationRouter.create g sender input d = (Err invalid_input, d))
  /\ (In (notificationRouter.CreateInput.type input) NotificationType ->
      linked = false ->
      notificationRouter.create g sender input d
      = (Err (PrismaClientKnownRequestError "P2003"), d))
  /\ (In (notificationRouter.CreateInput.type input) NotificationType ->
      linked = true ->
      exists row,
        notificationRouter.create g sender input d
        = (Ok row,
           set_core
             (set_notifications (notifications (core d) ++ [row]) (core d))
             d)
        /\ Notification.senderId row = Some sender
        /\ Notification.receiverId row
           = notificationRouter.CreateInput.receiverId input
        /\ Notification.type row
           = notificationRouter.CreateInput.type input
        /\ Notification.isRead row = false
        /\ (forall v,
              unreadOf v
                (set_notifications (notifications (core d) ++ [row])
                                   (core d))
              = unreadOf v (core d)
                + (if String.eqb
                        (notificationRouter.CreateInput.receiverId input) v
                   then 1 else 0))).
Proof.
  intros Hs linked. apply truthy_true in Hs.
  assert (Hin : existsb
                  (String.eqb (notificationRouter.CreateInput.type input))
                  NotificationType = true
                <-> In (notificationRouter.CreateInput.type input)
                       NotificationType).
  { rewrite existsb_exists. split.
    - intros (x & Hx & Hxe). apply String.eqb_eq in Hxe. now subst.
    - intros H. eexists. split; [exact H|apply String.eqb_refl]. }
  assert (Hlinked :
    db.notification.references_ok (core d)
      (db.notification.mkData
         (notificationRouter.CreateInput.type input)
         (notificationRouter.CreateInput.content input)
         (notificationRouter.CreateInput.receiverId input) (Some sender)
         (notificationRouter.CreateInput.postId input)
         (notificationRouter.CreateInput.storyId input)
         (notificationRouter.CreateInput.messageId input))
    && refers Comment.id (comments d)
              (notificationRouter.CreateInput.commentId input)
    && refers Reel.id (reels d)
              (notificationRouter.CreateInput.reelId input)
    = linked).
  { subst linked. unfold db.notification.references_ok, targets.
    cbn [db.notification.receiverId db.notification.senderId
         db.notification.postId db.notification.storyId
         db.notification.messageId].
    repeat match goal with
           | |- context [refers ?k ?t ?r] =>
               let b := fresh "b" in
               generalize (refers k t r); intros b
           end.
    repeat match goal with b : bool |- _ => destruct b end; reflexivity. }
  unfold notificationRouter.create, db.notification.createLinked,
    db.notification.type_ok.
  cbn [db.notification.type].
  destruct (existsb (String.eqb (notificationRouter.CreateInput.type input))
                    NotificationType) eqn:E; cbn [negb].
  - pose proof (proj1 Hin eq_refl) as Hyes. rewrite Hs.
    cbn [negb]. cbv beta. rewrite Hlinked.
    split; [intros Hno; contradiction|].
    split; intros _ Hl; rewrite Hl; cbn [negb]; [reflexivity|].
    eexists. split; [reflexivity|]. unfold Table.create.
    repeat split.
    intros v. unfold unreadOf.
    cbn [notifications set_notifications].
    rewrite count_app. unfold Table.count at 2.
    cbn [filter db.notification.row Notification.receiverId
         Notification.isRead db.notification.receiverId negb].
    rewrite andb_true_r.
    destruct (String.eqb (notificationRouter.CreateInput.receiverId input)
                         v); reflexivity.
  - split; [reflexivity|].
    split; intros Hyes; apply Hin in Hyes; discriminate.
Qed.

Lemma create_notifies_witness :
  exists row,
    notificationRouter.create sampleDefaults "u2"
      (notificationRouter.CreateInput.mk "u1" "MENTION" "mentioned you"
         (Some "p1") None None None None) sampleSocial
    = (Ok row,
       set_core
         (set_notifications [row] (core sampleSocial)) sampleSocial)
    /\ Notification.senderId row = Some "u2"
    /\ unreadOf "u1" (set_notifications [row] (core sampleSocial)) = 1.
Proof.
  destruct (create_notifies sampleDefaults "u2"
              (notificationRouter.CreateInput.mk "u1" "MENTION"
                 "mentioned you" (Some "p1") None None None None)
              sampleSocial)
    as (_ & _ & Hok); [discriminate|].
  destruct Hok as (row & H1 & H2 & _ & _ & _ & H3);
    [cbn; tauto|reflexivity|].
  exists row. split; [exact H1|]. split; [exact H2|].
  exact (H3 "u1").
Defined.

Lemma startOf_fetched (u : string) (f : bool) (c : option string)
      (s : Store) :
  startOf c (listing u f s)
  = fetched Notification.id Notification.createdAt (addressedTo u f)
            (effective c) (notifications s).
Proof.
  unfold startOf, fetched, effective, listing.
  destruct c as [k|]; [|reflexivity]. now destruct (truthy k).
Qed.

(** X4. Whatever the cursor and the flag, a page of [getAll] holds only
    rows of the store that are addressed to the caller, and only unread
    ones when [onlyUnread] is set; it has at most [limit] rows, newest
    first, and the call leaves the store as it was. *)
Theorem getAll_only_own (u : string)
        (input : notificationRouter.GetAllInput) (s s' : Store)
        (out : notificationRouter.GetAllOutput) :
  notificationRouter.getAll u input s = (Ok out, s') ->
  s' = s
  /\ (Z.of_nat (length (notificationRouter.items out))
      <= notificationRouter.limit input)%Z
  /\ StronglySorted (Table.newerFirst Notification.createdAt)
       (notificationRouter.items out)
  /\ Forall
       (fun n =>
          In n (notifications s)
          /\ Notification.receiverId n = u
          /\ (notificationRouter.onlyUnread input = true ->
              Notification.isRead n = false))
       (notificationRouter.items out).
Proof.
  destruct input as [L c f]. cbn [notificationRouter.limit
                                  notificationRouter.onlyUnread].
  intros H.
  destruct (limit_ok L) eqn:HL;
    [|unfold notificationRouter.getAll in H;
      cbn [notificationRouter.limit] in H; rewrite HL in H; discriminate].
  destruct (truthy u) eqn:Hu;
    [|unfold notificationRouter.getAll in H;
      cbn [notificationRouter.limit] in H; rewrite HL, Hu in H;
      discriminate].
  rewrite getAll_page in H by assumption.
  injection H as <- <-.
  cbn [notificationRouter.items]. rewrite startOf_fetched.
  apply limit_ok_true in HL.
  split; [reflexivity|]. split; [rewrite length_firstn; lia|].
  split; [apply (sorted_firstn Notification.id), fetched_sorted|].
  apply Forall_forall. intros n Hn.
  apply In_firstn, fetched_In in Hn. destruct Hn as [Hin Ha].
  unfold addressedTo in Ha. apply andb_true_iff in Ha.
  destruct Ha as [Hr Hread]. apply String.eqb_eq in Hr.
  split; [exact Hin|]. split; [exact Hr|].
  intros ->. now apply negb_true_iff.
Qed.

Lemma getAll_only_own_witness :
  exists out,
    notificationRouter.getAll "u1"
      (notificationRouter.mkGetAllInput 2 None true) sampleInbox
    = (Ok out, sampleInbox)
    /\ notificationRouter.items out
       = [sampleNotification "n1" 10 "u1" false;
          sampleNotification "n4" 10 "u1" false]
    /\ Forall
         (fun n =>
            In n (notifications sampleInbox)
            /\ Notification.receiverId n = "u1"
            /\ (true = true -> Notification.isRead n = false))
         (notificationRouter.items out).
Proof.
  eexists. split; [reflexivity|]. split; [reflexivity|].
  apply (getAll_only_own "u1"
           (notificationRouter.mkGetAllInput 2 None true)
           sampleInbox sampleInbox).
  reflexivity.
Defined.

(** X5. [markAllAsRead] changes no column but [isRead], leaves the rows
    of other receivers and every other table as they were, and a second
    call finds nothing to change: it reports 0 rows and returns the same
    store. *)
Theorem markAllAsRead_idempotent (s : Store) (u : string) :
  u <> "" ->
  let s1 := snd (notificationRouter.markAllAsRead u s) in
  notificationRouter.markAllAsRead u s1 = (Ok 0, s1)
  /\ map (Notification.set_isRead true) (notifications s1)
     = map (Notification.set_isRead true) (notifications s)
  /\ (forall n, In n (notifications s) ->
                Notification.receiverId n <> u ->
                In n (notifications s1))
  /\ users s1 = users s /\ posts s1 = posts s /\ likes s1 = likes s
  /\ messages s1 = messages s /\ stories s1 = stories s
  /\ storyViews s1 = storyViews s /\ groupMembers s1 = groupMembers s.
Proof.
  intros Hu s1. apply truthy_true in Hu. subst s1.
  unfold notificationRouter.markAllAsRead, db.notification.updateMany.
  rewrite Hu. cbn [negb snd notifications set_notifications users posts
                   likes messages stories storyViews groupMembers].
  set (w := fun n : Notification.t =>
              String.eqb (Notification.receiverId n) u
              && negb (Notification.isRead n)).
  assert (Hd : forall r, w (Notification.set_isRead true r) = false)
    by (intros r; unfold w; cbn; apply andb_false_r).
  split; [|split; [|split; [|repeat split]]].
  - rewrite count_updateMany_zero by exact Hd.
    rewrite updateMany_id; [reflexivity|].
    intros r Hr. eapply updateMany_settled; [exact Hd|exact Hr].
  - unfold Table.updateMany. rewrite map_map. apply map_ext.
    intros n. now destruct (w n).
  - intros n Hin Hne. unfold Table.updateMany. apply in_map_iff.
    exists n. split; [|exact Hin].
    unfold w. apply String.eqb_neq in Hne. now rewrite Hne.
Qed.

Lemma markAllAsRead_idempotent_witness :
  let s1 := snd (notificationRouter.markAllAsRead "u1" sampleInbox) in
  notificationRouter.markAllAsRead "u1" s1 = (Ok 0, s1).
Proof.
  apply (markAllAsRead_idempotent sampleInbox "u1"). discriminate.
Defined.

(** X6. When the receiver marks a notification as read, the unread
    count of the receiver drops by one if the notification was unread
    and stays if it was read already; the counts of all other users
    stay. *)
Theorem markAsRead_lowers_count (s : Store) (n : Notification.t) :
  Notification.receiverId n <> "" ->
  NoDup (map Notification.id (notifications s)) ->
  In n (notifications s) ->
  let u := Notification.receiverId n in
  let s1 := snd (notificationRouter.markAsRead u (Notification.id n) s) in
  unreadOf u s1 + (if Notification.isRead n then 0 else 1) = unreadOf u s
  /\ (forall v, v <> u -> unreadOf v s1 = unreadOf v s).
Proof.
  intros Hu Hnd Hin u s1. apply truthy_true in Hu.
  pose proof (findUnique_In Notification.id _ n Hnd Hin) as Hfind.
  subst s1. unfold notificationRouter.markAsRead, bind,
    db.notification.findUnique, db.notification.update, gets, throw.
  fold u in Hu. rewrite Hu. cbn [negb]. cbv beta. rewrite Hfind.
  fold u. rewrite String.eqb_refl. cbn [negb]. rewrite Hfind.
  cbn [snd]. unfold unreadOf. cbn [notifications set_notifications].
  split.
  - pose proof (count_update Notification.id
                  (fun m => String.eqb (Notification.receiverId m) u
                            && negb (Notification.isRead m))
                  (Notification.set_isRead true) _ n
                  (fun _ => eq_refl) Hnd Hin) as Hc.
    cbn beta in Hc. fold u in Hc.
    cbn [Notification.set_isRead Notification.receiverId
         Notification.isRead negb] in Hc.
    rewrite String.eqb_refl, andb_false_r in Hc. cbn [andb] in Hc.
    destruct (Notification.isRead n); cbn [negb] in Hc; lia.
  - intros v Hv.
    pose proof (count_update Notification.id
                  (fun m => String.eqb (Notification.receiverId m) v
                            && negb (Notification.isRead m))
                  (Notification.set_isRead true) _ n
                  (fun _ => eq_refl) Hnd Hin) as Hc.
    cbn beta in Hc.
    cbn [Notification.set_isRead Notification.receiverId
         Notification.isRead negb] in Hc.
    fold u in Hc.
    assert (E : String.eqb u v = false)
      by (apply String.eqb_neq; congruence).
    rewrite E in Hc. cbn [andb] in Hc. lia.
Qed.

Lemma markAsRead_lowers_count_witness :
  unreadOf "u1"
    (snd (notificationRouter.markAsRead "u1" "n1" sampleInbox)) + 1
  = unreadOf "u1" sampleInbox.
Proof.
  apply (markAsRead_lowers_count sampleInbox
           (sampleNotification "n1" 10 "u1" false)).
  - discriminate.
  - cbn. repeat constructor; cbn; intuition discriminate.
  - cbn. tauto.
Defined.

(** ** More on likes *)

Lemma find_none_count {A : Type} (f : A -> bool) (l : list A) :
  find f l = None -> Table.count f l = 0.
Proof.
  unfold Table.count.
  induction l as [|x l IH]; cbn [find filter]; [reflexivity|].
  destruct (f x); [discriminate|exact IH].
Qed.

Lemma count_filter_le {A : Type} (f g : A -> bool) (l : list A) :
  Table.count f (filter g l) <= Table.count f l.
Proof.
  unfold Table.count.
  induction l as [|x l IH]; [apply le_n|].
  cbn [filter]. destruct (g x), (f x) eqn:E; cbn [filter length];
    rewrite ?E; cbn [length]; lia.
Qed.

Lemma no_like_find (s : Store) (u p : string) :
  (forall l, In l (likes s) ->
             ~ (Like.userId l = u /\ Like.postId l = Some p)) ->
  find (likeOf u p) (likes s) = None.
Proof.
  intros Hnone. destruct (find _ _) as [l|] eqn:E; [|reflexivity].
  apply find_some in E. destruct E as [Hin Hl].
  apply likeOf_true in Hl. elim (Hnone l Hin Hl).
Qed.

(** X7. [like] of a post that does not exist throws NOT_FOUND and
    stores nothing: no Like row without its post. *)
Theorem like_missing_post (g : Defaults) (s : Store) (u p : string) :
  (forall l, In l (likes s) ->
             ~ (Like.userId l = u /\ Like.postId l = Some p)) ->
  (forall q, In q (posts s) -> Post.id q <> p) ->
  postRouter.like g u p s
  = (Err (TRPCError NOT_FOUND "Post not found"), s).
Proof.
  intros Hnone Hpost.
  unfold postRouter.like, bind, db.like.findFirst, db.post.findUnique, gets,
    Table.findFirst.
  fold (likeOf u p). rewrite (no_like_find _ _ _ Hnone).
  now rewrite (findUnique_none Post.id p _ Hpost).
Qed.

Lemma like_missing_post_witness :
  postRouter.like sampleDefaults "u1" "p7" sampleFeed
  = (Err (TRPCError NOT_FOUND "Post not found"), sampleFeed).
Proof.
  apply (like_missing_post sampleDefaults sampleFeed "u1" "p7").
  - intros l [].
  - intros q [<-|[]]. discriminate.
Defined.

(** X8. The schema has no unique index on likes; the handlers keep them
    unique all the same: on a store with at most one Like row per user
    and post, [like] and [unlike] leave at most one. *)
Theorem like_keeps_likes_unique (g : Defaults) (s : Store) (u p : string) :
  likesUnique s ->
  likesUnique (snd (postRouter.like g u p s))
  /\ likesUnique (snd (postRouter.unlike u p s)).
Proof.
  intros Huniq. split.
  - destruct (find (likeOf u p) (likes s)) as [l0|] eqn:E.
    + replace (snd (postRouter.like g u p s)) with s; [exact Huniq|].
      unfold postRouter.like, bind, db.like.findFirst, gets,
        Table.findFirst.
      fold (likeOf u p). now rewrite E.
    + assert (Hnone : forall l, In l (likes s) ->
                ~ (Like.userId l = u /\ Like.postId l = Some p)).
      { intros l Hl Hm. apply likeOf_true in Hm.
        pose proof (find_none _ _ E l Hl). congruence. }
      destruct (Table.findUnique Post.id p (posts s)) as [post|] eqn:Ep.
      * rewrite (like_effect g s u p post Hnone Ep).
        intros u' p'. cbn [snd likes set_likes]. rewrite count_app.
        unfold Table.count at 2. cbn [filter].
        destruct (likeOf u' p' (Like.mk (cuid g 0) (now g) u (Some p) None))
          eqn:El; cbn [length]; [|specialize (Huniq u' p'); lia].
        apply likeOf_true in El. cbn in El. destruct El as [<- [= <-]].
        rewrite (find_none_count _ _ E). lia.
      * replace (snd (postRouter.like g u p s)) with s; [exact Huniq|].
        unfold postRouter.like, bind, db.like.findFirst,
          db.post.findUnique, gets, Table.findFirst.
        fold (likeOf u p). now rewrite E, Ep.
  - intros u' p'. unfold postRouter.unlike, bind, db.like.deleteMany, ret.
    cbn [snd likes set_likes]. unfold Table.deleteMany.
    specialize (Huniq u' p').
    pose proof (count_filter_le (likeOf u' p')
                  (fun r => negb (String.eqb (Like.userId r) u
                                  && column_is p (Like.postId r)))
                  (likes s)).
    lia.
Qed.

Lemma like_keeps_likes_unique_witness :
  likesUnique (snd (postRouter.like sampleDefaults "u1" "p1" sampleFeed))
  /\ likesUnique (snd (postRouter.unlike "u1" "p1" sampleFeed)).
Proof.
  apply (like_keeps_likes_unique sampleDefaults sampleFeed "u1" "p1").
  intros u p. cbn. lia.
Defined.

(** X9. A first [like] of an existing post writes the Like row and
    nothing else; it answers with success on an own post and throws on a
    post of somebody else, after the row is written.  Either way the
    post then counts as liked: a further [like] is refused as a
    duplicate, and [unlike] gives back exactly the store from before the
    first call. *)
Theorem like_unlike_like (g1 : Defaults) (s : Store) (u p : string)
        (post : Post.t) :
  (forall l, In l (likes s) ->
             ~ (Like.userId l = u /\ Like.postId l = Some p)) ->
  Table.findUnique Post.id p (posts s) = Some post ->
  let s1 := snd (postRouter.like g1 u p s) in
  fst (postRouter.like g1 u p s)
  = (if String.eqb (Post.userId post) u then Ok true
     else Err PrismaClientValidationError)
  /\ likes s1 = likes s ++ [Like.mk (cuid g1 0) (now g1) u (Some p) None]
  /\ (forall g2,
        postRouter.like g2 u p s1
        = (Err (TRPCError BAD_REQUEST "Post already liked"), s1))
  /\ postRouter.unlike u p s1 = (Ok true, s).
Proof.
  intros Hnone Hpost s1.
  assert (Hs1 : s1 = set_likes
                       (likes s ++ [Like.mk (cuid g1 0) (now g1) u
                                            (Some p) None]) s).
  { subst s1. now rewrite (like_effect g1 s u p post Hnone Hpost). }
  split; [now rewrite (like_effect g1 s u p post Hnone Hpost)|].
  split; [now rewrite Hs1|]. split.
  - intros g2.
    unfold postRouter.like, bind, db.like.findFirst, gets, Table.findFirst.
    destruct (find _ (likes s1)) as [l|] eqn:E; [reflexivity|].
    assert (Hin : In (Like.mk (cuid g1 0) (now g1) u (Some p) None)
                     (likes s1))
      by (rewrite Hs1; cbn [likes set_likes]; apply in_or_app; right;
          now left).
    pose proof (find_none _ _ E _ Hin) as Hno.
    cbn [Like.userId Like.postId column_is] in Hno.
    now rewrite !String.eqb_refl in Hno.
  - rewrite Hs1.
    unfold postRouter.unlike, bind, db.like.deleteMany, ret.
    cbn [likes set_likes]. unfold Table.deleteMany.
    rewrite filter_app. cbn [filter Like.userId Like.postId column_is].
    rewrite !String.eqb_refl. cbn [andb negb]. rewrite app_nil_r.
    rewrite filter_all.
    + now destruct s.
    + intros l Hl. apply negb_true_iff.
      destruct (String.eqb (Like.userId l) u
                && column_is p (Like.postId l)) eqn:E; [|reflexivity].
      fold (likeOf u p l) in E. apply likeOf_true in E.
      elim (Hnone l Hl E).
Qed.

Lemma like_unlike_like_witness :
  let s1 :=
    snd (postRouter.like sampleDefaults "u1" "p1" sampleTimeline) in
  fst (postRouter.like sampleDefaults "u1" "p1" sampleTimeline)
  = Err PrismaClientValidationError
  /\ postRouter.like sampleDefaults "u1" "p1" s1
     = (Err (TRPCError BAD_REQUEST "Post already liked"), s1)
  /\ postRouter.unlike "u1" "p1" s1 = (Ok true, sampleTimeline).
Proof.
  destruct (like_unlike_like sampleDefaults sampleTimeline "u1" "p1"
              samplePost)
    as (H1 & _ & H2 & H3).
  - intros l [].
  - reflexivity.
  - split; [exact H1|]. split; [exact (H2 sampleDefaults)|exact H3].
Defined.

(** ** Posts and profiles *)

Lemma find_In_some {A : Type} (f : A -> bool) (l : list A) (x : A) :
  In x l -> f x = true -> exists y, find f l = Some y.
Proof.
  intros Hin Hf. destruct (find f l) as [y|] eqn:E; [now exists y|].
  pose proof (find_none _ _ E x Hin). congruence.
Qed.

(** X10. [convertPostType] with a valid target type: a caller who does
    not own the post gets FORBIDDEN and the store stays as it was; for
    the owner the post takes the target type (and the new URL, if one is
    given) while its identifier, owner, caption, visibility, creation
    time and integrity hash stay, and so do all other posts. *)
Theorem convertPostType_owner_only (g : Defaults) (s : Store) (u : string)
        (post : Post.t) (t : string) (url : option string) :
  postRouter.targetType_ok t = true ->
  NoDup (map Post.id (posts s)) ->
  In post (posts s) ->
  (u <> Post.userId post ->
   postRouter.convertPostType g u (Post.id post) t url s
   = (Err (TRPCError FORBIDDEN
             "You are not authorized to modify this post"), s))
  /\ (u = Post.userId post ->
      exists row s',
        postRouter.convertPostType g u (Post.id post) t url s
        = (Ok row, s')
        /\ Table.findUnique Post.id (Post.id post) (posts s') = Some row
        /\ Post.contentType row = t
        /\ Post.contentUrl row
           = match url with Some x => Some x | None => Post.contentUrl post end
        /\ Post.id row = Post.id post
        /\ Post.userId row = Post.userId post
        /\ Post.caption row = Post.caption post
        /\ Post.visibility row = Post.visibility post
        /\ Post.createdAt row = Post.createdAt post
        /\ Post.integrityHash row = Post.integrityHash post
        /\ (forall q, In q (posts s) -> Post.id q <> Post.id post ->
                      In q (posts s'))
        /\ length (posts s') = length (posts s)
        /\ likes s' = likes s /\ notifications s' = notifications s).
Proof.
  intros Ht Hnd Hin.
  pose proof (findUnique_In Post.id _ post Hnd Hin) as Hfind.
  unfold postRouter.convertPostType, bind, db.post.findUnique,
    db.post.update, gets, throw.
  rewrite Ht. cbn [negb]. cbv beta. rewrite Hfind. split; intros Hr.
  - destruct (String.eqb_spec (Post.userId post) u);
      [congruence|reflexivity].
  - rewrite <- Hr, String.eqb_refl. cbn [negb]. rewrite Hfind.
    eexists _, _. split; [reflexivity|].
    cbn [posts set_posts likes notifications].
    split; [rewrite findUnique_update by reflexivity; now rewrite Hfind|].
    repeat split.
    + exact (eq_sym Hr).
    + intros q Hq Hne. now apply update_other.
    + unfold Table.update. apply length_map.
Qed.

Lemma convertPostType_owner_only_witness :
  postRouter.convertPostType sampleDefaults "u1" "p1" "video" None
                             sampleFeed
  = (Err (TRPCError FORBIDDEN
            "You are not authorized to modify this post"), sampleFeed)
  /\ exists row s',
       postRouter.convertPostType sampleDefaults "u2" "p1" "video" None
                                  sampleFeed
       = (Ok row, s')
       /\ Post.contentType row = "video".
Proof.
  assert (Hnd : NoDup (map Post.id (posts sampleFeed)))
    by (cbn; repeat constructor; cbn; tauto).
  assert (Hin : In samplePost (posts sampleFeed)) by (cbn; tauto).
  split.
  - apply (convertPostType_owner_only sampleDefaults sampleFeed "u1"
             samplePost "video" None);
      [reflexivity|exact Hnd|exact Hin|discriminate].
  - destruct (convertPostType_owner_only sampleDefaults sampleFeed "u2"
                samplePost "video" None)
      as [_ Hok]; [reflexivity|exact Hnd|exact Hin|].
    destruct (Hok eq_refl) as (row & s' & H1 & _ & H2 & _).
    exists row, s'. split; [exact H1|exact H2].
Defined.



(** X12. A registration with a valid input (an email address, a
    password of at least 8 and a username of at least 3 UTF-16 code
    units) whose email and username are free appends one user with that
    name, email and username and the hash of the password, writes no
    other table, and answers with the new identifier; from then on a registration with the same email
    or the same username is refused and stores nothing: as an invalid
    input if it is one, as a taken name otherwise. *)
Theorem register_then_taken (isEmail : string -> bool)
        (hash : string -> nat -> string) (g : Defaults)
        (input : userRouter.RegisterInput) (s : Store) :
  userRouter.register_input_ok isEmail input = true ->
  (forall usr, In usr (users s) ->
               User.email usr <> Some (userRouter.email input)
               /\ User.username usr <> Some (userRouter.username input)) ->
  exists row s',
    userRouter.register isEmail hash g input s
    = (Ok (userRouter.mkRegisterOutput true (User.id row)), s')
    /\ users s' = users s ++ [row]
    /\ User.email row = Some (userRouter.email input)
    /\ User.username row = Some (userRouter.username input)
    /\ User.hashedPassword row
       = Some (hash (userRouter.password input) 12)
    /\ User.name row = Some (userRouter.name input)
    /\ posts s' = posts s /\ likes s' = likes s
    /\ stories s' = stories s /\ storyViews s' = storyViews s
    /\ notifications s' = notifications s
    /\ messages s' = messages s /\ groupMembers s' = groupMembers s
    /\ (forall g' input',
          userRouter.email input' = userRouter.email input
          \/ userRouter.username input' = userRouter.username input ->
          userRouter.register isEmail hash g' input' s'
          = (Err (if userRouter.register_input_ok isEmail input'
                  then Error
                         "User with this email or username already exists"
                  else invalid_input), s')).
Proof.
  intros Hok Hfree.
  assert (Hnone : forall usr, In usr (users s) ->
            column_is (userRouter.email input) (User.email usr)
            || column_is (userRouter.username input) (User.username usr)
            = false).
  { intros usr Hin. destruct (Hfree usr Hin) as [He Hn].
    apply orb_false_iff. unfold column_is.
    split.
    - destruct (User.email usr) as [e|]; [|reflexivity].
      apply String.eqb_neq. congruence.
    - destruct (User.username usr) as [e|]; [|reflexivity].
      apply String.eqb_neq. congruence. }
  unfold userRouter.register. rewrite Hok. cbn [negb].
  unfold bind, db.user.findFirst, db.user.create, gets, ret,
    Table.findFirst.
  destruct (find _ (users s)) as [x|] eqn:E.
  { apply find_some in E. destruct E as [Hin Hx].
    rewrite (Hnone x Hin) in Hx. discriminate. }
  assert (Hex : existsb
            (fun u0 =>
               column_is (userRouter.email input) (User.email u0)
               || column_is (userRouter.username input) (User.username u0))
            (users s) = false).
  { destruct (existsb _ (users s)) eqn:Ex; [|reflexivity].
    apply existsb_exists in Ex. destruct Ex as (x & Hin & Hx).
    rewrite (Hnone x Hin) in Hx. discriminate. }
  rewrite Hex.
  eexists _, _. split; [reflexivity|].
  cbn [users set_users posts likes stories storyViews notifications
       messages groupMembers]. unfold Table.create.
  repeat split.
  intros g' input' Hsame.
  destruct (userRouter.register_input_ok isEmail input');
    [|reflexivity].
  cbn [negb users set_users].
  set (row := db.user.row g 0 (userRouter.name input)
                (userRouter.email input) (userRouter.username input)
                (hash (userRouter.password input) 12)).
  destruct (find_In_some
              (fun u0 =>
                 column_is (userRouter.email input') (User.email u0)
                 || column_is (userRouter.username input')
                              (User.username u0))
              (users s ++ [row]) row) as [y Hy].
  - apply in_or_app. right. now left.
  - unfold row. cbn [db.user.row User.email User.username column_is].
    destruct Hsame as [-> | ->]; rewrite String.eqb_refl;
      [reflexivity|apply orb_true_r].
  - now rewrite Hy.
Qed.

Lemma register_then_taken_witness :
  exists row s',
    userRouter.register (fun _ => true) (fun pw _ => pw) sampleDefaults
      (userRouter.mkRegisterInput "Bob" "bob@example.org" "longpassword"
                                  "bob") sampleUsers
    = (Ok (userRouter.mkRegisterOutput true (User.id row)), s')
    /\ users s' = users sampleUsers ++ [row]
    /\ userRouter.register (fun _ => true) (fun pw _ => pw) sampleDefaults
         (userRouter.mkRegisterInput "Rob" "bob@example.org"
                                     "longpassword" "rob") s'
       = (Err (Error "User with this email or username already exists"),
          s')
    /\ userRouter.register (fun _ => true) (fun pw _ => pw) sampleDefaults
         (userRouter.mkRegisterInput "Rob" "bob@example.org"
                                     "pässwör" "rob") s'
       = (Err invalid_input, s').
Proof.
  destruct (register_then_taken (fun _ => true) (fun pw _ => pw)
              sampleDefaults
              (userRouter.mkRegisterInput "Bob" "bob@example.org"
                                          "longpassword" "bob")
              sampleUsers)
    as (row & s' & H1 & H2 & H3).
  - reflexivity.
  - cbn. intros usr [<-|[]]. split; discriminate.
  - repeat (destruct H3 as [_ H3]).
    exists row, s'. split; [exact H1|]. split; [exact H2|]. split.
    + apply (H3 sampleDefaults
               (userRouter.mkRegisterInput "Rob" "bob@example.org"
                                           "longpassword" "rob")).
      now left.
    + apply (H3 sampleDefaults
               (userRouter.mkRegisterInput "Rob" "bob@example.org"
                                           "pässwör" "rob")).
      now left.
Defined.

(** ** Messages *)

Lemma fetch_page {Row : Type} (key : Row -> string) (createdAt : Row -> Z)
      (where_ : Row -> bool) (L : Z) (c : option string) (t : list Row) :
  limit_ok L = true ->
  (if (Z.of_nat (length (Table.findMany key createdAt where_ (L + 1) c t))
       >? L)%Z
   then
     let (nextItem, rest) :=
       pop (Table.findMany key createdAt where_ (L + 1) c t) in
     (rest, option_map key nextItem)
   else (Table.findMany key createdAt where_ (L + 1) c t, None))
  = (firstn (Z.to_nat L) (fetched key createdAt where_ c t),
     option_map key
       (nth_error (fetched key createdAt where_ c t) (Z.to_nat L))).
Proof.
  intros HL. apply limit_ok_true in HL.
  rewrite findMany_fetched.
  destruct (Z_of_nat_complete L) as [n ->]; [lia|].
  replace (Z.to_nat (Z.of_nat n + 1)) with (S n) by lia.
  rewrite Nat2Z.id. apply page_of_fetch.
Qed.

Lemma sorted_snoc {A : Type} (R : A -> A -> Prop) (l : list A) (x : A) :
  StronglySorted R l -> Forall (fun y => R y x) l ->
  StronglySorted R (l ++ [x]).
Proof.
  induction 1 as [|y l Hs IH Hy]; intros Hx; cbn [app].
  - repeat constructor.
  - inversion Hx; subst. constructor; [now apply IH|].
    apply Forall_app. split; [exact Hy|now repeat constructor].
Qed.

Lemma sorted_rev {A : Type} (R : A -> A -> Prop) (l : list A) :
  StronglySorted R l -> StronglySorted (fun a b => R b a) (rev l).
Proof.
  induction 1 as [|x l Hs IH Hx]; cbn [rev]; [constructor|].
  apply sorted_snoc; [exact IH|].
  apply Forall_forall. intros y Hy. apply in_rev in Hy.
  rewrite Forall_forall in Hx. now apply Hx.
Qed.

Lemma oldest_first {Row : Type} (createdAt : Row -> Z) (l : list Row) :
  StronglySorted (Table.newerFirst createdAt) l ->
  StronglySorted (fun a b => (createdAt a <= createdAt b)%Z) (rev l).
Proof.
  intros H. apply sorted_rev in H. revert H.
  generalize (rev l). clear l.
  induction 1 as [|x l Hs IH Hx]; constructor; [exact IH|].
  eapply Forall_impl; [|exact Hx].
  intros a Ha. unfold Table.newerFirst in Ha. lia.
Qed.

(** The page that [getConversation] returns. *)
Lemma getConversation_page (g : Defaults) (u : string)
      (input : messageRouter.GetConversationInput) (s : Store) :
  limit_ok (messageRouter.limit input) = true ->
  let v := messageRouter.userId input in
  let rows :=
    fetched Message.id Message.createdAt
      (fun m =>
         (String.eqb (Message.senderId m) u
          && String.eqb (Message.receiverId m) v
          || String.eqb (Message.senderId m) v
             && String.eqb (Message.receiverId m) u)
         && column_null (Message.groupId m))
      (effective (messageRouter.cursor input)) (messages s) in
  fst (messageRouter.getConversation g u input s)
  = Ok (messageRouter.mkGetConversationOutput
          (rev (firstn (Z.to_nat (messageRouter.limit input)) rows))
          (option_map Message.id
             (nth_error rows (Z.to_nat (messageRouter.limit input))))).
Proof.
  intros HL v rows. unfold messageRouter.getConversation.
  rewrite HL. cbn [negb].
  unfold db.message.findMany, db.message.updateMany, bind, gets, ret.
  cbv beta iota. fold (effective (messageRouter.cursor input)). fold v.
  rewrite (fetch_page Message.id Message.createdAt _ _ _ _ HL).
  reflexivity.
Qed.

(** X15. A page of [getConversation] holds only direct messages (no
    group message) exchanged between the caller and the other user, at
    most [limit] of them, oldest first; the rows are those of the store
    before the call marked anything as read. *)
Theorem getConversation_only_direct (g : Defaults) (u : string)
        (input : messageRouter.GetConversationInput) (s s' : Store)
        (out : messageRouter.GetConversationOutput) :
  messageRouter.getConversation g u input s = (Ok out, s') ->
  let v := messageRouter.userId input in
  (Z.of_nat (length (messageRouter.messages out))
   <= messageRouter.limit input)%Z
  /\ StronglySorted
       (fun a b => (Message.createdAt a <= Message.createdAt b)%Z)
       (messageRouter.messages out)
  /\ Forall
       (fun m =>
          In m (messages s)
          /\ Message.groupId m = None
          /\ (Message.senderId m = u /\ Message.receiverId m = v
              \/ Message.senderId m = v /\ Message.receiverId m = u))
       (messageRouter.messages out).
Proof.
  intros H v.
  destruct (limit_ok (messageRouter.limit input)) eqn:HL;
    [|unfold messageRouter.getConversation in H; rewrite HL in H;
      discriminate].
  pose proof (getConversation_page g u input s HL) as Hp.
  rewrite H in Hp. cbn [fst] in Hp. injection Hp as ->.
  cbn [messageRouter.messages]. apply limit_ok_true in HL.
  split; [rewrite length_rev, length_firstn; lia|]. split.
  - apply oldest_first, (sorted_firstn Message.id), fetched_sorted.
  - apply Forall_forall. intros m Hm.
    apply in_rev, In_firstn, fetched_In in Hm. destruct Hm as [Hin Hw].
    apply andb_true_iff in Hw. destruct Hw as [Hpair Hg].
    split; [exact Hin|]. split.
    + destruct (Message.groupId m); [discriminate|reflexivity].
    + apply orb_true_iff in Hpair.
      destruct Hpair as [Hp|Hp]; apply andb_true_iff in Hp;
        destruct Hp as [H1 H2]; apply String.eqb_eq in H1, H2; tauto.
Qed.

Lemma getConversation_only_direct_witness :
  exists out s',
    messageRouter.getConversation sampleDefaults "u1"
      (messageRouter.mkGetConversationInput "u2" 50 None) sampleChat
    = (Ok out, s')
    /\ map Message.id (messageRouter.messages out) = ["m1"; "m2"]
    /\ Forall (fun m => Message.groupId m = None)
              (messageRouter.messages out).
Proof.
  eexists _, _. split; [reflexivity|]. split; [reflexivity|].
  destruct (getConversation_only_direct sampleDefaults "u1"
              (messageRouter.mkGetConversationInput "u2" 50 None)
              sampleChat _ _ eq_refl) as (_ & _ & H).
  eapply Forall_impl; [|exact H]. cbn beta. tauto.
Defined.

(** The unread count of a conversation as a number. *)
Lemma unreadCount_run (u v : string) (s : Store) :
  messageRouter.unreadCount u v s
  = (Ok (Table.count
           (fun m =>
              String.eqb (Message.senderId m) v
              && String.eqb (Message.receiverId m) u
              && column_null (Message.readAt m)
              && column_null (Message.groupId m))
           (messages s)), s).
Proof. reflexivity. Qed.

(** X13. A message to an existing other user is stored as one new
    direct, unread row from the caller to the receiver; the unread count
    of that conversation grows by one for the receiver, and drops to 0
    when the receiver opens the conversation.  With [encrypted] set the
    row carries no plain text, and it carries the key next to the
    cipher text. *)
Theorem send_delivers (randomKey : string)
        (encrypt : string -> string -> string) (g g' : Defaults)
        (sender receiver : string) (input : messageRouter.Body)
        (s : Store) (k : nat) (L : Z) :
  messageRouter.contentType_ok (messageRouter.contentType input) = true ->
  sender <> receiver ->
  (exists usr, In usr (users s) /\ User.id usr = receiver) ->
  (1 <= L <= 100)%Z ->
  messageRouter.unreadCount receiver sender s = (Ok k, s) ->
  exists row s',
    messageRouter.send randomKey encrypt g sender receiver input s
    = (Ok row, s')
    /\ messages s' = messages s ++ [row]
    /\ Message.senderId row = sender
    /\ Message.receiverId row = receiver
    /\ Message.readAt row = None
    /\ Message.groupId row = None
    /\ (messageRouter.encrypted input = true ->
        Message.content row = ""
        /\ Message.encryptedContent row
           = Some (encrypt randomKey (messageRouter.content input))
        /\ Message.encryptionKey row = Some randomKey)
    /\ (messageRouter.encrypted input = false ->
        Message.content row = messageRouter.content input
        /\ Message.encryptedContent row = None
        /\ Message.encryptionKey row = None)
    /\ messageRouter.unreadCount receiver sender s' = (Ok (S k), s')
    /\ (let s'' :=
          snd (messageRouter.getConversation g' receiver
                 (messageRouter.mkGetConversationInput sender L None) s') in
        messageRouter.unreadCount receiver sender s'' = (Ok 0, s'')).
Proof.
  intros Hct Hne (usr & Hin & Hid) HL Hk.
  unfold messageRouter.send. rewrite Hct. cbn [negb].
  apply String.eqb_neq in Hne. rewrite Hne.
  unfold bind, db.user.findUnique, db.message.create, gets.
  destruct (find_In_some (fun r => String.eqb (User.id r) receiver)
              (users s) usr Hin) as [y Hy];
    [rewrite Hid; apply String.eqb_refl|].
  unfold Table.findUnique. rewrite Hy.
  eexists _, _. split; [reflexivity|].
  cbn [messages set_messages]. unfold Table.create.
  split; [reflexivity|]. split; [reflexivity|]. split; [reflexivity|].
  split; [reflexivity|]. split; [reflexivity|].
  split; [|split; [|split]].
  - intros He. unfold messageRouter.encryptedContent,
      messageRouter.encryptionKey. cbn. rewrite He. repeat split.
  - intros He. unfold messageRouter.encryptedContent,
      messageRouter.encryptionKey. cbn. rewrite He. repeat split.
  - rewrite unreadCount_run in Hk |- *. injection Hk as Hk.
    cbn [messages set_messages]. rewrite count_app, Hk.
    unfold Table.count at 1.
    cbn [filter Message.senderId Message.receiverId Message.readAt
         Message.groupId column_null].
    rewrite !String.eqb_refl. cbn [andb length]. f_equal. f_equal. lia.
  - apply (getConversation_marks_read g' receiver
             (messageRouter.mkGetConversationInput sender L None)).
    now apply limit_ok_true.
Qed.

Lemma send_delivers_witness :
  exists row s',
    messageRouter.send "k" (fun _ x => x) sampleDefaults "u2" "u1"
      (messageRouter.mkBody "hello" "text" true) sampleChat
    = (Ok row, s')
    /\ Message.content row = ""
    /\ messageRouter.unreadCount "u1" "u2" s' = (Ok 2, s').
Proof.
  destruct (send_delivers "k" (fun _ x => x) sampleDefaults sampleDefaults
              "u2" "u1" (messageRouter.mkBody "hello" "text" true)
              sampleChat 1 50)
    as (row & s' & H1 & _ & _ & _ & _ & _ & H2 & _ & H3 & _).
  - reflexivity.
  - discriminate.
  - exists sampleUser. split; [cbn; tauto|reflexivity].
  - lia.
  - reflexivity.
  - exists row, s'. split; [exact H1|].
    split; [apply H2; reflexivity|exact H3].
Defined.

(** X14. [sendToGroup] with a valid content type: a caller without a
    membership row for the group gets FORBIDDEN and nothing is stored;
    for a member one row is appended that names the caller as sender and
    as receiver and carries the group, and the unread count of every
    direct conversation stays as it was. *)
Theorem sendToGroup_members_only (randomKey : string)
        (encrypt : string -> string -> string) (g : Defaults)
        (sender grp : string) (input : messageRouter.Body) (s : Store) :
  messageRouter.contentType_ok (messageRouter.contentType input) = true ->
  ((forall gm, In gm (groupMembers s) ->
               ~ (GroupMember.userId gm = sender
                  /\ GroupMember.groupId gm = grp)) ->
   messageRouter.sendToGroup randomKey encrypt g sender grp input s
   = (Err (TRPCError FORBIDDEN "You are not a member of this group"), s))
  /\ ((exists gm, In gm (groupMembers s)
                  /\ GroupMember.userId gm = sender
                  /\ GroupMember.groupId gm = grp) ->
      exists row s',
        messageRouter.sendToGroup randomKey encrypt g sender grp input s
        = (Ok row, s')
        /\ messages s' = messages s ++ [row]
        /\ Message.senderId row = sender
        /\ Message.receiverId row = sender
        /\ Message.groupId row = Some grp
        /\ (forall u v,
              fst (messageRouter.unreadCount u v s')
              = fst (messageRouter.unreadCount u v s))).
Proof.
  intros Hct. unfold messageRouter.sendToGroup. rewrite Hct. cbn [negb].
  unfold bind, db.groupMember.findFirst, db.message.create, gets,
    Table.findFirst.
  split.
  - intros Hnone.
    destruct (find _ (groupMembers s)) as [gm|] eqn:E; [|reflexivity].
    apply find_some in E. destruct E as [Hin Hgm].
    apply andb_true_iff in Hgm. destruct Hgm as [H1 H2].
    apply String.eqb_eq in H1, H2. elim (Hnone gm Hin). tauto.
  - intros (gm & Hin & H1 & H2).
    destruct (find_In_some
                (fun x => String.eqb (GroupMember.userId x) sender
                          && String.eqb (GroupMember.groupId x) grp)
                (groupMembers s) gm Hin) as [y Hy];
      [now rewrite H1, H2, !String.eqb_refl|].
    rewrite Hy. eexists _, _. split; [reflexivity|].
    cbn [messages set_messages]. unfold Table.create.
    repeat split.
    intros u v. rewrite !unreadCount_run. cbn [fst messages set_messages].
    rewrite count_app. unfold Table.count at 2.
    cbn [filter Message.groupId column_null].
    rewrite andb_false_r. cbn [length]. now rewrite Nat.add_0_r.
Qed.

Lemma sendToGroup_members_only_witness :
  messageRouter.sendToGroup "k" (fun _ x => x) sampleDefaults "u2" "g1"
    (messageRouter.mkBody "hello" "text" false) sampleChat
  = (Err (TRPCError FORBIDDEN "You are not a member of this group"),
     sampleChat)
  /\ exists row s',
       messageRouter.sendToGroup "k" (fun _ x => x) sampleDefaults "u1"
         "g1" (messageRouter.mkBody "hello" "text" false) sampleChat
       = (Ok row, s')
       /\ Message.groupId row = Some "g1".
Proof.
  split.
  - apply (sendToGroup_members_only "k" (fun _ x => x) sampleDefaults
             "u2" "g1" (messageRouter.mkBody "hello" "text" false)
             sampleChat); [reflexivity|].
    intros gm [<-|[]] [H _]. discriminate.
  - destruct (sendToGroup_members_only "k" (fun _ x => x) sampleDefaults
                "u1" "g1" (messageRouter.mkBody "hello" "text" false)
                sampleChat) as [_ Hok]; [reflexivity|].
    destruct Hok as (row & s' & H1 & _ & _ & _ & H2 & _).
    + eexists. split; [left; reflexivity|split; reflexivity].
    + exists row, s'. split; assumption.
Defined.

(** X16. [getGroupMessages]: with a valid limit, a caller without a
    membership row for the group gets FORBIDDEN, and with any limit and
    for any caller the store stays as it was; a page is returned to a
    member only and holds only messages of that group, at most [limit]
    of them, oldest first. *)
Theorem getGroupMessages_members_only (u grp : string) (L : Z)
        (c : option string) (s : Store) :
  (limit_ok L = true ->
   (forall gm, In gm (groupMembers s) ->
               ~ (GroupMember.userId gm = u
                  /\ GroupMember.groupId gm = grp)) ->
   messageRouter.getGroupMessages u grp L c s
   = (Err (TRPCError FORBIDDEN "You are not a member of this group"), s))
  /\ snd (messageRouter.getGroupMessages u grp L c s) = s
  /\ (forall out s',
        messageRouter.getGroupMessages u grp L c s = (Ok out, s') ->
        s' = s
        /\ (exists gm, In gm (groupMembers s)
                       /\ GroupMember.userId gm = u
                       /\ GroupMember.groupId gm = grp)
        /\ (Z.of_nat (length (messageRouter.messages out)) <= L)%Z
        /\ StronglySorted
             (fun a b => (Message.createdAt a <= Message.createdAt b)%Z)
             (messageRouter.messages out)
        /\ Forall
             (fun m => In m (messages s) /\ Message.groupId m = Some grp)
             (messageRouter.messages out)).
Proof.
  unfold messageRouter.getGroupMessages.
  destruct (limit_ok L) eqn:HL; cbn [negb].
  2:{ split; [discriminate|]. split; [reflexivity|]. intros out s' H.
      discriminate. }
  unfold bind, db.groupMember.findFirst, db.message.findMany, gets, ret,
    Table.findFirst.
  destruct (find _ (groupMembers s)) as [gm|] eqn:E.
  - apply find_some in E. destruct E as [Hin Hgm].
    apply andb_true_iff in Hgm. destruct Hgm as [H1 H2].
    apply String.eqb_eq in H1, H2.
    split; [intros _ Hnone; elim (Hnone gm Hin); tauto|].
    split.
    { cbv beta iota. fold (effective c).
      now rewrite (fetch_page Message.id Message.createdAt _ _ _ _ HL). }
    intros out s' H. cbv beta iota in H. fold (effective c) in H.
    rewrite (fetch_page Message.id Message.createdAt _ _ _ _ HL) in H.
    injection H as <- <-. cbn [messageRouter.messages].
    apply limit_ok_true in HL.
    split; [reflexivity|]. split; [now exists gm|].
    split; [rewrite length_rev, length_firstn; lia|]. split.
    + apply oldest_first, (sorted_firstn Message.id), fetched_sorted.
    + apply Forall_forall. intros m Hm.
      apply in_rev, In_firstn, fetched_In in Hm. destruct Hm as [Hm Hw].
      split; [exact Hm|]. unfold column_is in Hw.
      destruct (Message.groupId m) as [x|]; [|discriminate].
      apply String.eqb_eq in Hw. now subst.
  - split; [reflexivity|]. split; [reflexivity|]. intros out s' H.
    discriminate.
Qed.

Lemma getGroupMessages_members_only_witness :
  messageRouter.getGroupMessages "u2" "g1" 50 None sampleChat
  = (Err (TRPCError FORBIDDEN "You are not a member of this group"),
     sampleChat)
  /\ exists out,
       messageRouter.getGroupMessages "u1" "g1" 50 None sampleChat
       = (Ok out, sampleChat)
       /\ messageRouter.messages out
          = [sampleMessage "m3" 30 "u1" "u1" (Some "g1")]
       /\ Forall (fun m => Message.groupId m = Some "g1")
                 (messageRouter.messages out).
Proof.
  destruct (getGroupMessages_members_only "u2" "g1" 50 None sampleChat)
    as [Hno _].
  destruct (getGroupMessages_members_only "u1" "g1" 50 None sampleChat)
    as (_ & _ & Hyes).
  split.
  - apply Hno; [reflexivity|]. intros gm [<-|[]] [H _]. discriminate.
  - eexists. split; [reflexivity|]. split; [reflexivity|].
    destruct (Hyes _ _ eq_refl) as (_ & _ & _ & _ & H).
    eapply Forall_impl; [|exact H]. cbn beta. tauto.
Defined.

(** ** Feeds *)

Lemma filter_everything {A : Type} (l : list A) :
  filter (fun _ => true) l = l.
Proof. apply filter_all. reflexivity. Qed.

Lemma isLikedBy_true (viewer : option string) (p : Post.t) (s : Store) :
  postRouter.isLikedBy viewer p s = true <->
  exists u, viewer = Some u /\ u <> ""
            /\ exists l, In l (likes s) /\ Like.userId l = u
                         /\ Like.postId l = Some (Post.id p).
Proof.
  unfold postRouter.isLikedBy, db.post.likesBy.
  destruct viewer as [u|].
  2:{ split; [discriminate|]. intros (u & Hu & _). discriminate. }
  destruct (truthy u) eqn:Hu.
  2:{ split; [discriminate|]. intros (u' & [= <-] & Hne & _).
      apply truthy_true in Hne. congruence. }
  apply truthy_true in Hu.
  set (w := fun l => column_is (Post.id p) (Like.postId l)
                     && String.eqb (Like.userId l) u).
  assert (Hw : forall l, w l = true <->
                         Like.userId l = u
                         /\ Like.postId l = Some (Post.id p)).
  { intros l. pose proof (likeOf_true u (Post.id p) l) as H.
    unfold likeOf in H. unfold w. rewrite andb_comm. exact H. }
  split.
  - intros H. exists u. split; [reflexivity|]. split; [exact Hu|].
    destruct (filter w (likes s)) as [|l tl] eqn:F; [discriminate|].
    assert (Hl : In l (filter w (likes s))) by (rewrite F; now left).
    apply filter_In in Hl. destruct Hl as [Hin Hl].
    exists l. split; [exact Hin|]. now apply Hw.
  - intros (u' & [= <-] & _ & l & Hin & Hl).
    destruct (filter w (likes s)) as [|x tl] eqn:F; [|reflexivity].
    assert (Hf : In l (filter w (likes s)))
      by (apply filter_In; split; [exact Hin|now apply Hw]).
    rewrite F in Hf. destruct Hf.
Qed.

Lemma getUserPosts_page (viewer : option string) (owner : string) (L : Z)
      (c : option string) (s : Store) :
  limit_ok L = true ->
  let rows :=
    fetched Post.id Post.createdAt (postRouter.visibleTo viewer owner)
            (effective c) (posts s) in
  postRouter.getUserPosts viewer owner L c s
  = (Ok (postRouter.Feed.mkOutput
           (map (fun p => postRouter.Feed.mkItem p
                            (postRouter.isLikedBy viewer p s))
                (firstn (Z.to_nat L) rows))
           (option_map Post.id (nth_error rows (Z.to_nat L)))), s).
Proof.
  intros HL rows. unfold postRouter.getUserPosts. rewrite HL. cbn [negb].
  unfold db.post.findMany, bind, gets, ret. cbv beta iota.
  fold (effective c).
  rewrite (fetch_page Post.id Post.createdAt _ _ _ _ HL). reflexivity.
Qed.

Lemma getFeed_page (viewer : option string) (L : Z) (c : option string)
      (s : Store) :
  limit_ok L = true ->
  let rows :=
    fetched Post.id Post.createdAt (fun _ => true) (effective c)
            (posts s) in
  postRouter.getFeed viewer L c s
  = (Ok (postRouter.Feed.mkOutput
           (map (fun p => postRouter.Feed.mkItem p
                            (postRouter.isLikedBy viewer p s))
                (firstn (Z.to_nat L) rows))
           (option_map Post.id (nth_error rows (Z.to_nat L)))), s).
Proof.
  intros HL rows. unfold postRouter.getFeed. rewrite HL. cbn [negb].
  unfold db.post.findMany, bind, gets, ret. cbv beta iota.
  fold (effective c).
  rewrite (fetch_page Post.id Post.createdAt _ _ _ _ HL). reflexivity.
Qed.

(** X17. Every post on a page of [getUserPosts] is a post of the
    requested user and is public, or has visibility "friends" and the
    caller is logged in (no friendship is looked up), or is private and
    the caller is its owner: a private post is shown to nobody else.
    The page has at most [limit] items and the store stays as it was. *)
Theorem getUserPosts_visibility (viewer : option string) (owner : string)
        (L : Z) (c : option string) (s s' : Store)
        (out : postRouter.Feed.Output) :
  postRouter.getUserPosts viewer owner L c s = (Ok out, s') ->
  s' = s
  /\ (Z.of_nat (length (postRouter.Feed.posts out)) <= L)%Z
  /\ Forall
       (fun it =>
          let p := postRouter.Feed.post it in
          In p (posts s)
          /\ Post.userId p = owner
          /\ (Post.visibility p = "public"
              \/ (Post.visibility p = "friends"
                  /\ exists u, viewer = Some u /\ u <> "")
              \/ (Post.visibility p = "private" /\ viewer = Some owner)))
       (postRouter.Feed.posts out).
Proof.
  intros H.
  destruct (limit_ok L) eqn:HL;
    [|unfold postRouter.getUserPosts in H; rewrite HL in H; discriminate].
  rewrite getUserPosts_page in H by exact HL.
  injection H as <- <-. cbn [postRouter.Feed.posts].
  apply limit_ok_true in HL.
  split; [reflexivity|].
  split; [rewrite length_map, length_firstn; lia|].
  apply Forall_forall. intros it Hit.
  apply in_map_iff in Hit. destruct Hit as (p & <- & Hp).
  cbn [postRouter.Feed.post]. cbv zeta.
  apply In_firstn, fetched_In in Hp. destruct Hp as [Hin Hv].
  split; [exact Hin|].
  unfold postRouter.visibleTo in Hv. apply andb_true_iff in Hv.
  destruct Hv as [Ho Hv]. apply String.eqb_eq in Ho.
  split; [exact Ho|].
  apply orb_true_iff in Hv. destruct Hv as [Hv|Hv];
    [left; now apply String.eqb_eq|].
  destruct viewer as [u|]; [|discriminate].
  destruct (truthy u) eqn:Hu; [|discriminate].
  apply truthy_true in Hu. right.
  apply orb_true_iff in Hv. destruct Hv as [Hv|Hv].
  - left. split; [now apply String.eqb_eq|]. now exists u.
  - right. apply andb_true_iff in Hv. destruct Hv as [H1 H2].
    apply String.eqb_eq in H1, H2. split; [exact H2|]. congruence.
Qed.

(** X18. [getFeed] has no [where] clause: for a valid limit the first
    page is made of the [limit] newest posts of the whole table,
    whatever their visibility and for every caller, with or without a
    session; when the table fits in the page, the page has all its
    posts.  [isLiked] is set exactly on the posts for which the caller
    has a Like row. *)
Theorem getFeed_every_post (viewer : option string) (L : Z) (s : Store) :
  (1 <= L <= 100)%Z ->
  exists out,
    postRouter.getFeed viewer L None s = (Ok out, s)
    /\ map postRouter.Feed.post (postRouter.Feed.posts out)
       = firstn (Z.to_nat L) (Table.orderByDesc Post.createdAt (posts s))
    /\ ((Z.of_nat (length (posts s)) <= L)%Z ->
        Permutation (map postRouter.Feed.post (postRouter.Feed.posts out))
                    (posts s)
        /\ postRouter.Feed.nextCursor out = None)
    /\ Forall
         (fun it =>
            postRouter.Feed.isLiked it = true <->
            exists u, viewer = Some u /\ u <> ""
                      /\ exists l, In l (likes s) /\ Like.userId l = u
                                   /\ Like.postId l
                                      = Some (Post.id (postRouter.Feed.post it)))
         (postRouter.Feed.posts out).
Proof.
  intros HL. apply limit_ok_true in HL.
  eexists. split; [apply getFeed_page; exact HL|].
  cbn [postRouter.Feed.posts postRouter.Feed.nextCursor effective fetched].
  rewrite filter_everything.
  split; [|split].
  - rewrite map_map. cbn [postRouter.Feed.post]. apply map_id.
  - intros Hfit. apply limit_ok_true in HL.
    assert (Hlen : length (Table.orderByDesc Post.createdAt (posts s))
                   <= Z.to_nat L)
      by (rewrite orderByDesc_length; lia).
    split.
    + rewrite map_map. cbn [postRouter.Feed.post]. rewrite map_id.
      rewrite firstn_all2 by exact Hlen. apply orderByDesc_perm.
    + now rewrite (proj2 (nth_error_None _ _) Hlen).
  - apply Forall_forall. intros it Hit.
    apply in_map_iff in Hit. destruct Hit as (p & <- & _).
    cbn [postRouter.Feed.isLiked postRouter.Feed.post].
    apply isLikedBy_true.
Qed.

Lemma getUserPosts_visibility_witness :
  exists out,
    postRouter.getUserPosts None "u2" 10 None samplePosts
    = (Ok out, samplePosts)
    /\ map (fun it => Post.id (postRouter.Feed.post it))
           (postRouter.Feed.posts out) = ["p1"]
    /\ Forall
         (fun it => Post.userId (postRouter.Feed.post it) = "u2")
         (postRouter.Feed.posts out).
Proof.
  eexists. split; [reflexivity|]. split; [reflexivity|].
  destruct (getUserPosts_visibility None "u2" 10 None samplePosts _ _
              eq_refl) as (_ & _ & H).
  eapply Forall_impl; [|exact H]. cbn beta zeta. tauto.
Defined.

Lemma getFeed_every_post_witness :
  exists out,
    postRouter.getFeed None 10 None samplePosts = (Ok out, samplePosts)
    /\ Permutation (map postRouter.Feed.post (postRouter.Feed.posts out))
                   (posts samplePosts).
Proof.
  destruct (getFeed_every_post None 10 samplePosts)
    as (out & H1 & _ & H2 & _); [lia|].
  exists out. split; [exact H1|]. apply H2. cbn. lia.
Defined.

(** ** Following *)

Lemma edge_true (u v : string) (f : Follow.t) :
  edge u v f = true <-> Follow.followerId f = u /\ Follow.followingId f = v.
Proof.
  unfold edge. now rewrite andb_true_iff, !String.eqb_eq.
Qed.

Lemma no_edge_find (d : Database) (u v : string) :
  (forall f, In f (follows d) ->
             ~ (Follow.followerId f = u /\ Follow.followingId f = v)) ->
  find (edge u v) (follows d) = None
  /\ existsb (edge u v) (follows d) = false.
Proof.
  intros Hnone. split.
  - destruct (find _ _) as [f|] eqn:E; [|reflexivity].
    apply find_some in E. destruct E as [Hin Hf].
    apply edge_true in Hf. elim (Hnone f Hin Hf).
  - destruct (existsb _ _) eqn:E; [|reflexivity].
    apply existsb_exists in E. destruct E as (f & Hin & Hf).
    apply edge_true in Hf. elim (Hnone f Hin Hf).
Qed.

(** X19. [followUser] refuses to follow oneself, and refuses to follow
    a user the caller follows already; in both cases nothing is
    written. *)
Theorem followUser_refusals (g : Defaults) (u v : string) (d : Database) :
  userRouter.followUser g u u d
  = (Err (Error "You cannot follow yourself"), d)
  /\ (u <> v ->
      (exists f, In f (follows d) /\ Follow.followerId f = u
                 /\ Follow.followingId f = v) ->
      userRouter.followUser g u v d
      = (Err (Error "Already following this user"), d)).
Proof.
  unfold userRouter.followUser. split.
  - now rewrite String.eqb_refl.
  - intros Hne (f & Hin & H1 & H2).
    assert (E : String.eqb v u = false)
      by (apply String.eqb_neq; congruence).
    rewrite E. unfold bindT, db.follow.findFirst, getsT, Table.findFirst.
    fold (edge u v).
    destruct (find_In_some (edge u v) (follows d) f Hin) as [y Hy];
      [now apply edge_true|].
    now rewrite Hy.
Qed.

Lemma followUser_refusals_witness :
  userRouter.followUser sampleDefaults "u1" "u1" sampleSocial
  = (Err (Error "You cannot follow yourself"), sampleSocial)
  /\ userRouter.followUser sampleDefaults "u1" "u2" sampleSocial
     = (Err (Error "Already following this user"), sampleSocial).
Proof.
  split.
  - apply (followUser_refusals sampleDefaults "u1" "u2" sampleSocial).
  - apply (followUser_refusals sampleDefaults "u1" "u2" sampleSocial);
      [discriminate|].
    eexists. split; [left; reflexivity|split; reflexivity].
Defined.

(** Both ends of a new edge are users. *)
Lemma followUser_new (g : Defaults) (u v : string) (d : Database) :
  u <> v ->
  (forall f, In f (follows d) ->
             ~ (Follow.followerId f = u /\ Follow.followingId f = v)) ->
  userRouter.followUser g u v d
  = if refers User.id (users (core d)) (Some u)
       && refers User.id (users (core d)) (Some v)
    then (Err PrismaClientValidationError,
          set_follows (follows d ++ [Follow.mk (cuid g 0) u v (now g)]) d)
    else (Err (PrismaClientKnownRequestError "P2003"), d).
Proof.
  intros Hne Hnone.
  destruct (no_edge_find d u v Hnone) as [Hfind Hex].
  assert (E : String.eqb v u = false)
    by (apply String.eqb_neq; congruence).
  unfold userRouter.followUser. rewrite E.
  unfold bindT, db.follow.findFirst, db.follow.create, getsT, lift,
    db.notification.createWithoutContent, throw, Table.findFirst.
  fold (edge u v). rewrite Hfind, Hex.
  destruct (refers User.id (users (core d)) (Some u)
            && refers User.id (users (core d)) (Some v));
    cbn [negb]; [|reflexivity].
  cbn [core set_follows set_core].
  unfold Table.create, db.follow.row. now destruct d as [[]].
Qed.

(** X20. A first [followUser] of somebody who has no user row is
    refused by the database (P2003) and writes nothing.  A first
    [followUser] of a user stores the Follow row and then fails: the
    notification it goes on to create is refused by the client (its
    [data] has no [content] and the type "follow"), so the caller gets
    an error although the edge, and nothing else, is written; a retry is
    refused as a duplicate. *)
Theorem followUser_stores_edge_then_fails (g : Defaults) (u v : string)
        (d : Database) :
  u <> v ->
  (forall f, In f (follows d) ->
             ~ (Follow.followerId f = u /\ Follow.followingId f = v)) ->
  refers User.id (users (core d)) (Some u) = true ->
  (refers User.id (users (core d)) (Some v) = false ->
   userRouter.followUser g u v d
   = (Err (PrismaClientKnownRequestError "P2003"), d))
  /\ (refers User.id (users (core d)) (Some v) = true ->
      let d' :=
        set_follows (follows d ++ [Follow.mk (cuid g 0) u v (now g)]) d in
      userRouter.followUser g u v d = (Err PrismaClientValidationError, d')
      /\ (forall g',
            userRouter.followUser g' u v d'
            = (Err (Error "Already following this user"), d'))).
Proof.
  intros Hne Hnone Hu.
  rewrite (followUser_new g u v d Hne Hnone), Hu. cbn [andb].
  split; [intros Hv; now rewrite Hv|].
  intros Hv. rewrite Hv. cbv zeta. split; [reflexivity|].
  intros g'.
  assert (E : String.eqb v u = false)
    by (apply String.eqb_neq; congruence).
  unfold userRouter.followUser. rewrite E.
  unfold bindT, db.follow.findFirst, getsT, Table.findFirst.
  fold (edge u v). cbn [follows set_follows].
  destruct (find_In_some (edge u v)
              (follows d ++ [Follow.mk (cuid g 0) u v (now g)])
              (Follow.mk (cuid g 0) u v (now g))) as [y Hy].
  - apply in_or_app. right. now left.
  - apply edge_true. split; reflexivity.
  - now rewrite Hy.
Qed.

Lemma followUser_stores_edge_then_fails_witness :
  userRouter.followUser sampleDefaults "u2" "u9" sampleSocial
  = (Err (PrismaClientKnownRequestError "P2003"), sampleSocial)
  /\ userRouter.followUser sampleDefaults "u2" "u1" sampleSocial
     = (Err PrismaClientValidationError,
        set_follows
          (follows sampleSocial ++ [Follow.mk "c1" "u2" "u1" 1000])
          sampleSocial).
Proof.
  split.
  - apply (followUser_stores_edge_then_fails sampleDefaults "u2" "u9"
             sampleSocial); try reflexivity; [discriminate|].
    intros f [<-|[]] [H _]. discriminate.
  - apply (followUser_stores_edge_then_fails sampleDefaults "u2" "u1"
             sampleSocial); try reflexivity; [discriminate|].
    intros f [<-|[]] [H _]. discriminate.
Defined.

(** X21. [unfollowUser] removes the edge from the caller to the other
    user and nothing else: the other edges, the edge in the opposite
    direction among them, and every other table stay as they were.  It
    undoes a first [followUser] between two users: the database is
    again the one from before the follow. *)
Theorem unfollowUser_removes_edge (g : Defaults) (u v : string)
        (d : Database) :
  exists d',
    userRouter.unfollowUser u v d = (Ok true, d')
    /\ (forall f, In f (follows d') <->
                  In f (follows d)
                  /\ ~ (Follow.followerId f = u
                        /\ Follow.followingId f = v))
    /\ core d' = core d
    /\ comments d' = comments d
    /\ reactions d' = reactions d
    /\ reels d' = reels d
    /\ groups d' = groups d
    /\ (u <> v ->
        (forall f, In f (follows d) ->
                   ~ (Follow.followerId f = u
                      /\ Follow.followingId f = v)) ->
        snd (userRouter.unfollowUser u v
               (snd (userRouter.followUser g u v d)))
        = d).
Proof.
  eexists. split; [reflexivity|].
  cbn [follows set_follows core comments reactions reels groups].
  unfold Table.deleteMany.
  fold (edge u v). split; [|repeat (split; [reflexivity|])].
  - intros f. rewrite filter_In, negb_true_iff.
    pose proof (edge_true u v f) as H. unfold edge in H |- *.
    destruct (String.eqb (Follow.followerId f) u
              && String.eqb (Follow.followingId f) v);
      intuition congruence.
  - intros Hne Hnone.
    assert (Hkeep : filter (fun f => negb (edge u v f)) (follows d)
                    = follows d).
    { apply filter_all. intros f Hf. apply negb_true_iff.
      destruct (edge u v f) eqn:Ef; [|reflexivity].
      apply edge_true in Ef. elim (Hnone f Hf Ef). }
    rewrite (followUser_new g u v d Hne Hnone).
    destruct (refers User.id (users (core d)) (Some u)
              && refers User.id (users (core d)) (Some v));
      cbn [snd]; unfold userRouter.unfollowUser, bindT,
        db.follow.deleteMany, retT;
      cbn [snd follows set_follows];
      unfold Table.deleteMany; fold (edge u v).
    + rewrite filter_app. cbn [filter edge Follow.followerId
                               Follow.followingId].
      rewrite !String.eqb_refl. cbn [andb negb].
      unfold edge in Hkeep. rewrite app_nil_r, Hkeep. now destruct d.
    + unfold edge in Hkeep. rewrite Hkeep. now destruct d.
Qed.

Lemma unfollowUser_removes_edge_witness :
  exists d',
    userRouter.unfollowUser "u1" "u2" sampleSocial = (Ok true, d')
    /\ follows d' = []
    /\ snd (userRouter.unfollowUser "u2" "u1"
              (snd (userRouter.followUser sampleDefaults "u2"
                      "u1" sampleSocial)))
       = sampleSocial.
Proof.
  destruct (unfollowUser_removes_edge sampleDefaults "u2" "u1"
              sampleSocial) as (d' & _ & _ & _ & _ & _ & _ & _ & H).
  eexists. split; [reflexivity|]. split; [reflexivity|].
  apply H; [discriminate|].
  intros f [<-|[]] [H1 _]. discriminate.
Defined.

(** ** Reactions *)

Lemma count_map_same {A : Type} (w : A -> bool) (f : A -> A)
      (l : list A) :
  (forall x, w (f x) = w x) ->
  Table.count w (map f l) = Table.count w l.
Proof.
  intros H. unfold Table.count.
  induction l as [|x l IH]; [reflexivity|].
  cbn [map filter]. rewrite H. destruct (w x); cbn [length]; now rewrite IH.
Qed.

Lemma reactionOn_set_type (col : Reaction.t -> option string)
      (u k ty : string) (r : Reaction.t) :
  In col [Reaction.postId; Reaction.storyId; Reaction.reelId;
          Reaction.messageId] ->
  reactionOn col u k (Reaction.set_type ty r) = reactionOn col u k r.
Proof.
  intros [<-|[<-|[<-|[<-|[]]]]]; reflexivity.
Qed.

(** The ways in which the handlers change the table of reactions. *)
Lemma reactions_step (d d' : Database) :
  reactionsUnique d ->
  reactions d' = reactions d
  \/ (exists w, reactions d' = Table.deleteMany w (reactions d))
  \/ (exists k ty,
        reactions d'
        = Table.update Reaction.id k (Reaction.set_type ty) (reactions d))
  \/ (exists new,
        reactions d' = reactions d ++ [new]
        /\ forall col,
             In col [Reaction.postId; Reaction.storyId; Reaction.reelId;
                     Reaction.messageId] ->
             forall u k,
               reactionOn col u k new = true ->
               Table.count (reactionOn col u k) (reactions d) = 0) ->
  reactionsUnique d'.
Proof.
  intros Hu [E|[(w & E)|[(k & ty & E)|(new & E & Hnew)]]] col Hcol u0 k0;
    rewrite E; specialize (Hu col Hcol u0 k0).
  - exact Hu.
  - unfold Table.deleteMany.
    pose proof (count_filter_le (reactionOn col u0 k0)
                  (fun r => negb (w r)) (reactions d)). lia.
  - unfold Table.update.
    rewrite (count_map_same (reactionOn col u0 k0)); [exact Hu|].
    intros x. destruct (String.eqb (Reaction.id x) k); [|reflexivity].
    now apply reactionOn_set_type.
  - rewrite count_app. unfold Table.count at 2. cbn [filter].
    destruct (reactionOn col u0 k0 new) eqn:En; cbn [length]; [|lia].
    rewrite (Hnew col Hcol u0 k0 En). lia.
Qed.

Ltac split_tx :=
  cbv beta iota zeta;
  repeat (match goal with
          | |- context [match ?x with _ => _ end] =>
              lazymatch x with
              | context [match _ with _ => _ end] => fail
              | _ => destruct x eqn:?
              end
          end; cbv beta iota zeta).

(** A new reaction of [u] on the target [k] of one column matches no
    other user, target or column. *)
Lemma new_reaction_alone (d : Database) (col0 : Reaction.t -> option string)
      (u k : string) (new : Reaction.t) :
  find (fun r => String.eqb (Reaction.userId r) u && column_is k (col0 r))
       (reactions d) = None ->
  (forall col,
     In col [Reaction.postId; Reaction.storyId; Reaction.reelId;
             Reaction.messageId] ->
     forall u' k',
       reactionOn col u' k' new = true ->
       reactionOn col u' k' = reactionOn col0 u k) ->
  forall col,
    In col [Reaction.postId; Reaction.storyId; Reaction.reelId;
            Reaction.messageId] ->
    forall u' k',
      reactionOn col u' k' new = true ->
      Table.count (reactionOn col u' k') (reactions d) = 0.
Proof.
  intros Hfind Hsame col Hcol u' k' Hn.
  rewrite (Hsame col Hcol u' k' Hn).
  now apply find_none_count.
Qed.

Ltac unfold_tx :=
  unfold db.reaction.findFirst,
    db.reaction.create, db.reaction.update, db.reaction.delete,
    db.reaction.deleteMany, db.reel.findUnique, db.post.findUnique,
    db.story.findUnique, db.message.findUnique, db.notification.create,
    db.comment.create, bindT, retT, throwT, getsT, lift, gets,
    Table.findFirst.

Ltac reaction_case :=
  cbn [snd reactions set_core set_reactions]; unfold Table.create;
  first
    [ left; reflexivity
    | right; left; eexists; reflexivity
    | right; right; left; eexists _, _; reflexivity
    | right; right; right; eexists; split; [reflexivity|];
      first [ eapply (new_reaction_alone _ Reaction.postId);
              [eassumption|]
            | eapply (new_reaction_alone _ Reaction.storyId);
              [eassumption|]
            | eapply (new_reaction_alone _ Reaction.reelId);
              [eassumption|]
            | eapply (new_reaction_alone _ Reaction.messageId);
              [eassumption|] ];
      let col := fresh "col" in
      let Hcol := fresh "Hcol" in
      let u' := fresh "u'" in
      let k' := fresh "k'" in
      let Hn := fresh "Hn" in
      intros col Hcol u' k' Hn;
      destruct Hcol as [<-|[<-|[<-|[<-|[]]]]];
      unfold reactionOn in Hn;
      apply andb_true_iff in Hn; destruct Hn as [Hn1 Hn2];
      cbn in Hn1, Hn2; try discriminate;
      apply String.eqb_eq in Hn1, Hn2; subst; reflexivity ].

(** X22. The schema has no unique index on reactions; the handlers keep
    them unique all the same: on a database with at most one reaction
    per user and post, story, reel or message, every [addReaction]
    handler and [removeMessageReaction] leave at most one. *)
Theorem addReaction_keeps_one_reaction (g : Defaults) (u k ty : string)
        (d : Database) :
  reactionsUnique d ->
  reactionsUnique (snd (postRouter.addReaction g u k ty d))
  /\ reactionsUnique (snd (storyRouter.addReaction g u k ty d))
  /\ reactionsUnique (snd (reelRouter.addReaction g u k ty d))
  /\ reactionsUnique (snd (messageRouter.addMessageReaction g u k ty d))
  /\ reactionsUnique (snd (messageRouter.removeMessageReaction u k d)).
Proof.
  intros Hu.
  repeat split.
  - unfold postRouter.addReaction. unfold_tx. split_tx;
      (eapply reactions_step; [exact Hu|reaction_case]).
  - unfold storyRouter.addReaction. unfold_tx. split_tx;
      (eapply reactions_step; [exact Hu|reaction_case]).
  - unfold reelRouter.addReaction. unfold_tx. split_tx;
      (eapply reactions_step; [exact Hu|reaction_case]).
  - unfold messageRouter.addMessageReaction. unfold_tx. split_tx;
      (eapply reactions_step; [exact Hu|reaction_case]).
  - unfold messageRouter.removeMessageReaction. unfold_tx. split_tx;
      (eapply reactions_step; [exact Hu|reaction_case]).
Qed.

Lemma sampleSocial_unique : reactionsUnique sampleSocial.
Proof.
  intros col Hcol u k. unfold Table.count.
  cbn [reactions sampleSocial filter].
  destruct (reactionOn col u k _); cbn; lia.
Qed.

Lemma addReaction_keeps_one_reaction_witness :
  reactionsUnique
    (snd (postRouter.addReaction sampleDefaults "u1" "p1" "wow"
                                 sampleSocial))
  /\ reactionsUnique
       (snd (storyRouter.addReaction sampleDefaults "u1" "s1" "wow"
                                     sampleSocial)).
Proof.
  split.
  - apply (addReaction_keeps_one_reaction sampleDefaults "u1" "p1" "wow"
             sampleSocial sampleSocial_unique).
  - apply (addReaction_keeps_one_reaction sampleDefaults "u1" "s1" "wow"
             sampleSocial sampleSocial_unique).
Defined.

Lemma find_snoc {A : Type} (f : A -> bool) (l : list A) (x : A) :
  find f l = None ->
  find f (l ++ [x]) = if f x then Some x else None.
Proof.
  induction l as [|y l IH]; cbn [app find]; [reflexivity|].
  destruct (f y); [discriminate|exact IH].
Qed.

Lemma no_reaction_find (d : Database) (col : Reaction.t -> option string)
      (u k : string) :
  (forall r, In r (reactions d) ->
             ~ (Reaction.userId r = u /\ col r = Some k)) ->
  find (fun r => String.eqb (Reaction.userId r) u && column_is k (col r))
       (reactions d) = None.
Proof.
  intros Hnone. destruct (find _ _) as [r|] eqn:E; [|reflexivity].
  apply find_some in E. destruct E as [Hin Hr].
  apply andb_true_iff in Hr. destruct Hr as [H1 H2].
  apply String.eqb_eq in H1. unfold column_is in H2.
  destruct (col r) as [x|] eqn:Ec; [|discriminate].
  apply String.eqb_eq in H2. subst x.
  elim (Hnone r Hin). now split.
Qed.

Lemma fresh_find (l : list Reaction.t) (k : string) :
  (forall r, In r l -> Reaction.id r <> k) ->
  find (fun r => String.eqb (Reaction.id r) k) l = None
  /\ Table.deleteMany (fun r => String.eqb (Reaction.id r) k) l = l
  /\ forall f, Table.update Reaction.id k f l = l.
Proof.
  intros Hfresh. split; [|split].
  - apply (findUnique_none Reaction.id k l Hfresh).
  - apply filter_all. intros r Hr. apply negb_true_iff, String.eqb_neq.
    now apply Hfresh.
  - intros f. apply map_fixed. intros r Hr.
    destruct (String.eqb_spec (Reaction.id r) k) as [E|_]; [|reflexivity].
    elim (Hfresh r Hr E).
Qed.

Lemma set_core_same (d : Database) : set_core (core d) d = d.
Proof. now destruct d. Qed.

(** The client refuses the type that the handler passes. *)
Ltac refused_type :=
  match goal with
  | |- context [db.notification.type_ok ?x] =>
      change (db.notification.type_ok x) with false
  end.

(** X23. Reacting to a post is a toggle.  A first reaction of a user
    stores the reaction and nothing else; the call answers "added" on an
    own post and throws on a post of somebody else, where the
    notification of type "reaction" that it goes on to create is
    refused by the client.  Either way the same reaction again removes
    the row and gives back the database from before the first call, and
    a different reaction instead replaces the type in place. *)
Theorem addReaction_toggles (g : Defaults) (u p ty : string)
        (post : Post.t) (d : Database) :
  Table.findUnique Post.id p (posts (core d)) = Some post ->
  (forall r, In r (reactions d) ->
             ~ (Reaction.userId r = u /\ Reaction.postId r = Some p)) ->
  (forall r, In r (reactions d) -> Reaction.id r <> cuid g 0) ->
  let row :=
    Reaction.mk (cuid g 0) ty (now g) u (Some p) None None None None in
  let d1 := set_reactions (reactions d ++ [row]) d in
  postRouter.addReaction g u p ty d
  = (if String.eqb (Post.userId post) u then Ok "added"
     else Err PrismaClientValidationError, d1)
  /\ (forall g', postRouter.addReaction g' u p ty d1 = (Ok "removed", d))
  /\ (forall g' ty',
        ty' <> ty ->
        postRouter.addReaction g' u p ty' d1
        = (Ok "updated",
           set_reactions (reactions d ++ [Reaction.set_type ty' row]) d)).
Proof.
  intros Hpost Hnone Hfresh row d1.
  pose proof (no_reaction_find d Reaction.postId u p Hnone) as Hfind.
  destruct (fresh_find (reactions d) (cuid g 0) Hfresh)
    as (Hf1 & Hf2 & Hf3).
  assert (Hfind1 : find (fun r => String.eqb (Reaction.userId r) u
                                  && column_is p (Reaction.postId r))
                        (reactions d ++ [row]) = Some row).
  { rewrite (find_snoc _ _ _ Hfind). unfold row. cbn.
    now rewrite !String.eqb_refl. }
  assert (Hid1 : Table.findUnique Reaction.id (cuid g 0)
                                  (reactions d ++ [row]) = Some row).
  { unfold Table.findUnique. rewrite (find_snoc _ _ _ Hf1).
    unfold row. cbn. now rewrite String.eqb_refl. }
  split; [|split].
  - unfold postRouter.addReaction. unfold_tx. cbv beta iota zeta.
    rewrite set_core_same, Hpost, Hfind.
    destruct (String.eqb (Post.userId post) u); cbn [negb];
      [reflexivity|].
    refused_type. cbn [negb core set_core]. now rewrite set_core_same.
  - intros g'. unfold postRouter.addReaction. unfold_tx.
    cbv beta iota zeta. rewrite set_core_same.
    subst d1. cbn [core set_reactions reactions]. rewrite Hpost.
    cbv beta iota. cbn [core set_reactions reactions]. rewrite Hfind1.
    cbn [Reaction.type Reaction.id row]. rewrite String.eqb_refl.
    cbn [reactions set_reactions]. rewrite Hid1.
    unfold Table.deleteMany in *. rewrite filter_app, Hf2.
    cbn [filter row Reaction.id]. rewrite String.eqb_refl.
    cbn [negb]. rewrite app_nil_r. now destruct d.
  - intros g' ty' Hty. unfold postRouter.addReaction. unfold_tx.
    cbv beta iota zeta. rewrite set_core_same.
    subst d1. cbn [core set_reactions reactions]. rewrite Hpost.
    cbv beta iota. cbn [core set_reactions reactions]. rewrite Hfind1.
    cbn [Reaction.type Reaction.id row].
    assert (E : String.eqb ty ty' = false)
      by (apply String.eqb_neq; congruence).
    rewrite E. cbn [reactions set_reactions]. rewrite Hid1.
    unfold Table.update in *. rewrite map_app, Hf3.
    cbn [map row Reaction.id]. now rewrite String.eqb_refl.
Qed.

Lemma addReaction_toggles_witness :
  let d1 :=
    set_reactions
      (reactions sampleSocial
       ++ [Reaction.mk "c1" "wow" 1000 "u1" (Some "p1") None None None
                       None])
      sampleSocial in
  postRouter.addReaction sampleDefaults "u1" "p1" "wow" sampleSocial
  = (Err PrismaClientValidationError, d1)
  /\ postRouter.addReaction sampleDefaults "u1" "p1" "wow" d1
     = (Ok "removed", sampleSocial).
Proof.
  assert (H1 : Table.findUnique Post.id "p1" (posts (core sampleSocial))
               = Some samplePost) by reflexivity.
  assert (H2 : forall r, In r (reactions sampleSocial) ->
                 ~ (Reaction.userId r = "u1"
                    /\ Reaction.postId r = Some "p1")).
  { intros r [<-|[]] [_ H]. discriminate. }
  assert (H3 : forall r, In r (reactions sampleSocial) ->
                 Reaction.id r <> cuid sampleDefaults 0).
  { intros r [<-|[]]. discriminate. }
  destruct (addReaction_toggles sampleDefaults "u1" "p1" "wow" samplePost
              sampleSocial H1 H2 H3) as (Hrun & Hsame & _).
  split; [exact Hrun|exact (Hsame sampleDefaults)].
Defined.

(** X24. A comment on a missing post is refused and writes nothing.
    Otherwise the comment is appended to the comments and nothing else
    is written.  On an own post the call answers with the comment; on a
    post of somebody else it throws after the comment is stored, because
    the notification it goes on to create carries the type "comment",
    which is not a value of [NotificationType]: the owner is not
    notified. *)
Theorem comment_stores_and_notifies (g : Defaults) (u p content : string)
        (d : Database) :
  match Table.findUnique Post.id p (posts (core d)) with
  | None =>
      postRouter.comment g u p content d
      = (Err (TRPCError NOT_FOUND "Post not found"), d)
  | Some post =>
      let c := Comment.mk (cuid g 0) content (now g) (now g) p u in
      postRouter.comment g u p content d
      = (if String.eqb (Post.userId post) u then Ok c
         else Err PrismaClientValidationError,
         set_comments (comments d ++ [c]) d)
      /\ ~ In "comment" NotificationType
  end.
Proof.
  destruct (Table.findUnique Post.id p (posts (core d))) as [post|] eqn:E;
    unfold postRouter.comment; unfold_tx; cbv beta iota zeta;
    rewrite set_core_same, E; [|reflexivity].
  split; [|cbn; intuition discriminate].
  destruct (String.eqb (Post.userId post) u); cbn [negb];
    [reflexivity|].
  refused_type. cbn [negb core set_core]. now rewrite set_core_same.
Qed.

Lemma refers_keep {A : Type} (key : A -> string) (gone : A -> bool)
      (t : list A) (ref : option string) :
  refers key t ref = true ->
  (forall x, In x t -> column_is (key x) ref = true -> gone x = false) ->
  refers key (db.cascade.keep gone t) ref = true.
Proof.
  destruct ref as [k|]; [|reflexivity]. cbn [refers column_is].
  intros H Hkept. apply existsb_exists in H. destruct H as (x & Hx & Hk).
  apply existsb_exists. exists x. split; [|exact Hk].
  apply filter_In. split; [exact Hx|].
  apply negb_true_iff, Hkept; [exact Hx|].
  apply String.eqb_eq in Hk. subst k. apply String.eqb_refl.
Qed.

Lemma forallb_keep {A : Type} (f f' gone : A -> bool) (l : list A) :
  (forall x, In x l -> f x = true -> gone x = false -> f' x = true) ->
  forallb f l = true ->
  forallb f' (db.cascade.keep gone l) = true.
Proof.
  intros Hstep Hall. apply forallb_forall. intros x Hx.
  apply filter_In in Hx. destruct Hx as [Hx Hg].
  apply negb_true_iff in Hg.
  apply Hstep; [exact Hx| |exact Hg].
  now apply (proj1 (forallb_forall f l) Hall).
Qed.

Lemma targets_post (k : string) (d : Database)
      (po co st re : option string) :
  targets d po co st re = true ->
  db.cascade.onPost k
    (filter (fun c => String.eqb (Comment.postId c) k) (comments d))
    po co = false ->
  targets (db.cascade.post k d) po co st re = true.
Proof.
  unfold targets, db.cascade.post, db.cascade.onPost.
  cbn [core posts comments stories reels].
  intros H Hkept. apply orb_false_iff in Hkept. destruct Hkept as [Hp Hc].
  apply andb_true_iff in H. destruct H as [H Hre].
  apply andb_true_iff in H. destruct H as [H Hst].
  apply andb_true_iff in H. destruct H as [Hpo Hco].
  rewrite Hre, Hst, !andb_true_r. apply andb_true_iff. split.
  - apply refers_keep; [exact Hpo|]. intros x _ Hx.
    destruct (String.eqb_spec (Post.id x) k) as [E|_]; [|reflexivity].
    subst k. congruence.
  - apply refers_keep; [exact Hco|]. intros x Hin Hx.
    destruct (String.eqb (Comment.postId x) k) eqn:E; [|reflexivity].
    assert (Hex : existsb (fun c => column_is (Comment.id c) co)
                    (filter (fun c => String.eqb (Comment.postId c) k)
                            (comments d)) = true).
    { apply existsb_exists. exists x. split; [|exact Hx].
      apply filter_In. now split. }
    congruence.
Qed.

Lemma targets_story (k : string) (d : Database)
      (po co st re : option string) :
  targets d po co st re = true ->
  column_is k st = false ->
  targets (db.cascade.story k d) po co st re = true.
Proof.
  unfold targets, db.cascade.story.
  cbn [core posts comments stories reels].
  intros H Hkept.
  apply andb_true_iff in H. destruct H as [H Hre].
  apply andb_true_iff in H. destruct H as [H Hst].
  rewrite H, Hre, andb_true_r. cbn [andb].
  apply refers_keep; [exact Hst|]. intros x _ Hx.
  destruct (String.eqb_spec (Story.id x) k) as [E|_]; [|reflexivity].
  subst k. congruence.
Qed.

Lemma targets_reel (k : string) (d : Database)
      (po co st re : option string) :
  targets d po co st re = true ->
  column_is k re = false ->
  targets (db.cascade.reel k d) po co st re = true.
Proof.
  unfold targets, db.cascade.reel.
  cbn [core posts comments stories reels set_notifications].
  intros H Hkept.
  apply andb_true_iff in H. destruct H as [H Hre].
  rewrite H. cbn [andb].
  apply refers_keep; [exact Hre|]. intros x _ Hx.
  destruct (String.eqb_spec (Reel.id x) k) as [E|_]; [|reflexivity].
  subst k. congruence.
Qed.

Lemma forallb_same {A : Type} (f f' : A -> bool) (l : list A) :
  (forall x, f x = true -> f' x = true) ->
  forallb f l = true -> forallb f' l = true.
Proof.
  intros Hstep Hall. apply forallb_forall. intros x Hx.
  apply Hstep. now apply (proj1 (forallb_forall f l) Hall).
Qed.

Ltac split_integrity H :=
  unfold integrity in H;
  apply andb_true_iff in H; destruct H as [H ?Hnotes];
  apply andb_true_iff in H; destruct H as [H ?Hreacts];
  apply andb_true_iff in H; destruct H as [H ?Hviews];
  apply andb_true_iff in H; destruct H as [?Hcomments ?Hlikes].

Lemma onPost_no_comment (k : string) (cs : list Comment.t)
      (po : option string) :
  db.cascade.onPost k cs po None = column_is k po.
Proof.
  unfold db.cascade.onPost.
  replace (existsb _ cs) with false; [apply orb_false_r|].
  induction cs as [|c cs IH]; [reflexivity|exact IH].
Qed.

Lemma cascade_post_integrity (k : string) (d : Database) :
  integrity d = true -> integrity (db.cascade.post k d) = true.
Proof.
  intros H. split_integrity H. unfold integrity.
  repeat (apply andb_true_iff; split).
  - cbn [comments db.cascade.post].
    eapply forallb_keep; [|exact Hcomments].
    intros c _ Hc Hg. apply targets_post; [exact Hc|].
    rewrite onPost_no_comment. exact Hg.
  - cbn [core likes db.cascade.post].
    eapply forallb_keep; [|exact Hlikes].
    intros l _ Hl Hg. now apply targets_post.
  - cbn [core storyViews db.cascade.post].
    eapply forallb_same; [|exact Hviews].
    intros v Hv. apply targets_post; [exact Hv|].
    now rewrite onPost_no_comment.
  - cbn [reactions db.cascade.post].
    eapply forallb_keep; [|exact Hreacts].
    intros r _ Hr Hg. now apply targets_post.
  - cbn [core notifications db.cascade.post].
    eapply forallb_keep; [|exact Hnotes].
    intros n _ Hn Hg. now apply targets_post.
Qed.

Lemma cascade_story_integrity (k : string) (d : Database) :
  integrity d = true -> integrity (db.cascade.story k d) = true.
Proof.
  intros H. split_integrity H. unfold integrity.
  repeat (apply andb_true_iff; split).
  - cbn [comments db.cascade.story].
    eapply forallb_same; [|exact Hcomments].
    intros c Hc. now apply targets_story.
  - cbn [core likes db.cascade.story].
    eapply forallb_same; [|exact Hlikes].
    intros l Hl. now apply targets_story.
  - cbn [core storyViews db.cascade.story].
    eapply forallb_keep; [|exact Hviews].
    intros v _ Hv Hg. apply targets_story; [exact Hv|].
    cbn [column_is]. exact Hg.
  - cbn [reactions db.cascade.story].
    eapply forallb_keep; [|exact Hreacts].
    intros r _ Hr Hg. now apply targets_story.
  - cbn [core notifications db.cascade.story].
    eapply forallb_keep; [|exact Hnotes].
    intros n _ Hn Hg. now apply targets_story.
Qed.

Lemma cascade_reel_integrity (k : string) (d : Database) :
  integrity d = true -> integrity (db.cascade.reel k d) = true.
Proof.
  intros H. split_integrity H. unfold integrity.
  repeat (apply andb_true_iff; split).
  - cbn [comments db.cascade.reel].
    eapply forallb_same; [|exact Hcomments].
    intros c Hc. now apply targets_reel.
  - cbn [core likes db.cascade.reel set_notifications].
    eapply forallb_same; [|exact Hlikes].
    intros l Hl. now apply targets_reel.
  - cbn [core storyViews db.cascade.reel set_notifications].
    eapply forallb_same; [|exact Hviews].
    intros v Hv. now apply targets_reel.
  - cbn [reactions db.cascade.reel].
    eapply forallb_keep; [|exact Hreacts].
    intros r _ Hr Hg. now apply targets_reel.
  - cbn [core notifications db.cascade.reel set_notifications].
    eapply forallb_keep; [|exact Hnotes].
    intros n _ Hn Hg. now apply targets_reel.
Qed.

Lemma post_delete_run (u k : string) (d : Database) :
  postRouter.delete u k d
  = match Table.findUnique Post.id k (posts (core d)) with
    | None => (Err (TRPCError NOT_FOUND "Post not found"), d)
    | Some p =>
        if String.eqb (Post.userId p) u then (Ok true, db.cascade.post k d)
        else (Err (TRPCError FORBIDDEN
                     "You are not authorized to delete this post"), d)
    end.
Proof.
  unfold postRouter.delete, db.post_delete. unfold_tx.
  cbv beta iota zeta. rewrite set_core_same.
  destruct (Table.findUnique Post.id k (posts (core d))) as [p|] eqn:E;
    [|reflexivity].
  destruct (String.eqb (Post.userId p) u); cbn [negb]; [|reflexivity].
  now rewrite E.
Qed.

Lemma story_delete_run (u k : string) (d : Database) :
  storyRouter.delete u k d
  = match Table.findUnique Story.id k (stories (core d)) with
    | None => (Err (TRPCError NOT_FOUND "Story not found"), d)
    | Some st =>
        if String.eqb (Story.userId st) u
        then (Ok true, db.cascade.story k d)
        else (Err (TRPCError FORBIDDEN
                     "You are not authorized to delete this story"), d)
    end.
Proof.
  unfold storyRouter.delete, db.story_delete. unfold_tx.
  cbv beta iota zeta. rewrite set_core_same.
  destruct (Table.findUnique Story.id k (stories (core d))) as [p|] eqn:E;
    [|reflexivity].
  destruct (String.eqb (Story.userId p) u); cbn [negb]; [|reflexivity].
  now rewrite E.
Qed.

Lemma reel_delete_run (u k : string) (d : Database) :
  reelRouter.delete u k d
  = match Table.findUnique Reel.id k (reels d) with
    | None => (Err (TRPCError NOT_FOUND "Reel not found"), d)
    | Some rl =>
        if String.eqb (Reel.userId rl) u then (Ok true, db.cascade.reel k d)
        else (Err (TRPCError FORBIDDEN
                     "You are not authorized to delete this reel"), d)
    end.
Proof.
  unfold reelRouter.delete, db.reel_delete. unfold_tx.
  cbv beta iota zeta.
  destruct (Table.findUnique Reel.id k (reels d)) as [p|] eqn:E;
    [|reflexivity].
  destruct (String.eqb (Reel.userId p) u); cbn [negb]; [|reflexivity].
  now rewrite E.
Qed.

Lemma keep_gone {A : Type} (key : A -> string) (k : string) (t : list A) :
  Table.findUnique key k
    (db.cascade.keep (fun x => String.eqb (key x) k) t) = None.
Proof.
  apply findUnique_none. intros x Hx. apply filter_In in Hx.
  destruct Hx as [_ Hx]. apply negb_true_iff in Hx.
  now apply String.eqb_neq.
Qed.

(** X25. Only the owner deletes a post, a story or a reel.  Each of the
    three [delete] handlers succeeds exactly when the row exists and
    belongs to the caller; when it does not succeed the database is
    left as it was, and after a success the row is gone, so that any
    further [delete] of it answers NOT_FOUND. *)
Theorem delete_owner_only (u k : string) (d : Database) :
  ((fst (postRouter.delete u k d) = Ok true
    <-> exists p, Table.findUnique Post.id k (posts (core d)) = Some p
                  /\ Post.userId p = u)
   /\ (fst (postRouter.delete u k d) <> Ok true
       -> snd (postRouter.delete u k d) = d)
   /\ (fst (postRouter.delete u k d) = Ok true
       -> forall u',
            fst (postRouter.delete u' k (snd (postRouter.delete u k d)))
            = Err (TRPCError NOT_FOUND "Post not found")))
  /\ ((fst (storyRouter.delete u k d) = Ok true
       <-> exists st,
             Table.findUnique Story.id k (stories (core d)) = Some st
             /\ Story.userId st = u)
      /\ (fst (storyRouter.delete u k d) <> Ok true
          -> snd (storyRouter.delete u k d) = d)
      /\ (fst (storyRouter.delete u k d) = Ok true
          -> forall u',
               fst (storyRouter.delete u' k
                      (snd (storyRouter.delete u k d)))
               = Err (TRPCError NOT_FOUND "Story not found")))
  /\ ((fst (reelRouter.delete u k d) = Ok true
       <-> exists rl, Table.findUnique Reel.id k (reels d) = Some rl
                      /\ Reel.userId rl = u)
      /\ (fst (reelRouter.delete u k d) <> Ok true
          -> snd (reelRouter.delete u k d) = d)
      /\ (fst (reelRouter.delete u k d) = Ok true
          -> forall u',
               fst (reelRouter.delete u' k (snd (reelRouter.delete u k d)))
               = Err (TRPCError NOT_FOUND "Reel not found"))).
Proof.
  split; [|split].
  - rewrite (post_delete_run u k d).
    destruct (Table.findUnique Post.id k (posts (core d))) as [p|] eqn:E.
    + destruct (String.eqb_spec (Post.userId p) u) as [Hu|Hu];
        cbn [fst snd].
      * split; [split; [intros _; now exists p|reflexivity]|].
        split; [congruence|]. intros _ u'. rewrite post_delete_run.
        unfold db.cascade.post at 1. cbn [core posts].
        now rewrite keep_gone.
      * split; [split; [discriminate|]|].
        { intros (p' & Hp' & Hown). congruence. }
        split; [reflexivity|discriminate].
    + cbn [fst snd]. split; [split; [discriminate|]|].
      { intros (p' & Hp' & _). discriminate. }
      split; [reflexivity|discriminate].
  - rewrite (story_delete_run u k d).
    destruct (Table.findUnique Story.id k (stories (core d)))
      as [p|] eqn:E.
    + destruct (String.eqb_spec (Story.userId p) u) as [Hu|Hu];
        cbn [fst snd].
      * split; [split; [intros _; now exists p|reflexivity]|].
        split; [congruence|]. intros _ u'. rewrite story_delete_run.
        unfold db.cascade.story at 1. cbn [core stories].
        now rewrite keep_gone.
      * split; [split; [discriminate|]|].
        { intros (p' & Hp' & Hown). congruence. }
        split; [reflexivity|discriminate].
    + cbn [fst snd]. split; [split; [discriminate|]|].
      { intros (p' & Hp' & _). discriminate. }
      split; [reflexivity|discriminate].
  - rewrite (reel_delete_run u k d).
    destruct (Table.findUnique Reel.id k (reels d)) as [p|] eqn:E.
    + destruct (String.eqb_spec (Reel.userId p) u) as [Hu|Hu];
        cbn [fst snd].
      * split; [split; [intros _; now exists p|reflexivity]|].
        split; [congruence|]. intros _ u'. rewrite reel_delete_run.
        unfold db.cascade.reel at 1. cbn [reels].
        now rewrite keep_gone.
      * split; [split; [discriminate|]|].
        { intros (p' & Hp' & Hown). congruence. }
        split; [reflexivity|discriminate].
    + cbn [fst snd]. split; [split; [discriminate|]|].
      { intros (p' & Hp' & _). discriminate. }
      split; [reflexivity|discriminate].
Qed.

(** X26. Deleting keeps the references sound.  In a database where no
    comment, like, story view, reaction or notification refers to a
    missing post, comment, story or reel, this is still so after a
    [delete] of a post, a story or a reel, whatever its answer: the rows
    that hang on the deleted row, and for a post the rows that hang on
    its comments, go with it. *)
Theorem delete_keeps_integrity (u k : string) (d : Database) :
  integrity d = true ->
  integrity (snd (postRouter.delete u k d)) = true
  /\ integrity (snd (storyRouter.delete u k d)) = true
  /\ integrity (snd (reelRouter.delete u k d)) = true.
Proof.
  intros H. split; [|split].
  - rewrite post_delete_run.
    destruct (Table.findUnique Post.id k (posts (core d))) as [p|];
      [destruct (String.eqb (Post.userId p) u)|]; cbn [snd];
      try exact H.
    now apply cascade_post_integrity.
  - rewrite story_delete_run.
    destruct (Table.findUnique Story.id k (stories (core d))) as [p|];
      [destruct (String.eqb (Story.userId p) u)|]; cbn [snd];
      try exact H.
    now apply cascade_story_integrity.
  - rewrite reel_delete_run.
    destruct (Table.findUnique Reel.id k (reels d)) as [p|];
      [destruct (String.eqb (Reel.userId p) u)|]; cbn [snd];
      try exact H.
    now apply cascade_reel_integrity.
Qed.

Lemma delete_keeps_integrity_witness :
  integrity (snd (postRouter.delete "u2" "p1" sampleSocial)) = true
  /\ integrity (snd (storyRouter.delete "u2" "s1" sampleSocial)) = true
  /\ integrity (snd (reelRouter.delete "u2" "reel1" sampleSocial)) = true.
Proof.
  split; [|split].
  - apply (delete_keeps_integrity "u2" "p1" sampleSocial). reflexivity.
  - apply (delete_keeps_integrity "u2" "s1" sampleSocial). reflexivity.
  - apply (delete_keeps_integrity "u2" "reel1" sampleSocial). reflexivity.
Defined.

Lemma delete_owner_only_witness :
  fst (postRouter.delete "u2" "p1" sampleSocial) = Ok true
  /\ fst (postRouter.delete "u2" "p1"
            (snd (postRouter.delete "u2" "p1" sampleSocial)))
     = Err (TRPCError NOT_FOUND "Post not found")
  /\ snd (storyRouter.delete "u1" "s1" sampleSocial) = sampleSocial.
Proof.
  destruct (delete_owner_only "u2" "p1" sampleSocial)
    as [(Hiff & _ & Hgone) _].
  assert (Hok : fst (postRouter.delete "u2" "p1" sampleSocial) = Ok true).
  { apply (proj2 Hiff). exists samplePost. split; reflexivity. }
  split; [exact Hok|]. split; [exact (Hgone Hok "u2")|].
  destruct (delete_owner_only "u1" "s1" sampleSocial)
    as (_ & (_ & Hsame & _) & _).
  apply Hsame. vm_compute. discriminate.
Defined.

Lemma some_filtered {A : Type} (f : A -> bool) (l : list A) :
  negb (length (filter f l) =? 0)%nat = true
  <-> exists x, In x l /\ f x = true.
Proof.
  split.
  - destruct (filter f l) as [|x l'] eqn:E; [discriminate|].
    intros _. exists x. apply filter_In. rewrite E. now left.
  - intros (x & Hx & Hf).
    assert (Hin : In x (filter f l)) by (apply filter_In; now split).
    destruct (filter f l); [destruct Hin|reflexivity].
Qed.

(** X27. Who may see the stories of a user.  Without a session the
    answer is UNAUTHORIZED; a logged-in user who is not the owner and
    does not follow the owner gets FORBIDDEN; the owner and the
    followers get exactly the stories of that user that have not
    expired, newest first, each flagged as viewed precisely when the
    caller has a view of it on record.  The database is not changed. *)
Theorem getUserStories_access (g : Defaults) (userId : string)
        (d : Database) :
  storyRouter.getUserStories g None userId d
  = (Err (TRPCError UNAUTHORIZED "You must be logged in to view stories"),
     d)
  /\ (forall c,
        c <> userId -> truthy c = true ->
        (forall f, In f (follows d) -> edge c userId f = false) ->
        storyRouter.getUserStories g (Some c) userId d
        = (Err (TRPCError FORBIDDEN
                  "You must follow this user to view their stories"), d))
  /\ (forall c,
        truthy c = true ->
        c = userId \/ (exists f, In f (follows d)
                                 /\ edge c userId f = true) ->
        exists out,
          storyRouter.getUserStories g (Some c) userId d = (Ok out, d)
          /\ (forall st,
                In st (map storyRouter.UserStory.story out)
                <-> In st (stories (core d))
                    /\ Story.userId st = userId
                    /\ (Story.expiresAt st > now g)%Z)
          /\ StronglySorted (Table.newerFirst Story.createdAt)
                            (map storyRouter.UserStory.story out)
          /\ (forall e,
                In e out ->
                storyRouter.UserStory.isViewed e = true
                <-> exists v,
                      In v (storyViews (core d))
                      /\ StoryView.storyId v
                         = Story.id (storyRouter.UserStory.story e)
                      /\ StoryView.viewerId v = c)).
Proof.
  split; [reflexivity|]. split.
  - intros c Hc Htruthy Hnone.
    unfold storyRouter.getUserStories, db.follow.findFirst. unfold_tx.
    cbv beta iota zeta.
    assert (E : String.eqb userId c = false)
      by (apply String.eqb_neq; congruence).
    rewrite E, Htruthy. cbn [negb].
    destruct (find _ (follows d)) as [f|] eqn:Ef; [|reflexivity].
    apply find_some in Ef. destruct Ef as [Hin Hf].
    pose proof (Hnone f Hin) as Hno. unfold edge in Hno. congruence.
  - intros c Htruthy Hmay.
    assert (Hrun :
      storyRouter.getUserStories g (Some c) userId d
      = (Ok (map (fun st =>
                    storyRouter.UserStory.mk st
                      (negb (length (db.story.viewsBy c st (core d))
                             =? 0)%nat))
                 (Table.orderByDesc Story.createdAt
                    (filter
                       (fun st =>
                          String.eqb (Story.userId st) userId
                          && (Story.expiresAt st >? now g)%Z)
                       (stories (core d))))), d)).
    { unfold storyRouter.getUserStories, db.follow.findFirst,
        db.story.findMany. unfold_tx. cbv beta iota zeta.
      rewrite Htruthy.
      destruct (String.eqb userId c) eqn:E; cbn [negb].
      - cbn [core]. now rewrite !set_core_same.
      - destruct Hmay as [->|(f & Hin & Hf)];
          [now rewrite String.eqb_refl in E|].
        destruct (find_In_some _ _ f Hin Hf) as [y Hy].
        unfold edge in Hy. rewrite Hy. cbn [core].
        now rewrite !set_core_same. }
    eexists. split; [exact Hrun|].
    rewrite map_map. cbn [storyRouter.UserStory.story]. rewrite map_id.
    split; [|split].
    + intros st. split.
      * intros H.
        apply (Permutation_in _ (orderByDesc_perm Story.createdAt _)) in H.
        apply filter_In in H. destruct H as [Hin Hw].
        apply andb_true_iff in Hw. destruct Hw as [Hu He].
        apply String.eqb_eq in Hu. apply Z.gtb_lt in He.
        split; [exact Hin|]. split; [exact Hu|lia].
      * intros (Hin & Hu & He).
        apply (Permutation_in _
                 (Permutation_sym (orderByDesc_perm Story.createdAt _))).
        apply filter_In. split; [exact Hin|].
        apply andb_true_iff. split; [now apply String.eqb_eq|].
        apply Z.gtb_lt. lia.
    + apply orderByDesc_sorted.
    + intros e He. apply in_map_iff in He. destruct He as (st & <- & _).
      cbn [storyRouter.UserStory.isViewed storyRouter.UserStory.story].
      unfold db.story.viewsBy. rewrite some_filtered. split.
      * intros (v & Hv & Hw). exists v.
        apply andb_true_iff in Hw. destruct Hw as [H1 H2].
        apply String.eqb_eq in H1, H2. now repeat split.
      * intros (v & Hv & H1 & H2). exists v. split; [exact Hv|].
        apply andb_true_iff. now rewrite !String.eqb_eq.
Qed.

Lemma getUserStories_access_witness :
  storyRouter.getUserStories sampleDefaults (Some "u9") "u2" sampleSocial
  = (Err (TRPCError FORBIDDEN
            "You must follow this user to view their stories"),
     sampleSocial)
  /\ exists out,
       storyRouter.getUserStories sampleDefaults (Some "u1") "u2"
                                  sampleSocial
       = (Ok out, sampleSocial)
       /\ StronglySorted (Table.newerFirst Story.createdAt)
                         (map storyRouter.UserStory.story out).
Proof.
  destruct (getUserStories_access sampleDefaults "u2" sampleSocial)
    as (_ & Hno & Hyes).
  split.
  - apply (Hno "u9"); [discriminate|reflexivity|].
    intros f [<-|[]]. reflexivity.
  - destruct (Hyes "u1" eq_refl) as (out & Hrun & _ & Hsorted & _).
    + right. exists (Follow.mk "f1" "u1" "u2" 5).
      split; [now left|reflexivity].
    + exists out. split; [exact Hrun|exact Hsorted].
Defined.

Lemma addMembers_cases (g : Defaults) (gid : string) (us : list User.t)
      (ms : list (string * string)) :
  forall (i : nat) (t : list GroupMember.t),
    match db.group.addMembers g i gid us ms t with
    | Ok t' =>
        NoDup (map fst ms)
        /\ (forall u gm,
              In u (map fst ms) -> In gm t ->
              ~ (GroupMember.userId gm = u /\ GroupMember.groupId gm = gid))
        /\ (forall u, In u (map fst ms) ->
                      refers User.id us (Some u) = true)
        /\ exists new,
             t' = t ++ new
             /\ map (fun gm => (GroupMember.userId gm, GroupMember.role gm))
                    new = ms
             /\ Forall (fun gm => GroupMember.groupId gm = gid) new
    | Err e =>
        (e = PrismaClientKnownRequestError "P2002"
         /\ (~ NoDup (map fst ms)
             \/ exists u gm,
                  In u (map fst ms) /\ In gm t
                  /\ GroupMember.userId gm = u
                  /\ GroupMember.groupId gm = gid))
        \/ (e = PrismaClientKnownRequestError "P2003"
            /\ exists u, In u (map fst ms)
                         /\ refers User.id us (Some u) = false)
    end.
Proof.
  induction ms as [|[u role] ms IH]; intros i t; cbn [db.group.addMembers].
  - split; [constructor|]. split; [intros u gm []|].
    split; [intros u []|].
    exists []. split; [now rewrite app_nil_r|]. split; [reflexivity|].
    constructor.
  - destruct (existsb _ t) eqn:E.
    { left. split; [reflexivity|]. right.
      apply existsb_exists in E. destruct E as (gm & Hgm & Hw).
      apply andb_true_iff in Hw. destruct Hw as [H1 H2].
      apply String.eqb_eq in H1, H2.
      exists u, gm. cbn [map fst]. repeat split; auto. now left. }
    destruct (refers User.id us (Some u)) eqn:Eu; cbn [negb].
    2:{ right. split; [reflexivity|]. exists u. split; [now left|exact Eu]. }
    assert (Hfree : forall gm, In gm t ->
              ~ (GroupMember.userId gm = u
                 /\ GroupMember.groupId gm = gid)).
    { intros gm Hgm [H1 H2].
      assert (Hex : existsb
                (fun gm => String.eqb (GroupMember.userId gm) u
                           && String.eqb (GroupMember.groupId gm) gid) t
                    = true).
      { apply existsb_exists. exists gm. split; [exact Hgm|].
        apply andb_true_iff. now rewrite !String.eqb_eq. }
      congruence. }
    unfold Table.create.
    specialize (IH (S i)
                   (t ++ [GroupMember.mk (cuid g i) u gid role (now g)])).
    destruct (db.group.addMembers g (S i) gid us ms _) as [t'|e].
    + destruct IH as (Hnd & Hno & Hus & new & -> & Hmap & Hall).
      cbn [map fst]. split; [|split; [|split]].
      * constructor; [|exact Hnd]. intros Hin.
        apply (Hno u (GroupMember.mk (cuid g i) u gid role (now g)) Hin).
        -- apply in_or_app. right. now left.
        -- now split.
      * intros u' gm [<-|Hu'] Hgm; [now apply Hfree|].
        apply (Hno u' gm Hu'). apply in_or_app. now left.
      * intros u' [<-|Hu']; [exact Eu|now apply Hus].
      * exists (GroupMember.mk (cuid g i) u gid role (now g) :: new).
        split; [now rewrite <- app_assoc|].
        split; [cbn [map GroupMember.userId GroupMember.role];
                now rewrite Hmap|].
        constructor; [reflexivity|exact Hall].
    + cbn [map fst].
      destruct IH as [[-> Hbad]|[-> (u' & Hu' & Hmiss)]].
      * left. split; [reflexivity|].
        destruct Hbad as [Hdup|(u' & gm & Hu' & Hgm & H1 & H2)].
        -- left. intros Hnd. inversion Hnd. contradiction.
        -- apply in_app_or in Hgm. destruct Hgm as [Hgm|[<-|[]]].
           ++ right. exists u', gm. repeat split; auto. now right.
           ++ left. intros Hnd. inversion Hnd as [|? ? Hnotin _].
              cbn [GroupMember.userId] in H1. subst u'. contradiction.
      * right. split; [reflexivity|]. exists u'. split; [now right|exact Hmiss].
Qed.

(** X29. [createGroup] when the store draws a fresh group identifier.
    If the caller and the listed members are pairwise distinct users,
    the group is stored with one membership row for each of them, the
    caller as "admin" and the others as "member", in the order given,
    and nothing else is written.  If they are users but the list names
    the caller or names somebody twice, the create is refused with
    P2002; if they are pairwise distinct but one of them has no user
    row, it is refused with P2003.  A refused create writes nothing,
    not even the group. *)
Theorem createGroup_members (g : Defaults) (creator name : string)
        (description imageUrl : option string) (memberIds : list string)
        (d : Database) :
  (forall gm, In gm (groupMembers (core d)) ->
              GroupMember.groupId gm <> cuid g 0) ->
  let group :=
    Group.mk (cuid g 0) name description imageUrl (now g) (now g) in
  let run :=
    messageRouter.createGroup g creator name description imageUrl
                              memberIds d in
  let users_ok :=
    forallb (fun u => refers User.id (users (core d)) (Some u))
            (creator :: memberIds) in
  (NoDup (creator :: memberIds) -> users_ok = true ->
   exists new,
     run = (Ok group,
            set_groups (groups d ++ [group])
              (set_core
                 (set_groupMembers (groupMembers (core d) ++ new) (core d))
                 d))
     /\ map (fun gm => (GroupMember.userId gm, GroupMember.role gm)) new
        = (creator, "admin") :: map (fun m => (m, "member")) memberIds
     /\ Forall (fun gm => GroupMember.groupId gm = cuid g 0) new)
  /\ (~ NoDup (creator :: memberIds) -> users_ok = true ->
      run = (Err (PrismaClientKnownRequestError "P2002"), d))
  /\ (NoDup (creator :: memberIds) -> users_ok = false ->
      run = (Err (PrismaClientKnownRequestError "P2003"), d))
  /\ (forall e, fst run = Err e -> snd run = d).
Proof.
  intros Hfresh group run users_ok.
  assert (Hfst : map fst ((creator, "admin")
                            :: map (fun m : string => (m, "member"))
                                   memberIds)
                 = creator :: memberIds).
  { cbn [map fst]. f_equal. rewrite map_map. cbn [fst]. apply map_id. }
  assert (Hall : users_ok = true
                 <-> forall u, In u (creator :: memberIds) ->
                       refers User.id (users (core d)) (Some u) = true)
    by apply forallb_forall.
  pose proof (addMembers_cases g (cuid g 0) (users (core d))
                ((creator, "admin")
                   :: map (fun m => (m, "member")) memberIds)
                1 (groupMembers (core d))) as Hcases.
  subst run. unfold messageRouter.createGroup, db.group.create.
  destruct (db.group.addMembers g 1 (cuid g 0) _ _ (groupMembers (core d)))
    as [t'|e].
  - destruct Hcases as (Hnd & _ & Hus & new & -> & Hmap & Hnew).
    rewrite Hfst in Hnd, Hus. apply Hall in Hus.
    split; [|split; [|split]].
    + intros _ _. exists new. split; [reflexivity|].
      split; [exact Hmap|exact Hnew].
    + intros Hdup. contradiction.
    + intros _ Hno. congruence.
    + discriminate.
  - rewrite Hfst in Hcases. cbn [fst snd].
    split; [|split; [|split]].
    + intros Hnd Hok.
      destruct Hcases as [[_ [Hdup|(u & gm & _ & Hgm & _ & Hgid)]]
                         |[_ (u & Hu & Hmiss)]].
      * contradiction.
      * elim (Hfresh gm Hgm Hgid).
      * rewrite (proj1 Hall Hok u Hu) in Hmiss. discriminate.
    + intros _ Hok.
      destruct Hcases as [[-> _]|[_ (u & Hu & Hmiss)]]; [reflexivity|].
      rewrite (proj1 Hall Hok u Hu) in Hmiss. discriminate.
    + intros Hnd _.
      destruct Hcases as [[_ [Hdup|(u & gm & _ & Hgm & _ & Hgid)]]
                         |[-> _]].
      * contradiction.
      * elim (Hfresh gm Hgm Hgid).
      * reflexivity.
    + reflexivity.
Qed.

Lemma createGroup_members_witness :
  (exists new,
     messageRouter.createGroup sampleDefaults "u1" "team" None None
                               ["u2"] sampleSocial
     = (Ok (Group.mk "c1" "team" None None 1000 1000),
        set_groups [Group.mk "c1" "team" None None 1000 1000]
          (set_core (set_groupMembers new (core sampleSocial))
                    sampleSocial))
     /\ map (fun gm => (GroupMember.userId gm, GroupMember.role gm)) new
        = [("u1", "admin"); ("u2", "member")])
  /\ messageRouter.createGroup sampleDefaults "u1" "team" None None
                               ["u2"; "u1"] sampleSocial
     = (Err (PrismaClientKnownRequestError "P2002"), sampleSocial)
  /\ messageRouter.createGroup sampleDefaults "u1" "team" None None
                               ["u9"] sampleSocial
     = (Err (PrismaClientKnownRequestError "P2003"), sampleSocial).
Proof.
  assert (Hfresh : forall gm, In gm (groupMembers (core sampleSocial)) ->
                     GroupMember.groupId gm <> cuid sampleDefaults 0)
    by (intros gm []).
  split; [|split].
  - destruct (createGroup_members sampleDefaults "u1" "team" None None
                ["u2"] sampleSocial Hfresh) as [Hok _].
    destruct Hok as (new & Hrun & Hmap & _).
    + constructor; [intros [H|[]]; discriminate|].
      constructor; [intros []|constructor].
    + reflexivity.
    + exists new. split; [exact Hrun|exact Hmap].
  - apply (createGroup_members sampleDefaults "u1" "team" None None
             ["u2"; "u1"] sampleSocial Hfresh); [|reflexivity].
    intros Hnd. inversion Hnd as [|? ? Hnotin _].
    apply Hnotin. right. now left.
  - apply (createGroup_members sampleDefaults "u1" "team" None None
             ["u9"] sampleSocial Hfresh); [|reflexivity].
    constructor; [intros [H|[]]; discriminate|].
    constructor; [intros []|constructor].
Defined.

Lemma Forall2_map_self {A B : Type} (P : A -> B -> Prop) (f : A -> B)
      (l : list A) :
  (forall x, In x l -> P x (f x)) -> Forall2 P l (map f l).
Proof.
  induction l as [|x l IH]; intros H; cbn [map]; constructor.
  - apply H. now left.
  - apply IH. intros y Hy. apply H. now right.
Qed.

(** X28. Only the owner of a story sees who viewed it.  [getViewers]
    answers NOT_FOUND for a missing story and FORBIDDEN for anybody but
    its owner.  The owner gets one entry for each view of the story,
    latest view first, with the viewer's user row and the time of the
    view; the entry carries a reaction type only when that viewer has a
    reaction on this story, and none only when the viewer has no
    reaction on it.  The database is not changed. *)
Theorem getViewers_owner_only (u k : string) (d : Database) :
  match Table.findUnique Story.id k (stories (core d)) with
  | None =>
      storyRouter.getViewers u k d
      = (Err (TRPCError NOT_FOUND "Story not found"), d)
  | Some st =>
      if String.eqb (Story.userId st) u then
        exists out views,
          storyRouter.getViewers u k d = (Ok out, d)
          /\ Permutation views
               (filter (fun v => String.eqb (StoryView.storyId v) k)
                       (storyViews (core d)))
          /\ StronglySorted (Table.newerFirst StoryView.viewedAt) views
          /\ Forall2
               (fun view e =>
                  storyRouter.Viewer.viewer e
                  = Table.findUnique User.id (StoryView.viewerId view)
                                     (users (core d))
                  /\ storyRouter.Viewer.viewedAt e
                     = StoryView.viewedAt view
                  /\ (forall ty,
                        storyRouter.Viewer.reaction e = Some ty ->
                        exists r,
                          In r (reactions d)
                          /\ Reaction.userId r = StoryView.viewerId view
                          /\ Reaction.storyId r = Some k
                          /\ Reaction.type r = ty)
                  /\ (storyRouter.Viewer.reaction e = None ->
                      forall r,
                        In r (reactions d) ->
                        ~ (Reaction.userId r = StoryView.viewerId view
                           /\ Reaction.storyId r = Some k)))
               views out
      else
        storyRouter.getViewers u k d
        = (Err (TRPCError FORBIDDEN
                  "You are not authorized to view this information"), d)
  end.
Proof.
  unfold storyRouter.getViewers, db.storyView.findMany. unfold_tx.
  cbv beta iota zeta. rewrite !set_core_same.
  destruct (Table.findUnique Story.id k (stories (core d))) as [st|];
    [|reflexivity].
  destruct (String.eqb (Story.userId st) u); cbn [negb]; [|reflexivity].
  rewrite !set_core_same.
  eexists.
  exists (Table.orderByDesc StoryView.viewedAt
            (filter (fun v => String.eqb (StoryView.storyId v) k)
                    (storyViews (core d)))).
  split; [reflexivity|].
  split; [apply orderByDesc_perm|]. split; [apply orderByDesc_sorted|].
  apply Forall2_map_self. intros view Hview.
  apply (Permutation_in _ (orderByDesc_perm StoryView.viewedAt _)) in Hview.
  apply filter_In in Hview. destruct Hview as [_ Hk].
  apply String.eqb_eq in Hk.
  cbn [storyRouter.Viewer.viewer storyRouter.Viewer.viewedAt
       storyRouter.Viewer.reaction].
  split; [reflexivity|]. split; [reflexivity|]. rewrite Hk.
  destruct (find _ (filter _ (reactions d))) as [r|] eqn:E;
    cbn [option_map]; split; try discriminate.
  - intros ty [= <-]. apply find_some in E. destruct E as [Hin Hu].
    apply filter_In in Hin. destruct Hin as [Hin Hs].
    apply String.eqb_eq in Hu. unfold column_is in Hs.
    destruct (Reaction.storyId r) as [x|] eqn:Ex; [|discriminate].
    apply String.eqb_eq in Hs. subst x.
    exists r. now repeat split.
  - intros _ r Hr [Hu Hs].
    assert (Hin : In r (filter
                          (fun r => column_is k (Reaction.storyId r))
                          (reactions d))).
    { apply filter_In. split; [exact Hr|]. rewrite Hs. cbn.
      apply String.eqb_refl. }
    pose proof (find_none _ _ E r Hin) as Hno. cbn beta in Hno.
    rewrite Hu, String.eqb_refl in Hno. discriminate.
Qed.



